(** * VMC-Static: the authentication core of the road-damage portal

    A shallow embedding of the two server variants of the repository
    (the in-memory [STATIC_USERS] server and the MongoDB-backed server):
    the auth middleware [authenticateToken], the bootstrap seeder
    [seedDefaultUsers] and the [/api/register], [/api/login] and
    [/api/user] handlers.

    JavaScript strings are byte strings ([string]); a JavaScript object
    is an association list in insertion order, and so are a stored
    document and the claim set of a token.  Asynchronous, fallible calls
    run in a state-and-exception monad over the [world]: the user
    collection, the console, the clock, and a schedule [outages] saying
    which of the coming store calls fail.  The libraries the servers
    call (jsonwebtoken, bcrypt, Mongoose) are modelled after the spec;
    their cryptography is a parameter ([Crypto]). *)

From Stdlib Require Import String Ascii List ZArith NArith Bool Lia.
From Stdlib Require Import DecimalString DecimalZ.
Import ListNotations.

Local Open Scope string_scope.
Local Open Scope list_scope.
Local Open Scope Z_scope.

Infix "+++" := String.append (at level 60, right associativity).

(** ** JavaScript values and objects *)

(** The values that a field of a request body, of a stored document or
    of a claim set takes here: [undefined], [null], a boolean, an
    integer number or a string.  A field holding an object or an array
    (a query operator given where a username is expected, for one) is
    not covered: every statement below is about requests, documents and
    claims whose fields are of these five kinds. *)
Inductive jsval : Type :=
| JUndefined
| JNull
| JBool (b : bool)
| JNum (n : Z)
| JStr (s : string).

(** [!v] is [negb (truthy v)]. *)
Definition truthy (v : jsval) : bool :=
  match v with
  | JUndefined | JNull => false
  | JBool b => b
  | JNum n => negb (n =? 0)
  | JStr s => negb (String.eqb s EmptyString)
  end.

Definition jsval_eqb (a b : jsval) : bool :=
  match a, b with
  | JUndefined, JUndefined => true
  | JNull, JNull => true
  | JBool x, JBool y => Bool.eqb x y
  | JNum x, JNum y => x =? y
  | JStr x, JStr y => String.eqb x y
  | _, _ => false
  end.

(** A value read from a place that may hold a string or nothing
    ([req.headers[...]], a body field, a schema field of type String). *)
Definition of_field (f : option string) : jsval :=
  match f with
  | Some s => JStr s
  | None => JUndefined
  end.

Definition obj : Type := list (string * jsval).

(** [o[k]]: the value of property [k], [undefined] when there is none. *)
Fixpoint obj_get (o : obj) (k : string) : jsval :=
  match o with
  | [] => JUndefined
  | (k', v) :: o' => if String.eqb k' k then v else obj_get o' k
  end.

(** [o[k] = v]: overwrite in place, or append a new property. *)
Fixpoint obj_set (o : obj) (k : string) (v : jsval) : obj :=
  match o with
  | [] => [(k, v)]
  | (k', v') :: o' =>
      if String.eqb k' k then (k, v) :: o' else (k', v') :: obj_set o' k v
  end.

(** The rest of a destructuring [{ k: _, ...rest } = o]. *)
Definition obj_without (k : string) (o : obj) : obj :=
  filter (fun kv => negb (String.eqb (fst kv) k)) o.

Definition has_key (k : string) (o : obj) : bool :=
  existsb (fun kv => String.eqb (fst kv) k) o.

Definition keys (o : obj) : list string := map fst o.

(** An object literal [{ k1: v1, ... }]; a later duplicate key wins. *)
Definition obj_literal (members : list (string * jsval)) : obj :=
  fold_left (fun o kv => obj_set o (fst kv) (snd kv)) members [].

(** ** [String.prototype.split] with a one-character separator *)

Fixpoint split (sep : ascii) (s : string) : list string :=
  match s with
  | EmptyString => [EmptyString]
  | String c s' =>
      if Ascii.eqb c sep then EmptyString :: split sep s'
      else match split sep s' with
           | seg :: segs => String c seg :: segs
           | [] => [String c EmptyString]
           end
  end.

(** [a[i]] on an array of strings. *)
Definition index (a : list string) (i : nat) : jsval :=
  of_field (nth_error a i).

(** [a && b] where [a] is JavaScript-falsy or not. *)
Definition js_and (a : jsval) (b : jsval) : jsval :=
  if truthy a then b else a.

Fixpoint contains (c : ascii) (s : string) : bool :=
  match s with
  | EmptyString => false
  | String c' s' => Ascii.eqb c' c || contains c s'
  end.

(** ** base64url without padding

    The segments of a token are base64url text (section 4.3 of the
    spec); the encoder belongs to the token library, which is not under
    src/. *)

Definition b64_alphabet : string :=
  "ABCDEFGHIJKLMNOPQRSTUVWXYZabcdefghijklmnopqrstuvwxyz0123456789-_".

Definition b64_char (n : N) : ascii :=
  match String.get (N.to_nat n) b64_alphabet with
  | Some c => c
  | None => "A"%char
  end.

Definition in_range (lo hi : ascii) (c : ascii) : bool :=
  ((N_of_ascii lo <=? N_of_ascii c) && (N_of_ascii c <=? N_of_ascii hi))%N.

Definition b64_index (c : ascii) : option N :=
  let n := N_of_ascii c in
  if in_range "A" "Z" c then Some (n - 65)%N
  else if in_range "a" "z" c then Some (n - 97 + 26)%N
  else if in_range "0" "9" c then Some (n - 48 + 52)%N
  else if Ascii.eqb c "-" then Some 62%N
  else if Ascii.eqb c "_" then Some 63%N
  else None.

Fixpoint b64_encode (s : string) : string :=
  match s with
  | EmptyString => EmptyString
  | String a EmptyString =>
      let a := N_of_ascii a in
      String (b64_char (a / 4)) (String (b64_char (a mod 4 * 16)) EmptyString)
  | String a (String b EmptyString) =>
      let a := N_of_ascii a in
      let b := N_of_ascii b in
      String (b64_char (a / 4))
        (String (b64_char (a mod 4 * 16 + b / 16))
           (String (b64_char (b mod 16 * 4)) EmptyString))
  | String a (String b (String c rest)) =>
      let a := N_of_ascii a in
      let b := N_of_ascii b in
      let c := N_of_ascii c in
      String (b64_char (a / 4))
        (String (b64_char (a mod 4 * 16 + b / 16))
           (String (b64_char (b mod 16 * 4 + c / 64))
              (String (b64_char (c mod 64)) (b64_encode rest))))
  end%N.

Definition byte1 (i1 i2 : N) : ascii := ascii_of_N (i1 * 4 + i2 / 16).
Definition byte2 (i2 i3 : N) : ascii := ascii_of_N (i2 mod 16 * 16 + i3 / 4).
Definition byte3 (i3 i4 : N) : ascii := ascii_of_N (i3 mod 4 * 64 + i4).

Fixpoint b64_decode (s : string) : option string :=
  match s with
  | EmptyString => Some EmptyString
  | String _ EmptyString => None
  | String c1 (String c2 EmptyString) =>
      match b64_index c1, b64_index c2 with
      | Some i1, Some i2 => Some (String (byte1 i1 i2) EmptyString)
      | _, _ => None
      end
  | String c1 (String c2 (String c3 EmptyString)) =>
      match b64_index c1, b64_index c2, b64_index c3 with
      | Some i1, Some i2, Some i3 =>
          Some (String (byte1 i1 i2) (String (byte2 i2 i3) EmptyString))
      | _, _, _ => None
      end
  | String c1 (String c2 (String c3 (String c4 rest))) =>
      match b64_index c1, b64_index c2, b64_index c3, b64_index c4 with
      | Some i1, Some i2, Some i3, Some i4 =>
          match b64_decode rest with
          | Some bytes =>
              Some (String (byte1 i1 i2)
                      (String (byte2 i2 i3) (String (byte3 i3 i4) bytes)))
          | None => None
          end
      | _, _, _, _ => None
      end
  end.

(** ** [JSON.stringify] and [JSON.parse] for flat objects

    The claim set of a token travels as JSON text.  Only what a claim
    set needs is covered: objects whose values are null, booleans,
    integers and strings, with the quote and the backslash escaped. *)

Definition dquote : ascii := Eval cbv in ascii_of_nat 34.
Definition backslash : ascii := Eval cbv in ascii_of_nat 92.

Fixpoint json_escape (s : string) : string :=
  match s with
  | EmptyString => EmptyString
  | String c s' =>
      if Ascii.eqb c dquote || Ascii.eqb c backslash
      then String backslash (String c (json_escape s'))
      else String c (json_escape s')
  end.

Definition json_quote (s : string) : string :=
  String dquote (json_escape s +++ String dquote EmptyString).

Definition json_number (n : Z) : string :=
  NilEmpty.string_of_int (Z.to_int n).

Definition json_value (v : jsval) : string :=
  match v with
  | JUndefined => EmptyString
  | JNull => "null"
  | JBool true => "true"
  | JBool false => "false"
  | JNum n => json_number n
  | JStr s => json_quote s
  end.

Definition is_defined (kv : string * jsval) : bool :=
  match snd kv with
  | JUndefined => false
  | _ => true
  end.

Fixpoint json_members (o : obj) : string :=
  match o with
  | [] => "}"
  | (k, v) :: o' =>
      json_quote k +++ ":" +++ json_value v +++
      match o' with
      | [] => "}"
      | _ :: _ => "," +++ json_members o'
      end
  end.

(** Properties whose value is [undefined] are left out. *)
Definition JSON_stringify (o : obj) : string :=
  "{" +++ json_members (filter is_defined o).

(** The characters after an opening quote, up to the closing one. *)
Fixpoint parse_string_body (s : string) : option (string * string) :=
  match s with
  | EmptyString => None
  | String c r =>
      if Ascii.eqb c dquote then Some (EmptyString, r)
      else if Ascii.eqb c backslash then
        match r with
        | String e r' =>
            if Ascii.eqb e dquote || Ascii.eqb e backslash then
              match parse_string_body r' with
              | Some (body, rest) => Some (String e body, rest)
              | None => None
              end
            else None
        | EmptyString => None
        end
      else
        match parse_string_body r with
        | Some (body, rest) => Some (String c body, rest)
        | None => None
        end
  end.

Definition digit_of (c : ascii) : option (Decimal.uint -> Decimal.uint) :=
  match c with
  | "0" => Some Decimal.D0 | "1" => Some Decimal.D1 | "2" => Some Decimal.D2
  | "3" => Some Decimal.D3 | "4" => Some Decimal.D4 | "5" => Some Decimal.D5
  | "6" => Some Decimal.D6 | "7" => Some Decimal.D7 | "8" => Some Decimal.D8
  | "9" => Some Decimal.D9
  | _ => None
  end%char.

(** The longest prefix of decimal digits, and what follows it. *)
Fixpoint take_uint (s : string) : Decimal.uint * string :=
  match s with
  | EmptyString => (Decimal.Nil, EmptyString)
  | String c r =>
      match digit_of c with
      | Some d => let (u, rest) := take_uint r in (d u, rest)
      | None => (Decimal.Nil, s)
      end
  end.

Fixpoint strip_prefix (p s : string) : option string :=
  match p, s with
  | EmptyString, _ => Some s
  | String a p', String b s' => if Ascii.eqb a b then strip_prefix p' s' else None
  | String _ _, EmptyString => None
  end.

Definition parse_number (s : string) : option (jsval * string) :=
  match s with
  | String "-" r =>
      match take_uint r with
      | (Decimal.Nil, _) => None
      | (u, rest) => Some (JNum (Z.of_int (Decimal.Neg u)), rest)
      end
  | _ =>
      match take_uint s with
      | (Decimal.Nil, _) => None
      | (u, rest) => Some (JNum (Z.of_int (Decimal.Pos u)), rest)
      end
  end.

Definition parse_value (s : string) : option (jsval * string) :=
  match s with
  | EmptyString => None
  | String c r =>
      if Ascii.eqb c dquote then
        match parse_string_body r with
        | Some (body, rest) => Some (JStr body, rest)
        | None => None
        end
      else
        match strip_prefix "null" s, strip_prefix "true" s, strip_prefix "false" s with
        | Some rest, _, _ => Some (JNull, rest)
        | _, Some rest, _ => Some (JBool true, rest)
        | _, _, Some rest => Some (JBool false, rest)
        | None, None, None => parse_number s
        end
  end.

(** [key:value] pairs separated by commas, closed by a brace. *)
Fixpoint parse_members (fuel : nat) (s : string) : option (list (string * jsval) * string) :=
  match fuel with
  | O => None
  | S fuel' =>
      match s with
      | EmptyString => None
      | String q r =>
          if Ascii.eqb q dquote then
            match parse_string_body r with
            | Some (k, String ":" r1) =>
                match parse_value r1 with
                | Some (v, String "," r2) =>
                    match parse_members fuel' r2 with
                    | Some (members, rest) => Some ((k, v) :: members, rest)
                    | None => None
                    end
                | Some (v, String "}" rest) => Some ([(k, v)], rest)
                | _ => None
                end
            | _ => None
            end
          else None
      end
  end.

Definition JSON_parse (s : string) : option obj :=
  match s with
  | String "{" (String "}" EmptyString) => Some []
  | String "{" r =>
      match parse_members (String.length r) r with
      | Some (members, EmptyString) => Some (obj_literal members)
      | _ => None
      end
  | _ => None
  end.

(** ** The world the server runs in *)

Inductive error : Type :=
| DuplicateKey (key : jsval)   (* the unique index on [username] refused a document *)
| StoreError                   (* the store could not serve a call *)
| CastError (v : jsval)        (* a value could not be cast to the schema type *)
| BcryptError.                 (* data and hash must be strings *)

(** The calls made to the store and to bcrypt, in order. *)
Inductive call : Type :=
| FindOne (username : jsval)
| FindById (id : jsval)
| Save (username : jsval)
| Hash (data : jsval)
| Compare (data : jsval).

Record world : Type := mkWorld {
  users : list obj;                        (* the User collection *)
  next_id : N;                             (* the ObjectId generator *)
  salts : N;                               (* bcrypt's salt generator *)
  clock : Z;                               (* Date.now(), in seconds *)
  outages : list bool;                     (* whether each coming store call fails *)
  console : list (string * option error);  (* console.log and console.error *)
  calls : list call
}.

Inductive outcome (A : Type) : Type :=
| Return (a : A)
| Throw (e : error).
Arguments Return {A} a.
Arguments Throw {A} e.

(** An async function: it may change the world, and it returns or throws. *)
Definition M (A : Type) : Type := world -> outcome A * world.

Definition ret {A} (a : A) : M A := fun w => (Return a, w).

Definition throw {A} (e : error) : M A := fun w => (Throw e, w).

Definition bind {A B} (c : M A) (k : A -> M B) : M B :=
  fun w =>
    match c w with
    | (Return a, w') => k a w'
    | (Throw e, w') => (Throw e, w')
    end.

(** [try { body } catch (error) { handler }] *)
Definition try_catch {A} (body : M A) (handler : error -> M A) : M A :=
  fun w =>
    match body w with
    | (Return a, w') => (Return a, w')
    | (Throw e, w') => handler e w'
    end.

Notation "x <- c ;; k" := (bind c (fun x => k))
  (at level 61, c at next level, right associativity).
Notation "c ;; k" := (bind c (fun _ => k))
  (at level 61, right associativity).

Definition get_world : M world := fun w => (Return w, w).

Definition Date_now : M Z := fun w => (Return (clock w), w).

Definition record (c : call) : M unit :=
  fun w => (Return tt,
            mkWorld (users w) (next_id w) (salts w) (clock w) (outages w)
                    (console w) (calls w ++ [c])).

Definition console_log (msg : string) : M unit :=
  fun w => (Return tt,
            mkWorld (users w) (next_id w) (salts w) (clock w) (outages w)
                    (console w ++ [(msg, None)]) (calls w)).

Definition console_error (msg : string) (e : error) : M unit :=
  fun w => (Return tt,
            mkWorld (users w) (next_id w) (salts w) (clock w) (outages w)
                    (console w ++ [(msg, Some e)]) (calls w)).

(** Every call to the store consumes one entry of [outages]. *)
Definition store_call : M unit :=
  fun w =>
    match outages w with
    | [] => (Return tt, w)
    | down :: rest =>
        let w' := mkWorld (users w) (next_id w) (salts w) (clock w) rest
                          (console w) (calls w) in
        if down then (Throw StoreError, w') else (Return tt, w')
    end.

(** ** The User model (Mongoose, schema [userSchema])

    The source declares the schema: five String fields, [username]
    unique.  A stored document is the object Mongoose hands back:
    [_id], the schema fields that were given, [__v]. *)

(** Modelled from the spec: the Mongoose library is not under src/.
    The fields of a user are strings (section 3): a number or a boolean
    given for one is kept as its string form. *)
Definition cast_String (v : jsval) : jsval :=
  match v with
  | JNum n => JStr (json_number n)
  | JBool true => JStr "true"
  | JBool false => JStr "false"
  | _ => v
  end.

(** Modelled from the spec: the store is not under src/.  The [id] of a
    user is generated by the store on creation (section 3); here the
    n-th identifier is the numeral of n. *)
Definition ObjectId (n : N) : jsval :=
  JStr (NilEmpty.string_of_uint (N.to_uint n)).

Definition has_username (username : jsval) (doc : obj) : bool :=
  jsval_eqb (obj_get doc "username") username.

(** Modelled from the spec: the Mongoose library is not under src/.
    [User.findOne({ username })] is [findByUsername]: the first stored
    user with that username, or not-found (section 4.2). *)
Definition User_findOne (username : jsval) : M (option obj) :=
  record (FindOne username);;
  store_call;;
  w <- get_world;;
  ret (find (has_username (cast_String username)) (users w)).

(** Modelled from the spec: the Mongoose library is not under src/.
    [User.findById(id).select("-password")] is [findById] (section 4.2)
    without the excluded field; an id that is not a string cannot be
    cast to an ObjectId. *)
Definition User_findById_select (id : jsval) (excluded : string) : M (option obj) :=
  record (FindById id);;
  store_call;;
  match id with
  | JStr _ =>
      w <- get_world;;
      ret (option_map (obj_without excluded)
             (find (fun doc => jsval_eqb (obj_get doc "_id") id) (users w)))
  | _ => throw (CastError id)
  end.

(** Modelled from the spec: the Mongoose library is not under src/.
    [new User({ username, password, name, role, department })]: the
    fields are cast to String and the ones left undefined are not
    stored. *)
Definition new_User (username password name role department : jsval) : obj :=
  filter is_defined
    [("username", cast_String username); ("password", cast_String password);
     ("name", cast_String name); ("role", cast_String role);
     ("department", cast_String department)].

(** Modelled from the spec: the Mongoose library and the store are not
    under src/.  [doc.save()] of a new document is [create]: it fails
    with [DuplicateKey] if the username already exists (section 4.2),
    and otherwise stores the document under a fresh [_id]. *)
Definition save (doc : obj) : M obj :=
  record (Save (obj_get doc "username"));;
  store_call;;
  fun w =>
    if existsb (has_username (obj_get doc "username")) (users w)
    then (Throw (DuplicateKey (obj_get doc "username")), w)
    else
      let stored := (("_id", ObjectId (next_id w)) :: doc) ++ [("__v", JNum 0)] in
      (Return stored,
       mkWorld (users w ++ [stored]) (next_id w + 1) (salts w) (clock w)
               (outages w) (console w) (calls w)).

(** [User.create({ ... })] *)
Definition User_create (username password name role department : jsval) : M obj :=
  save (new_User username password name role department).

(** [doc.toObject()] *)
Definition toObject (doc : obj) : obj := doc.

(** ** Requests and responses *)

Record request : Type := mkRequest {
  headers : list (string * string);   (* header names in lower case *)
  body : obj;                         (* [req.body], parsed by express.json() *)
  user : obj                          (* [req.user], set by the auth gate *)
}.

Definition header (req : request) (name : string) : option string :=
  match find (fun h => String.eqb (fst h) name) (headers req) with
  | Some h => Some (snd h)
  | None => None
  end.

Definition with_user (req : request) (claims : obj) : request :=
  mkRequest (headers req) (body req) claims.

Inductive json : Type :=
| MessageBody (message : string)                  (* [{ message }] *)
| LoginBody (message token : string) (user : obj) (* [{ message, token, user }] *)
| UserBody (user : obj)                           (* [{ user }] *)
| StatsBody (totalUsers activeServices pendingRequests : Z)
            (systemHealth : string)
            (lastUpdated : Z).   (* the time, not its ISO text *)

Record response : Type := mkResponse {
  status : Z;
  sent : json
}.

(** [res.status(code).json(body)] *)
Definition res_status_json (code : Z) (b : json) : M response :=
  ret (mkResponse code b).

(** [res.json(body)] *)
Definition res_json (b : json) : M response :=
  ret (mkResponse 200 b).

Definition handler : Type := request -> M response.

Definition JWT_SECRET : string :=
  "your-government-secret-key-change-in-production".

(** [expiresIn: '24h'], in seconds. *)
Definition expiresIn_24h : Z := 24 * 60 * 60.

Definition JWT_HEADER : obj := [("alg", JStr "HS256"); ("typ", JStr "JWT")].

Inductive jwt_error : Type :=
| Invalid (reason : string)
| Expired (expiredAt : Z).

Definition STATIC_USERS : list obj :=
  [ [("id", JNum 1); ("username", JStr "admin");
     ("password", JStr "$2b$10$gG9AA3ay2hfKLzdkIcEry.LdnYXJgxRCZqfeNM5jVXCWN8fXO9ryq");
     ("name", JStr "Administrator"); ("role", JStr "admin");
     ("department", JStr "System Administration")];
    [("id", JNum 2); ("username", JStr "officer");
     ("password", JStr "$2b$10$oA4YewNVMnhI/reNaDf9iOqQ3yLLqz8r.CF5wt6PvCZbm05q0X5XS");
     ("name", JStr "John Officer"); ("role", JStr "officer");
     ("department", JStr "Public Services")] ].

Definition findUserByUsername (username : jsval) : option obj :=
  find (fun user => jsval_eqb (obj_get user "username") username) STATIC_USERS.

(** The cryptographic primitives the server is given: the keyed
    signature of the tokens, and bcrypt's digest (from a salt) and check.
    The libraries computing them are not part of the repository. *)
Class Crypto : Type := {
  hmac : string -> string -> string;
  bcrypt_digest : N -> string -> string;
  bcrypt_check : string -> string -> bool
}.

Section Portal.

Context {crypto : Crypto}.

(** *** Token issuer and verifier (jsonwebtoken) *)

Definition signing_input (header_seg payload_seg : string) : string :=
  header_seg +++ "." +++ payload_seg.

(** Modelled from the spec: the jsonwebtoken library is not under src/.
    [issue] signs the claim set with the secret and an expiry;
    the token is three dot-separated base64url segments: header,
    payload, signature (section 4.3). *)
Definition jwt_sign (payload : obj) (secret : string) (expiresIn : Z) (now : Z) : string :=
  let claims := obj_set (obj_set payload "iat" (JNum now)) "exp" (JNum (now + expiresIn)) in
  let input := signing_input (b64_encode (JSON_stringify JWT_HEADER))
                             (b64_encode (JSON_stringify claims)) in
  input +++ "." +++ b64_encode (hmac secret input).

Definition decode_segment (seg : string) : option obj :=
  match b64_decode seg with
  | Some text => JSON_parse text
  | None => None
  end.

(** Modelled from the spec: the jsonwebtoken library is not under src/.
    [verify] fails with [Expired] if past expiry, [Invalid] if the
    signature does not match or the structure is malformed
    (section 4.3). *)
Definition jwt_verify (token : jsval) (secret : string) (now : Z) : jwt_error + obj :=
  match token with
  | JStr token =>
      match split "." token with
      | [header_seg; payload_seg; signature] =>
          match decode_segment header_seg, decode_segment payload_seg with
          | Some header, Some payload =>
              if negb (jsval_eqb (obj_get header "alg") (JStr "HS256"))
              then inl (Invalid "invalid algorithm")
              else if negb (String.eqb signature
                              (b64_encode (hmac secret (signing_input header_seg payload_seg))))
              then inl (Invalid "invalid signature")
              else
                match obj_get payload "exp" with
                | JUndefined => inr payload
                | JNum exp => if exp <=? now then inl (Expired exp) else inr payload
                | _ => inl (Invalid "invalid exp value")
                end
          | _, _ => inl (Invalid "invalid token")
          end
      | _ => inl (Invalid "jwt malformed")
      end
  | _ => inl (Invalid "jwt must be a string")
  end.

(** *** Password hashing (bcrypt) *)

(** Modelled from the spec: the bcrypt library is not under src/.
    [hash] is a salted one-way transform that fails only on invalid
    input, empty or not a string (section 4.1). *)
Definition bcrypt_hash (data : jsval) (rounds : Z) : M string :=
  record (Hash data);;
  match data with
  | JStr plain =>
      if String.eqb plain EmptyString then throw BcryptError
      else
        fun w =>
          (Return (bcrypt_digest (salts w) plain),
           mkWorld (users w) (next_id w) (salts w + 1) (clock w) (outages w)
                   (console w) (calls w))
  | _ => throw BcryptError
  end.

(** Modelled from the spec: the bcrypt library is not under src/.
    [verify] compares a plaintext with a stored hash and returns false
    on mismatch (section 4.1); like [hash], it fails on input that is
    not a string. *)
Definition bcrypt_compare (data : jsval) (hash : jsval) : M bool :=
  record (Compare data);;
  match data, hash with
  | JStr plain, JStr h => ret (bcrypt_check plain h)
  | _, _ => throw BcryptError
  end.

(** *** Auth middleware (the same function in both servers) *)

Definition authenticateToken (req : request) (next : handler) : M response :=
  let authHeader := header req "authorization" in
  let token :=
    js_and (of_field authHeader)
           (match authHeader with
            | Some h => index (split " " h) 1
            | None => JUndefined
            end) in
  if negb (truthy token) then
    res_status_json 401 (MessageBody "Access token required")
  else
    now <- Date_now;;
    match jwt_verify token JWT_SECRET now with
    | inl err => res_status_json 403 (MessageBody "Invalid or expired token")
    | inr user => next (with_user req user)
    end.

(** *** The MongoDB-backed server *)

Definition seedDefaultUsers : M unit :=
  try_catch
    (existingAdmin <- User_findOne (JStr "admin");;
     existingOfficer <- User_findOne (JStr "officer");;
     (match existingAdmin with
      | None =>
          hashedPassword <- bcrypt_hash (JStr "government123") 10;;
          User_create (JStr "admin") (JStr hashedPassword) (JStr "Administrator")
                      (JStr "admin") (JStr "System Administration");;
          console_log "✅ Admin user seeded"
      | Some _ => ret tt
      end);;
     (match existingOfficer with
      | None =>
          hashedPassword <- bcrypt_hash (JStr "officer456") 10;;
          User_create (JStr "officer") (JStr hashedPassword) (JStr "John Officer")
                      (JStr "officer") (JStr "Public Services");;
          console_log "✅ Officer user seeded"
      | Some _ => ret tt
      end))
    (fun error => console_error "❌ Error seeding users:" error).

Definition post_api_register : handler := fun req =>
  try_catch
    (let username := obj_get (body req) "username" in
     let password := obj_get (body req) "password" in
     let name := obj_get (body req) "name" in
     let role := obj_get (body req) "role" in
     let department := obj_get (body req) "department" in
     if negb (truthy username) || negb (truthy password) then
       res_status_json 400 (MessageBody "Username and password required")
     else
       hashedPassword <- bcrypt_hash password 10;;
       let newUser := new_User username (JStr hashedPassword) name role department in
       save newUser;;
       res_status_json 201 (MessageBody "User registered successfully"))
    (fun error =>
       console_error "Register error:" error;;
       res_status_json 500 (MessageBody "Internal server error")).

Definition post_api_login : handler := fun req =>
  try_catch
    (let username := obj_get (body req) "username" in
     let password := obj_get (body req) "password" in
     if negb (truthy username) || negb (truthy password) then
       res_status_json 400 (MessageBody "Username and password are required")
     else
       user <- User_findOne username;;
       match user with
       | None => res_status_json 401 (MessageBody "Invalid credentials")
       | Some user =>
           isPasswordValid <- bcrypt_compare password (obj_get user "password");;
           if negb isPasswordValid then
             res_status_json 401 (MessageBody "Invalid credentials")
           else
             now <- Date_now;;
             let token :=
               jwt_sign [("id", obj_get user "_id");
                         ("username", obj_get user "username");
                         ("role", obj_get user "role")]
                        JWT_SECRET expiresIn_24h now in
             let userWithoutPassword := obj_without "password" (toObject user) in
             res_json (LoginBody "Login successful" token userWithoutPassword)
       end)
    (fun error =>
       console_error "Login error:" error;;
       res_status_json 500 (MessageBody "Internal server error")).

Definition get_api_user_handler : handler := fun req =>
  try_catch
    (user <- User_findById_select (obj_get (user req) "id") "password";;
     match user with
     | None => res_status_json 404 (MessageBody "User not found")
     | Some user => res_json (UserBody user)
     end)
    (fun error =>
       console_error "User fetch error:" error;;
       res_status_json 500 (MessageBody "Internal server error")).

Definition get_api_user : handler := fun req =>
  authenticateToken req get_api_user_handler.

Definition get_api_dashboard_stats : handler := fun req =>
  authenticateToken req (fun req =>
    now <- Date_now;;
    res_json (StatsBody 1247 23 156 "Operational" now)).

(** *** The server over [STATIC_USERS] *)

Definition static_post_api_login : handler := fun req =>
  try_catch
    (let username := obj_get (body req) "username" in
     let password := obj_get (body req) "password" in
     if negb (truthy username) || negb (truthy password) then
       res_status_json 400 (MessageBody "Username and password are required")
     else
       match findUserByUsername username with
       | None => res_status_json 401 (MessageBody "Invalid credentials")
       | Some user =>
           isPasswordValid <- bcrypt_compare password (obj_get user "password");;
           if negb isPasswordValid then
             res_status_json 401 (MessageBody "Invalid credentials")
           else
             now <- Date_now;;
             let token :=
               jwt_sign [("id", obj_get user "id");
                         ("username", obj_get user "username");
                         ("role", obj_get user "role")]
                        JWT_SECRET expiresIn_24h now in
             let userWithoutPassword := obj_without "password" user in
             res_json (LoginBody "Login successful" token userWithoutPassword)
       end)
    (fun error =>
       console_error "Login error:" error;;
       res_status_json 500 (MessageBody "Internal server error")).

Definition static_get_api_user : handler := fun req =>
  authenticateToken req (fun req =>
    match find (fun u => jsval_eqb (obj_get u "id") (obj_get (user req) "id")) STATIC_USERS with
    | None => res_status_json 404 (MessageBody "User not found")
    | Some user =>
        let userWithoutPassword := obj_without "password" user in
        res_json (UserBody userWithoutPassword)
    end).

Definition static_post_api_logout : handler := fun req =>
  authenticateToken req (fun req =>
    res_json (MessageBody "Logged out successfully")).

(** *** The vocabulary of the statements *)

(** What may follow a value inside an object. *)
Definition closes (c : ascii) : Prop := c = ","%char \/ c = "}"%char.

Definition all_defined (o : obj) : Prop :=
  Forall (fun kv => snd kv <> JUndefined) o.

Definition claims_of (payload : obj) (expiresIn now : Z) : obj :=
  obj_set (obj_set payload "iat" (JNum now)) "exp" (JNum (now + expiresIn)).

(** The token that [authenticateToken] takes from a request. *)
Definition token_of (req : request) : jsval :=
  js_and (of_field (header req "authorization"))
         (match header req "authorization" with
          | Some h => index (split " " h) 1
          | None => JUndefined
          end).

Definition unauthenticated : response :=
  mkResponse 401 (MessageBody "Access token required").

Definition forbidden : response :=
  mkResponse 403 (MessageBody "Invalid or expired token").

Definition invalid_credentials : response :=
  mkResponse 401 (MessageBody "Invalid credentials").

Definition internal_error : response :=
  mkResponse 500 (MessageBody "Internal server error").

(** The next call to the store is served. *)
Definition store_up (w : world) : Prop :=
  match outages w with
  | down :: _ => down = false
  | [] => True
  end.

Definition present (v : jsval) : Prop := truthy v = true.

(** The user object of a response has no [password] property. *)
Definition no_password (r : response) : Prop :=
  match sent r with
  | LoginBody _ _ u | UserBody u =>
      has_key "password" u = false /\ obj_get u "password" = JUndefined
  | _ => True
  end.

Definition carries_user (r : response) : Prop :=
  match sent r with
  | LoginBody _ _ _ | UserBody _ => True
  | _ => False
  end.

(** The handler answers every request, and its answer satisfies [P]. *)
Definition answers (h : handler) (P : response -> Prop) : Prop :=
  forall req w, exists resp w', h req w = (Return resp, w') /\ P resp.

Definition login_ok (resp : response) : Prop :=
  no_password resp /\ (status resp = 200 -> carries_user resp).

Definition created : response :=
  mkResponse 201 (MessageBody "User registered successfully").

Definition registered (username : jsval) (w : world) : bool :=
  existsb (has_username (cast_String username)) (users w).

Definition admin_doc (id salt : N) : obj :=
  [("_id", ObjectId id); ("username", JStr "admin");
   ("password", JStr (bcrypt_digest salt "government123"));
   ("name", JStr "Administrator"); ("role", JStr "admin");
   ("department", JStr "System Administration"); ("__v", JNum 0)].

Definition officer_doc (id salt : N) : obj :=
  [("_id", ObjectId id); ("username", JStr "officer");
   ("password", JStr (bcrypt_digest salt "officer456"));
   ("name", JStr "John Officer"); ("role", JStr "officer");
   ("department", JStr "Public Services"); ("__v", JNum 0)].

(** How many stored users have the username. *)
Definition count_username (username : string) (docs : list obj) : nat :=
  length (filter (has_username (JStr username)) docs).

(** The invariant the unique index keeps. *)
Definition unique_usernames (docs : list obj) : Prop :=
  NoDup (map (fun doc => obj_get doc "username") docs).

Definition hashes (cs : list call) : list call :=
  filter (fun c => match c with Hash _ => true | _ => false end) cs.

(** *** Invariants of the store, and what a run may change *)

(** The ids of the stored users are distinct, and each came from the
    generator. *)
Definition ids_fresh (w : world) : Prop :=
  NoDup (map (fun doc => obj_get doc "_id") (users w)) /\
  Forall (fun doc => exists n, (n < next_id w)%N /\ obj_get doc "_id" = ObjectId n)
         (users w).

Definition store_ok (w : world) : Prop :=
  unique_usernames (users w) /\ ids_fresh w.

(** From [w] to [w'] users were only added, at the end, and the store
    stayed in order. *)
Definition grows (w w' : world) : Prop :=
  (exists added, users w' = users w ++ added) /\
  (store_ok w -> store_ok w') /\
  clock w' = clock w.

(** From [w] to [w'] the collection was not touched. *)
Definition untouched (w w' : world) : Prop :=
  users w' = users w /\ next_id w' = next_id w /\ clock w' = clock w.

(** Every run of [m] relates the world before to the world after. *)
Definition respects (R : world -> world -> Prop) {A} (m : M A) : Prop :=
  forall w, R w (snd (m w)).

(** The two users of the static server. *)
Definition static_admin : obj :=
  Eval cbv in nth 0 STATIC_USERS [].

Definition static_officer : obj :=
  Eval cbv in nth 1 STATIC_USERS [].

(** The hash check accepts what the digest made, whatever the salt. *)
Definition bcrypt_sound : Prop :=
  forall salt plain, bcrypt_check plain (bcrypt_digest salt plain) = true.

(** The request carries a token of three segments whose signature is the
    one of [JWT_SECRET] and which has not expired at the time of [w]. *)
Definition valid_bearer (req : request) (w : world) : Prop :=
  exists token header_seg payload_seg signature claims,
    token_of req = JStr token /\
    split "." token = [header_seg; payload_seg; signature] /\
    signature = b64_encode (hmac JWT_SECRET (signing_input header_seg payload_seg)) /\
    decode_segment payload_seg = Some claims /\
    (obj_get claims "exp" = JUndefined \/
     exists exp, obj_get claims "exp" = JNum exp /\ clock w < exp).

(** *** The dashboard: the tallies of the analytics view

    [currentData.reduce((acc, damage) => { ... }, [])]: the reducer looks
    for the item of [acc] with the value of the damage, and counts it up
    in place or pushes a new item with [count: 1]. *)

(** [existing.count++] *)
Definition count_up (item : obj) : obj :=
  match obj_get item "count" with
  | JNum n => obj_set item "count" (JNum (n + 1))
  | _ => item   (* no item is made without a count *)
  end.

(** The object that [acc.find(p)] returned is changed where it sits. *)
Fixpoint change_found (p : obj -> bool) (f : obj -> obj) (acc : list obj) : list obj :=
  match acc with
  | [] => []
  | item :: rest =>
      if p item then f item :: rest else item :: change_found p f rest
  end.

Definition tally (key : string) (acc : list obj) (damage : obj) : list obj :=
  let same := fun item => jsval_eqb (obj_get item key) (obj_get damage key) in
  match find same acc with
  | Some existing => change_found same count_up acc
  | None => acc ++ [[(key, obj_get damage key); ("count", JNum 1)]]
  end.

Definition damageTypeData (currentData : list obj) : list obj :=
  fold_left (tally "type") currentData [].

Definition statusData (currentData : list obj) : list obj :=
  fold_left (tally "status") currentData [].

(** The counts of a chart, added up. *)
Definition total_count (items : list obj) : Z :=
  fold_right (fun item sum =>
                match obj_get item "count" with
                | JNum n => n + sum
                | _ => sum
                end) 0 items.

(** How many of the records have the value under the key. *)
Definition records_with (key : string) (value : jsval) (data : list obj) : Z :=
  Z.of_nat (length (filter (fun d => jsval_eqb (obj_get d key) value) data)).

(** An item of a chart, from its value and its count. *)
Definition chart_item (key : string) (vn : jsval * Z) : obj :=
  [(key, fst vn); ("count", JNum (snd vn))].

(** The reducer on values and counts alone. *)
Fixpoint tally_pairs (value : jsval) (pairs : list (jsval * Z)) : list (jsval * Z) :=
  match pairs with
  | [] => [(value, 1)]
  | (v, n) :: rest =>
      if jsval_eqb v value then (v, n + 1) :: rest else (v, n) :: tally_pairs value rest
  end.

(** What the pairs say of the records seen so far. *)
Definition tallied_by (key : string) (seen : list obj) (pairs : list (jsval * Z)) : Prop :=
  NoDup (map fst pairs) /\
  (forall v n, In (v, n) pairs -> n = records_with key v seen /\ 0 < n) /\
  (forall d, In d seen -> In (obj_get d key) (map fst pairs)).

(** *** The store calls of a seeder run *)

(** The store calls that a served run of the seeder makes: the two
    lookups, and one creation for each default account that is absent. *)
Definition seeder_calls (w : world) : nat :=
  2 + (match find (has_username (JStr "admin")) (users w) with
       | Some _ => 0
       | None => 1
       end)
    + (match find (has_username (JStr "officer")) (users w) with
       | Some _ => 0
       | None => 1
       end).

(** The store refuses one of the next [n] calls. *)
Definition refused (n : nat) (w : world) : bool :=
  existsb (fun down => down) (firstn n (outages w)).

(** The console lines of a served run of the seeder: one for each
    default account that is absent. *)
Definition seeded_logs (w : world) : list (string * option error) :=
  (match find (has_username (JStr "admin")) (users w) with
   | Some _ => []
   | None => [("✅ Admin user seeded", None)]
   end)
  ++ (match find (has_username (JStr "officer")) (users w) with
      | Some _ => []
      | None => [("✅ Officer user seeded", None)]
      end).

End Portal.

(** ** Sample primitives and inputs, for the examples *)

Definition sample_crypto : Crypto := {|
  hmac := fun key msg => key +++ msg;
  bcrypt_digest := fun salt plain => "$2b$10$" +++ plain;
  bcrypt_check := fun plain hash => String.eqb hash ("$2b$10$" +++ plain)
|}.

(** A store with nothing in it, at time 1000, every call served. *)
Definition sample_empty : world := mkWorld [] 0 0 1000 [] [] [].

(** The same store after the seeder ran. *)
Definition sample_seeded : world :=
  Eval vm_compute in snd (seedDefaultUsers (crypto := sample_crypto) sample_empty).

(** A store whose third call, the creation of [admin], is refused. *)
Definition sample_outage : world :=
  mkWorld [] 0 0 1000 [false; false; true] [] [].

(** The token the seeded [admin] gets at time 1000. *)
Definition sample_token : string :=
  Eval vm_compute in
    jwt_sign (crypto := sample_crypto)
      [("id", JStr "0"); ("username", JStr "admin"); ("role", JStr "admin")]
      JWT_SECRET expiresIn_24h 1000.

Definition sample_request (authorization : option string) (fields : obj) : request :=
  mkRequest
    (match authorization with
     | Some h => [("authorization", h)]
     | None => []
     end)
    fields [].

(** The login of the seeded [admin]. *)
Definition sample_login : request :=
  sample_request None [("username", JStr "admin"); ("password", JStr "government123")].

(** A login that the sample hash check accepts on the static server. *)
Definition sample_static_login : request :=
  sample_request None
    [("username", JStr "admin");
     ("password", JStr "gG9AA3ay2hfKLzdkIcEry.LdnYXJgxRCZqfeNM5jVXCWN8fXO9ryq")].

(** A registration of a username that the seeded store does not have. *)
Definition sample_registration : request :=
  sample_request None
    [("username", JStr "bob"); ("password", JStr "secret"); ("name", JStr "Bob")].

Definition sample_damages : list obj :=
  [ [("id", JNum 1); ("type", JStr "Pothole"); ("status", JStr "Pending")];
    [("id", JNum 2); ("type", JStr "Crack"); ("status", JStr "Pending")];
    [("id", JNum 3); ("type", JStr "Pothole"); ("status", JStr "Completed")] ].

Section Properties.

Context {crypto : Crypto}.

(** * Properties *)

(** ** Splitting *)

Lemma split_not_nil sep s : split sep s <> [].
Proof.
  destruct s as [|c s]; simpl; [discriminate|].
  destruct (Ascii.eqb c sep); [discriminate|].
  destruct (split sep s); discriminate.
Qed.

Lemma split_without_sep sep s :
  contains sep s = false -> split sep s = [s].
Proof.
  induction s as [|c s IH]; simpl; intros H; [reflexivity|].
  apply orb_false_iff in H as [Hc Hs].
  rewrite Hc, (IH Hs). reflexivity.
Qed.

Lemma split_app sep a r :
  contains sep a = false ->
  split sep (a +++ String sep r) = a :: split sep r.
Proof.
  induction a as [|c a IH]; simpl; intros H.
  - rewrite Ascii.eqb_refl. reflexivity.
  - apply orb_false_iff in H as [Hc Ha].
    rewrite Hc, (IH Ha). reflexivity.
Qed.

(** ** base64url *)

Lemma string_ind3 (P : string -> Prop) :
  P EmptyString ->
  (forall a, P (String a EmptyString)) ->
  (forall a b, P (String a (String b EmptyString))) ->
  (forall a b c r, P r -> P (String a (String b (String c r)))) ->
  forall s, P s.
Proof.
  intros H0 H1 H2 H3 s.
  assert (H : P s /\ (forall a, P (String a s)) /\ (forall a b, P (String a (String b s)))).
  { induction s as [|c s (IHa & IHb & IHc)].
    - auto.
    - repeat split; auto. }
  apply H.
Qed.

Lemma b64_index_char n : (n < 64)%N -> b64_index (b64_char n) = Some n.
Proof.
  intros H.
  rewrite <- (N2Nat.id n).
  assert (Hn : (N.to_nat n < 64)%nat) by lia.
  generalize dependent (N.to_nat n). clear n H. intros k Hk.
  do 64 (destruct k as [|k]; [reflexivity|]).
  lia.
Qed.

Lemma b64_char_not_dot n : Ascii.eqb (b64_char n) "." = false.
Proof.
  unfold b64_char.
  generalize (N.to_nat n). intros k.
  do 64 (destruct k as [|k]; [reflexivity|]).
  reflexivity.
Qed.

Lemma b64_encode_no_dot s : contains "." (b64_encode s) = false.
Proof.
  induction s as [|a|a b|a b c r IH] using string_ind3;
    cbn [b64_encode contains]; rewrite ?b64_char_not_dot; auto.
Qed.

Ltac byte_arith :=
  repeat match goal with
         | a : ascii |- _ =>
             pose proof (N_ascii_bounded a); generalize dependent (N_of_ascii a);
             clear a; intros a ?
         end;
  zify; Z.to_euclidean_division_equations; lia.

Lemma sextets_in_range (a b c : ascii) :
  let x := N_of_ascii a in
  let y := N_of_ascii b in
  let z := N_of_ascii c in
  (x / 4 < 64 /\ x mod 4 * 16 + y / 16 < 64 /\ x mod 4 * 16 < 64 /\
   y mod 16 * 4 + z / 64 < 64 /\ y mod 16 * 4 < 64 /\ z mod 64 < 64)%N.
Proof. cbv zeta. repeat split; byte_arith. Qed.

Lemma byte1_sextets (a b : ascii) :
  let x := N_of_ascii a in
  let y := N_of_ascii b in
  byte1 (x / 4) (x mod 4 * 16 + y / 16) = a /\ byte1 (x / 4) (x mod 4 * 16) = a.
Proof.
  cbv zeta. unfold byte1.
  split; rewrite <- (ascii_N_embedding a) at 3; f_equal; byte_arith.
Qed.

Lemma byte2_sextets (a b c : ascii) :
  let x := N_of_ascii a in
  let y := N_of_ascii b in
  let z := N_of_ascii c in
  byte2 (x mod 4 * 16 + y / 16) (y mod 16 * 4 + z / 64) = b /\
  byte2 (x mod 4 * 16 + y / 16) (y mod 16 * 4) = b.
Proof.
  cbv zeta. unfold byte2.
  split; rewrite <- (ascii_N_embedding b) at 3; f_equal; byte_arith.
Qed.

Lemma byte3_sextets (b c : ascii) :
  let y := N_of_ascii b in
  let z := N_of_ascii c in
  byte3 (y mod 16 * 4 + z / 64) (z mod 64) = c.
Proof.
  cbv zeta. unfold byte3.
  rewrite <- (ascii_N_embedding c) at 3; f_equal; byte_arith.
Qed.

Lemma b64_decode_encode s : b64_decode (b64_encode s) = Some s.
Proof.
  induction s as [|a|a b|a b c r IH] using string_ind3.
  - reflexivity.
  - destruct (sextets_in_range a a a) as (H1 & _ & H2 & _).
    cbn [b64_encode b64_decode].
    rewrite !b64_index_char by assumption.
    now rewrite (proj2 (byte1_sextets a a)).
  - destruct (sextets_in_range a b b) as (H1 & H2 & _ & _ & H3 & _).
    cbn [b64_encode b64_decode].
    rewrite !b64_index_char by assumption.
    now rewrite (proj1 (byte1_sextets a b)), (proj2 (byte2_sextets a b b)).
  - destruct (sextets_in_range a b c) as (H1 & H2 & _ & H3 & _ & H4).
    cbn [b64_encode b64_decode].
    rewrite !b64_index_char by assumption.
    rewrite IH.
    now rewrite (proj1 (byte1_sextets a b)), (proj1 (byte2_sextets a b c)),
      (byte3_sextets b c).
Qed.

(** ** JSON *)

Lemma append_assoc (a b c : string) : (a +++ b) +++ c = a +++ b +++ c.
Proof. induction a as [|x a IH]; simpl; [reflexivity | now rewrite IH]. Qed.

Lemma length_append (a b : string) :
  String.length (a +++ b) = (String.length a + String.length b)%nat.
Proof. induction a as [|x a IH]; simpl; [reflexivity | now rewrite IH]. Qed.

Lemma parse_string_body_escape s rest :
  parse_string_body (json_escape s +++ String dquote rest) = Some (s, rest).
Proof.
  induction s as [|c s IH]; [reflexivity|].
  cbn [json_escape].
  destruct (Ascii.eqb c dquote) eqn:Hq; cbn [orb].
  - apply Ascii.eqb_eq in Hq. subst c.
    cbn [String.append parse_string_body].
    change (Ascii.eqb backslash dquote) with false.
    rewrite !Ascii.eqb_refl. cbn [orb]. now rewrite IH.
  - destruct (Ascii.eqb c backslash) eqn:Hb.
    + apply Ascii.eqb_eq in Hb. subst c.
      cbn [String.append parse_string_body].
      change (Ascii.eqb backslash dquote) with false.
      rewrite !Ascii.eqb_refl, orb_true_r. now rewrite IH.
    + cbn [String.append parse_string_body].
      now rewrite Hq, Hb, IH.
Qed.

Lemma parse_quote s rest :
  parse_value (json_quote s +++ rest) = Some (JStr s, rest).
Proof.
  unfold json_quote. cbn [String.append parse_value].
  rewrite Ascii.eqb_refl, append_assoc. cbn [String.append].
  now rewrite parse_string_body_escape.
Qed.

Lemma take_uint_print u c rest :
  closes c ->
  take_uint (NilEmpty.string_of_uint u +++ String c rest) = (u, String c rest).
Proof.
  intros Hc.
  induction u as [|u IH|u IH|u IH|u IH|u IH|u IH|u IH|u IH|u IH|u IH];
    cbn [NilEmpty.string_of_uint String.append take_uint];
    try (cbn [digit_of]; now rewrite IH).
  destruct Hc; subst c; reflexivity.
Qed.

Lemma print_uint_head u :
  u <> Decimal.Nil ->
  exists d r, NilEmpty.string_of_uint u = String d r /\ digit_of d <> None.
Proof.
  destruct u; intros H; [congruence| ..];
    cbn [NilEmpty.string_of_uint]; eexists _, _; (split; [reflexivity|]);
    discriminate.
Qed.

Lemma parse_number_print n c rest :
  closes c ->
  parse_value (json_number n +++ String c rest) = Some (JNum n, String c rest).
Proof.
  intros Hc. unfold json_number.
  assert (Hpos : forall u, u <> Decimal.Nil ->
            parse_value (NilEmpty.string_of_uint u +++ String c rest)
            = Some (JNum (Z.of_int (Decimal.Pos u)), String c rest)).
  { intros u Hu.
    pose proof (take_uint_print u c rest Hc) as Ht.
    destruct u; [congruence| ..];
      cbn [NilEmpty.string_of_uint String.append] in *;
      unfold parse_value; cbn [Ascii.eqb Bool.eqb strip_prefix];
      unfold parse_number; rewrite Ht; reflexivity. }
  assert (Hneg : forall u, u <> Decimal.Nil ->
            parse_value (String "-" (NilEmpty.string_of_uint u) +++ String c rest)
            = Some (JNum (Z.of_int (Decimal.Neg u)), String c rest)).
  { intros u Hu.
    cbn [String.append]. unfold parse_value.
    cbn [Ascii.eqb Bool.eqb strip_prefix]. unfold parse_number.
    rewrite (take_uint_print u c rest Hc).
    destruct u; [congruence| ..]; reflexivity. }
  rewrite <- (DecimalZ.of_to n) at 2.
  destruct n as [|p|p]; cbn [Z.to_int NilEmpty.string_of_int].
  - apply Hpos. discriminate.
  - apply Hpos, DecimalPos.Unsigned.to_uint_nonnil.
  - apply Hneg, DecimalPos.Unsigned.to_uint_nonnil.
Qed.

Lemma parse_value_print v c rest :
  closes c -> v <> JUndefined ->
  parse_value (json_value v +++ String c rest) = Some (v, String c rest).
Proof.
  intros Hc Hv.
  destruct v as [| |[|]|n|s]; try congruence; try reflexivity.
  - now apply parse_number_print.
  - apply parse_quote.
Qed.

Lemma filter_is_defined o : all_defined (filter is_defined o).
Proof.
  unfold all_defined. apply Forall_forall. intros kv Hin.
  apply filter_In in Hin as [_ Hd]. unfold is_defined in Hd.
  destruct (snd kv); congruence.
Qed.

Lemma parse_members_print o fuel :
  o <> [] -> all_defined o -> (length o <= fuel)%nat ->
  parse_members fuel (json_members o) = Some (o, EmptyString).
Proof.
  revert fuel.
  induction o as [|[k v] o IH]; intros fuel Hne Hdef Hfuel; [congruence|].
  destruct fuel as [|fuel]; [simpl in Hfuel; lia|].
  inversion Hdef as [|? ? Hv Hdef']; subst. simpl in Hv.
  cbn [json_members parse_members].
  unfold json_quote at 1. cbn [String.append].
  rewrite Ascii.eqb_refl, append_assoc. cbn [String.append].
  rewrite parse_string_body_escape.
  destruct o as [|kv o].
  - rewrite (parse_value_print v "}" EmptyString); auto. now right.
  - cbn [String.append].
    rewrite (parse_value_print v "," _); auto; [|now left].
    rewrite IH; auto; [discriminate | simpl in *; lia].
Qed.

Lemma length_json_members o : (length o <= String.length (json_members o))%nat.
Proof.
  induction o as [|[k v] o IH]; [simpl; lia|].
  cbn [json_members]. rewrite !length_append.
  destruct o; [simpl; lia|].
  rewrite length_append. simpl in *. lia.
Qed.

Lemma obj_set_fresh o k v :
  ~ In k (keys o) -> obj_set o k v = o ++ [(k, v)].
Proof.
  induction o as [|[k' v'] o IH]; simpl; intros Hk; [reflexivity|].
  destruct (String.eqb_spec k' k) as [->|Hne]; [tauto|].
  rewrite IH; tauto.
Qed.

Lemma obj_literal_acc members acc :
  NoDup (keys (acc ++ members)) ->
  fold_left (fun o kv => obj_set o (fst kv) (snd kv)) members acc = acc ++ members.
Proof.
  revert acc.
  induction members as [|[k v] members IH]; intros acc Hnd; simpl.
  - now rewrite app_nil_r.
  - assert (Hk : ~ In k (keys acc)).
    { unfold keys in *. rewrite map_app in Hnd. simpl in Hnd.
      apply NoDup_remove_2 in Hnd. rewrite in_app_iff in Hnd. tauto. }
    rewrite (obj_set_fresh _ _ _ Hk).
    rewrite IH; rewrite <- app_assoc; [reflexivity | exact Hnd].
Qed.

Lemma obj_literal_nodup members :
  NoDup (keys members) -> obj_literal members = members.
Proof. intros H. apply (obj_literal_acc members []). exact H. Qed.

Lemma NoDup_keys_filter f (o : obj) : NoDup (keys o) -> NoDup (keys (filter f o)).
Proof.
  unfold keys.
  induction o as [|kv o IH]; simpl; intros H; [constructor|].
  inversion H as [|? ? Hnotin Hnd]; subst.
  destruct (f kv); simpl; auto.
  constructor; auto.
  intros Hin. apply Hnotin.
  apply in_map_iff in Hin as (x & Hx & Hin).
  apply in_map_iff. exists x. split; auto.
  apply filter_In in Hin. tauto.
Qed.

Lemma JSON_parse_open r :
  JSON_parse (String "{" (String dquote r))
  = match parse_members (String.length (String dquote r)) (String dquote r) with
    | Some (members, EmptyString) => Some (obj_literal members)
    | _ => None
    end.
Proof. reflexivity. Qed.

Lemma json_members_head kv o : exists r, json_members (kv :: o) = String dquote r.
Proof.
  destruct kv as [k v]. cbn [json_members]. unfold json_quote.
  cbn [String.append]. eauto.
Qed.

(** Parsing what was printed gives the object back, without the
    properties that were undefined. *)
Lemma JSON_parse_stringify o :
  NoDup (keys o) -> JSON_parse (JSON_stringify o) = Some (filter is_defined o).
Proof.
  intros Hnd. unfold JSON_stringify.
  pose proof (filter_is_defined o) as Hdef.
  pose proof (NoDup_keys_filter is_defined o Hnd) as Hnd'.
  destruct (filter is_defined o) as [|kv o'] eqn:E; [reflexivity|].
  cbn [String.append].
  destruct (json_members_head kv o') as [r Hr].
  pose proof (parse_members_print (kv :: o') (String.length (json_members (kv :: o'))))
    as Hp.
  rewrite Hr in *. rewrite JSON_parse_open.
  rewrite Hp; [| discriminate | assumption | rewrite <- Hr; apply length_json_members].
  now rewrite obj_literal_nodup.
Qed.

(** ** Objects *)

Lemma obj_get_absent o k : ~ In k (keys o) -> obj_get o k = JUndefined.
Proof.
  induction o as [|[k' v'] o IH]; simpl; intros H; [reflexivity|].
  destruct (String.eqb_spec k' k); [tauto|]. apply IH. tauto.
Qed.

Lemma obj_get_defined o k :
  NoDup (keys o) -> obj_get (filter is_defined o) k = obj_get o k.
Proof.
  induction o as [|[k' v'] o IH]; intros Hnd; [reflexivity|].
  inversion Hnd as [|? ? Hnotin Hnd']; subst.
  cbn [filter]. unfold is_defined at 1. cbn [snd].
  destruct v'; cbn [obj_get]; rewrite ?IH by assumption; try reflexivity.
  destruct (String.eqb_spec k' k) as [->|]; [|reflexivity].
  now apply obj_get_absent.
Qed.

Lemma obj_get_set_same o k v : obj_get (obj_set o k v) k = v.
Proof.
  induction o as [|[k' v'] o IH]; simpl.
  - now rewrite String.eqb_refl.
  - destruct (String.eqb_spec k' k) as [->|Hne]; simpl.
    + now rewrite String.eqb_refl.
    + destruct (String.eqb_spec k' k); [tauto | exact IH].
Qed.

Lemma obj_get_set_other o k v k' :
  k <> k' -> obj_get (obj_set o k v) k' = obj_get o k'.
Proof.
  intros Hne.
  induction o as [|[k0 v0] o IH]; simpl.
  - destruct (String.eqb_spec k k'); [tauto | reflexivity].
  - destruct (String.eqb_spec k0 k) as [->|]; simpl.
    + destruct (String.eqb_spec k k'); [tauto | reflexivity].
    + now rewrite IH.
Qed.

Lemma keys_obj_set o k v :
  keys (obj_set o k v) = if has_key k o then keys o else keys o ++ [k].
Proof.
  unfold has_key.
  induction o as [|[k' v'] o IH]; simpl; [reflexivity|].
  destruct (String.eqb_spec k' k) as [->|]; simpl; [reflexivity|].
  rewrite IH. now destruct (existsb _ o).
Qed.

Lemma has_key_In k o : has_key k o = false -> ~ In k (keys o).
Proof.
  unfold has_key, keys. intros H Hin.
  apply in_map_iff in Hin as ([k' v] & Hk & Hin). simpl in Hk. subst k'.
  assert (existsb (fun kv => String.eqb (fst kv) k) o = true).
  { apply existsb_exists. exists (k, v). split; [assumption|]. apply String.eqb_refl. }
  congruence.
Qed.

Lemma NoDup_keys_obj_set o k v : NoDup (keys o) -> NoDup (keys (obj_set o k v)).
Proof.
  intros Hnd. rewrite keys_obj_set.
  destruct (has_key k o) eqn:E; [assumption|].
  apply NoDup_app; [assumption | repeat constructor; intros [] | ].
  intros x Hx [<-|[]]. exact (has_key_In _ _ E Hx).
Qed.

Lemma obj_get_without k o : obj_get (obj_without k o) k = JUndefined.
Proof.
  unfold obj_without.
  induction o as [|[k' v'] o IH]; simpl; [reflexivity|].
  destruct (String.eqb_spec k' k) as [->|Hne]; simpl; [exact IH|].
  destruct (String.eqb_spec k' k); [tauto | exact IH].
Qed.

Lemma has_key_without k o : has_key k (obj_without k o) = false.
Proof.
  unfold obj_without, has_key.
  induction o as [|[k' v'] o IH]; simpl; [reflexivity|].
  destruct (String.eqb_spec k' k) as [->|Hne]; simpl; [exact IH|].
  destruct (String.eqb_spec k' k); [tauto | exact IH].
Qed.

(** ** Tokens *)

Lemma split_join sep a r :
  contains sep a = false ->
  split sep (a +++ String sep EmptyString +++ r) = a :: split sep r.
Proof. intros H. now apply split_app. Qed.

Lemma split_token h p sig :
  split "." (signing_input (b64_encode h) (b64_encode p) +++ "." +++ b64_encode sig)
  = [b64_encode h; b64_encode p; b64_encode sig].
Proof.
  unfold signing_input. rewrite !append_assoc.
  rewrite split_join by apply b64_encode_no_dot.
  rewrite split_join by apply b64_encode_no_dot.
  rewrite split_without_sep by apply b64_encode_no_dot.
  reflexivity.
Qed.

Lemma decode_segment_encode o :
  NoDup (keys o) ->
  decode_segment (b64_encode (JSON_stringify o)) = Some (filter is_defined o).
Proof.
  intros H. unfold decode_segment.
  now rewrite b64_decode_encode, JSON_parse_stringify.
Qed.

Lemma NoDup_keys_claims payload expiresIn now :
  NoDup (keys payload) -> NoDup (keys (claims_of payload expiresIn now)).
Proof. intros H. unfold claims_of. now do 2 apply NoDup_keys_obj_set. Qed.

(** Verifying a freshly signed token reaches the expiry check with the
    claims that were signed. *)
Lemma jwt_verify_sign payload secret expiresIn now t :
  NoDup (keys payload) ->
  jwt_verify (JStr (jwt_sign payload secret expiresIn now)) secret t
  = if now + expiresIn <=? t then inl (Expired (now + expiresIn))
    else inr (filter is_defined (claims_of payload expiresIn now)).
Proof.
  intros Hnd. unfold jwt_verify, jwt_sign.
  fold (claims_of payload expiresIn now).
  rewrite split_token.
  rewrite (decode_segment_encode JWT_HEADER)
    by (repeat constructor; simpl; intuition discriminate).
  rewrite decode_segment_encode by now apply NoDup_keys_claims.
  change (jsval_eqb (obj_get (filter is_defined JWT_HEADER) "alg") (JStr "HS256")) with true.
  cbn [negb]. rewrite String.eqb_refl. cbn [negb].
  rewrite obj_get_defined by now apply NoDup_keys_claims.
  unfold claims_of at 1. rewrite obj_get_set_same.
  reflexivity.
Qed.

Lemma login_claims (id username role : jsval) now :
  let claims := filter is_defined
    (claims_of [("id", id); ("username", username); ("role", role)] expiresIn_24h now) in
  obj_get claims "id" = id /\ obj_get claims "username" = username /\
  obj_get claims "role" = role /\ obj_get claims "iat" = JNum now /\
  obj_get claims "exp" = JNum (now + expiresIn_24h).
Proof.
  cbv zeta.
  assert (Hnd : NoDup (keys (claims_of [("id", id); ("username", username); ("role", role)]
                                       expiresIn_24h now))).
  { apply NoDup_keys_claims. repeat constructor; simpl; intuition discriminate. }
  rewrite !obj_get_defined by exact Hnd.
  repeat split; reflexivity.
Qed.

Lemma NoDup_login_keys (id username role : jsval) :
  NoDup (keys [("id", id); ("username", username); ("role", role)]).
Proof. repeat constructor; simpl; intuition discriminate. Qed.

(** C3: for every subject id, username and role, verifying with the same
    secret, at the time of issuance, the token issued from them succeeds,
    and the claims it yields have that id, username and role. *)
Theorem issue_verify_roundtrip (secret : string) (id username role : jsval) (now : Z) :
  exists claims,
    jwt_verify (JStr (jwt_sign [("id", id); ("username", username); ("role", role)]
                               secret expiresIn_24h now))
               secret now = inr claims /\
    obj_get claims "id" = id /\
    obj_get claims "username" = username /\
    obj_get claims "role" = role.
Proof.
  eexists. split.
  - rewrite jwt_verify_sign by apply NoDup_login_keys.
    replace (now + expiresIn_24h <=? now) with false; [reflexivity|].
    symmetry. apply Z.leb_gt. unfold expiresIn_24h. lia.
  - destruct (login_claims id username role now) as (H1 & H2 & H3 & _).
    auto.
Qed.

Lemma b64_encode_inj a b : b64_encode a = b64_encode b -> a = b.
Proof.
  intros H. apply (f_equal b64_decode) in H.
  rewrite !b64_decode_encode in H. congruence.
Qed.

Lemma jwt_verify_bad_signature token header_seg payload_seg signature secret t :
  split "." token = [header_seg; payload_seg; signature] ->
  signature <> b64_encode (hmac secret (signing_input header_seg payload_seg)) ->
  exists reason, jwt_verify (JStr token) secret t = inl (Invalid reason).
Proof.
  intros Hsplit Hsig. unfold jwt_verify. rewrite Hsplit.
  destruct (decode_segment header_seg) as [header|]; [|eauto].
  destruct (decode_segment payload_seg) as [payload|]; [|eauto].
  destruct (negb (jsval_eqb (obj_get header "alg") (JStr "HS256"))); [eauto|].
  destruct (String.eqb_spec signature
              (b64_encode (hmac secret (signing_input header_seg payload_seg))));
    [tauto | cbn [negb]; eauto].
Qed.

Lemma jwt_verify_malformed token secret t :
  length (split "." token) <> 3%nat ->
  exists reason, jwt_verify (JStr token) secret t = inl (Invalid reason).
Proof.
  intros H. unfold jwt_verify.
  destruct (split "." token) as [|a [|b [|c [|d l]]]]; simpl in H; eauto; lia.
Qed.

Lemma jwt_verify_undecodable token header_seg payload_seg signature secret t :
  split "." token = [header_seg; payload_seg; signature] ->
  decode_segment header_seg = None \/ decode_segment payload_seg = None ->
  exists reason, jwt_verify (JStr token) secret t = inl (Invalid reason).
Proof.
  intros Hsplit H. unfold jwt_verify. rewrite Hsplit.
  destruct H as [-> | ->]; [eauto|].
  destruct (decode_segment header_seg); eauto.
Qed.

(** C4: an issued token is valid for 24 hours: its verification succeeds
    at any time before the expiry, fails with [Expired] from issuance
    plus 24 hours on, and a token fails with [Invalid] when its signature
    is not the one of the shared secret or its structure is malformed. *)
Theorem token_validity (secret : string) (id username role : jsval) (now t : Z) :
  let payload := [("id", id); ("username", username); ("role", role)] in
  let token := jwt_sign payload secret expiresIn_24h now in
  (t < now + 86400 ->
   exists claims, jwt_verify (JStr token) secret t = inr claims /\
                  obj_get claims "iat" = JNum now /\
                  obj_get claims "exp" = JNum (now + 86400)) /\
  (now + 86400 <= t ->
   jwt_verify (JStr token) secret t = inl (Expired (now + 86400))) /\
  (forall secret',
     hmac secret' (signing_input (b64_encode (JSON_stringify JWT_HEADER))
                     (b64_encode (JSON_stringify (claims_of payload expiresIn_24h now))))
     <> hmac secret (signing_input (b64_encode (JSON_stringify JWT_HEADER))
                     (b64_encode (JSON_stringify (claims_of payload expiresIn_24h now)))) ->
     exists reason, jwt_verify (JStr token) secret' t = inl (Invalid reason)) /\
  (forall forged header_seg payload_seg signature,
     split "." forged = [header_seg; payload_seg; signature] ->
     signature <> b64_encode (hmac secret (signing_input header_seg payload_seg)) ->
     exists reason, jwt_verify (JStr forged) secret t = inl (Invalid reason)) /\
  (forall malformed,
     length (split "." malformed) <> 3%nat ->
     exists reason, jwt_verify (JStr malformed) secret t = inl (Invalid reason)) /\
  (forall malformed header_seg payload_seg signature,
     split "." malformed = [header_seg; payload_seg; signature] ->
     decode_segment header_seg = None \/ decode_segment payload_seg = None ->
     exists reason, jwt_verify (JStr malformed) secret t = inl (Invalid reason)).
Proof.
  cbv zeta.
  change 86400 with expiresIn_24h.
  repeat split.
  - intros Ht. eexists. split.
    + rewrite jwt_verify_sign by apply NoDup_login_keys.
      replace (now + expiresIn_24h <=? t) with false; [reflexivity|].
      symmetry. apply Z.leb_gt. exact Ht.
    + destruct (login_claims id username role now) as (_ & _ & _ & H4 & H5).
      auto.
  - intros Ht.
    rewrite jwt_verify_sign by apply NoDup_login_keys.
    apply Z.leb_le in Ht. now rewrite Ht.
  - intros secret' Hmac.
    eapply jwt_verify_bad_signature.
    + unfold jwt_sign. apply split_token.
    + intros Heq. apply b64_encode_inj in Heq. unfold claims_of in Hmac. congruence.
  - intros forged h p sg. apply jwt_verify_bad_signature.
  - intros malformed. apply jwt_verify_malformed.
  - intros malformed h p sg. apply jwt_verify_undecodable.
Qed.

(** ** The auth gate *)

Lemma authenticateToken_eq req next w :
  authenticateToken req next w =
  if negb (truthy (token_of req)) then (Return unauthenticated, w)
  else match jwt_verify (token_of req) JWT_SECRET (clock w) with
       | inl _ => (Return forbidden, w)
       | inr claims => next (with_user req claims) w
       end.
Proof.
  unfold authenticateToken. fold (token_of req).
  destruct (negb (truthy (token_of req))); [reflexivity|].
  unfold bind, Date_now.
  destruct (jwt_verify (token_of req) JWT_SECRET (clock w)); reflexivity.
Qed.

(** C2: the auth gate is a three-way branch: no token extracted from the
    Authorization header, 401 and the handler is not run; a token whose
    verification fails, 403 and the handler is not run; otherwise the
    handler runs on the request with the decoded claims attached. *)
Theorem auth_gate_three_way (req : request) (next : handler) (w : world) :
  (truthy (token_of req) = false ->
   authenticateToken req next w = (Return unauthenticated, w)) /\
  (forall err,
     truthy (token_of req) = true ->
     jwt_verify (token_of req) JWT_SECRET (clock w) = inl err ->
     authenticateToken req next w = (Return forbidden, w)) /\
  (forall claims,
     truthy (token_of req) = true ->
     jwt_verify (token_of req) JWT_SECRET (clock w) = inr claims ->
     authenticateToken req next w = next (with_user req claims) w /\
     user (with_user req claims) = claims).
Proof.
  rewrite authenticateToken_eq.
  split; [|split].
  - intros ->. reflexivity.
  - intros err -> ->. reflexivity.
  - intros claims -> ->. split; reflexivity.
Qed.

Lemma valid_token_truthy token secret t claims :
  jwt_verify token secret t = inr claims -> truthy token = true.
Proof.
  destruct token as [| | |n|s]; try discriminate.
  destruct s; [discriminate | reflexivity].
Qed.

Lemma token_of_segment req h :
  header req "authorization" = Some h -> h <> EmptyString ->
  token_of req = index (split " " h) 1.
Proof.
  intros Hh Hne. unfold token_of. rewrite Hh. unfold js_and.
  destruct h as [|c h]; [congruence | reflexivity].
Qed.

Lemma token_of_empty_header req :
  header req "authorization" = Some EmptyString -> token_of req = JStr EmptyString.
Proof. intros Hh. unfold token_of. now rewrite Hh. Qed.

(** C10: the scheme word is never checked: whenever the second
    space-separated segment of the Authorization header is a valid token
    the request proceeds, whatever the first segment is, and a header
    with no second segment is answered 401, not 403. *)
Theorem scheme_not_checked (req : request) (next : handler) (w : world) (h : string) :
  header req "authorization" = Some h ->
  (forall token claims,
     nth_error (split " " h) 1 = Some token ->
     jwt_verify (JStr token) JWT_SECRET (clock w) = inr claims ->
     authenticateToken req next w = next (with_user req claims) w) /\
  (forall token claims,
     contains " " token = false ->
     jwt_verify (JStr token) JWT_SECRET (clock w) = inr claims ->
     h = "Basic " +++ token ->
     authenticateToken req next w = next (with_user req claims) w) /\
  (nth_error (split " " h) 1 = None ->
   authenticateToken req next w = (Return unauthenticated, w)) /\
  (contains " " h = false ->
   authenticateToken req next w = (Return unauthenticated, w)).
Proof.
  intros Hh.
  rewrite authenticateToken_eq.
  destruct (String.eqb_spec h EmptyString) as [->|Hne].
  { rewrite (token_of_empty_header req Hh).
    repeat split; try reflexivity; intros; discriminate. }
  rewrite (token_of_segment req h Hh Hne). unfold index.
  assert (Hseg : forall token claims,
     nth_error (split " " h) 1 = Some token ->
     jwt_verify (JStr token) JWT_SECRET (clock w) = inr claims ->
     (if negb (truthy (of_field (nth_error (split " " h) 1)))
      then (Return unauthenticated, w)
      else match jwt_verify (of_field (nth_error (split " " h) 1)) JWT_SECRET (clock w) with
           | inl _ => (Return forbidden, w)
           | inr claims => next (with_user req claims) w
           end) = next (with_user req claims) w).
  { intros token claims -> Hv. cbn [of_field].
    rewrite (valid_token_truthy _ _ _ _ Hv), Hv. reflexivity. }
  split; [|split; [|split]].
  - exact Hseg.
  - intros token claims Hsp Hv ->. apply (Hseg token claims); [|exact Hv].
    change ("Basic " +++ token) with ("Basic" +++ " " +++ token).
    rewrite split_join by reflexivity.
    now rewrite split_without_sep.
  - intros ->. reflexivity.
  - intros Hsp. now rewrite split_without_sep.
Qed.

(** ** Login *)

Local Arguments jwt_sign : simpl never.
Local Arguments jwt_verify : simpl never.
Local Arguments findUserByUsername : simpl never.

Ltac unfold_monad :=
  unfold try_catch, bind, ret, throw, get_world, Date_now, record, console_log,
    console_error, store_call, res_status_json, res_json in *.

Ltac store_is_up w H :=
  unfold store_up in H; destruct w as [us nid sl clk outs con cls];
  cbn [outages users next_id salts clock console calls] in *;
  destruct outs as [|down outs]; [|subst down].

Lemma login_unknown_user req w :
  present (obj_get (body req) "username") ->
  present (obj_get (body req) "password") ->
  store_up w ->
  find (has_username (cast_String (obj_get (body req) "username"))) (users w) = None ->
  fst (post_api_login req w) = Return invalid_credentials.
Proof.
  unfold present. intros Hu Hp Hup Hfind.
  unfold post_api_login, User_findOne. rewrite Hu, Hp. cbn [negb orb].
  store_is_up w Hup; unfold_monad; cbn; rewrite Hfind; reflexivity.
Qed.

Lemma login_wrong_password req w doc plain hash :
  present (obj_get (body req) "username") ->
  obj_get (body req) "password" = JStr plain ->
  plain <> EmptyString ->
  store_up w ->
  find (has_username (cast_String (obj_get (body req) "username"))) (users w) = Some doc ->
  obj_get doc "password" = JStr hash ->
  bcrypt_check plain hash = false ->
  fst (post_api_login req w) = Return invalid_credentials.
Proof.
  unfold present. intros Hu Hp Hne Hup Hfind Hhash Hcheck.
  unfold post_api_login, User_findOne, bcrypt_compare. rewrite Hu, Hp.
  assert (Ht : truthy (JStr plain) = true).
  { destruct plain; [congruence | reflexivity]. }
  rewrite Ht. cbn [negb orb].
  store_is_up w Hup; unfold_monad; cbn; rewrite Hfind, Hhash, Hcheck; reflexivity.
Qed.

Lemma static_login_unknown_user req w :
  present (obj_get (body req) "username") ->
  present (obj_get (body req) "password") ->
  findUserByUsername (obj_get (body req) "username") = None ->
  fst (static_post_api_login req w) = Return invalid_credentials.
Proof.
  unfold present. intros Hu Hp Hfind.
  unfold static_post_api_login. rewrite Hu, Hp, Hfind. reflexivity.
Qed.

Lemma static_login_wrong_password req w user plain hash :
  present (obj_get (body req) "username") ->
  obj_get (body req) "password" = JStr plain ->
  plain <> EmptyString ->
  findUserByUsername (obj_get (body req) "username") = Some user ->
  obj_get user "password" = JStr hash ->
  bcrypt_check plain hash = false ->
  fst (static_post_api_login req w) = Return invalid_credentials.
Proof.
  unfold present. intros Hu Hp Hne Hfind Hhash Hcheck.
  unfold static_post_api_login, bcrypt_compare. rewrite Hu, Hp, Hfind.
  assert (Ht : truthy (JStr plain) = true).
  { destruct plain; [congruence | reflexivity]. }
  rewrite Ht. cbn [negb orb].
  unfold_monad. cbn. rewrite Hhash, Hcheck. reflexivity.
Qed.

Lemma login_missing req w :
  truthy (obj_get (body req) "username") = false \/
  truthy (obj_get (body req) "password") = false ->
  post_api_login req w
  = (Return (mkResponse 400 (MessageBody "Username and password are required")), w).
Proof.
  intros H. unfold post_api_login.
  replace (negb (truthy (obj_get (body req) "username"))
           || negb (truthy (obj_get (body req) "password"))) with true.
  - reflexivity.
  - destruct H as [-> | ->]; cbn; [reflexivity | now rewrite orb_true_r].
Qed.

Lemma static_login_missing req w :
  truthy (obj_get (body req) "username") = false \/
  truthy (obj_get (body req) "password") = false ->
  static_post_api_login req w
  = (Return (mkResponse 400 (MessageBody "Username and password are required")), w).
Proof.
  intros H. unfold static_post_api_login.
  replace (negb (truthy (obj_get (body req) "username"))
           || negb (truthy (obj_get (body req) "password"))) with true.
  - reflexivity.
  - destruct H as [-> | ->]; cbn; [reflexivity | now rewrite orb_true_r].
Qed.

(** A password that is present but is not a string makes [bcrypt.compare]
    throw: the login of a known user ends in the handler's [catch]. *)
Lemma login_non_string_password req w doc :
  present (obj_get (body req) "username") ->
  present (obj_get (body req) "password") ->
  (forall plain, obj_get (body req) "password" <> JStr plain) ->
  store_up w ->
  find (has_username (cast_String (obj_get (body req) "username"))) (users w) = Some doc ->
  fst (post_api_login req w) = Return internal_error /\
  console (snd (post_api_login req w)) = console w ++ [("Login error:", Some BcryptError)].
Proof.
  unfold present. intros Hu Hp Hns Hup Hfind.
  unfold post_api_login, User_findOne, bcrypt_compare. rewrite Hu, Hp. cbn [negb orb].
  store_is_up w Hup; unfold_monad; cbn; rewrite Hfind; cbn;
    (destruct (obj_get (body req) "password") as [| | | |plain] eqn:E;
     [| | | |now destruct (Hns plain)]); split; reflexivity.
Qed.

Lemma static_login_non_string_password req w user :
  present (obj_get (body req) "username") ->
  present (obj_get (body req) "password") ->
  (forall plain, obj_get (body req) "password" <> JStr plain) ->
  findUserByUsername (obj_get (body req) "username") = Some user ->
  fst (static_post_api_login req w) = Return internal_error /\
  console (snd (static_post_api_login req w))
  = console w ++ [("Login error:", Some BcryptError)].
Proof.
  unfold present. intros Hu Hp Hns Hfind.
  unfold static_post_api_login, bcrypt_compare. rewrite Hu, Hp, Hfind. cbn [negb orb].
  unfold_monad; cbn;
    (destruct (obj_get (body req) "password") as [| | | |plain] eqn:E;
     [| | | |now destruct (Hns plain)]); split; reflexivity.
Qed.

(** On string passwords the two failure causes of a login are answered
    alike.  With a username present and a non-empty string password, an
    unknown username and a known username whose password the hash check
    rejects get the same response, 401 with the message
    [Invalid credentials], in both servers (the store serving the lookup
    in the MongoDB-backed one).  A request whose username or password is
    missing or empty is answered 400 before any lookup, and leaves
    everything as it was, whether or not the user exists. *)
Theorem login_failures_indistinguishable (req : request) (w : world) :
  (truthy (obj_get (body req) "username") = false \/
   truthy (obj_get (body req) "password") = false ->
   post_api_login req w
   = (Return (mkResponse 400 (MessageBody "Username and password are required")), w) /\
   static_post_api_login req w
   = (Return (mkResponse 400 (MessageBody "Username and password are required")), w)) /\
  (present (obj_get (body req) "username") ->
   present (obj_get (body req) "password") ->
   (store_up w ->
    find (has_username (cast_String (obj_get (body req) "username"))) (users w) = None ->
    fst (post_api_login req w) = Return invalid_credentials) /\
   (forall doc plain hash,
      store_up w ->
      find (has_username (cast_String (obj_get (body req) "username"))) (users w) = Some doc ->
      obj_get (body req) "password" = JStr plain ->
      obj_get doc "password" = JStr hash ->
      bcrypt_check plain hash = false ->
      fst (post_api_login req w) = Return invalid_credentials) /\
   (findUserByUsername (obj_get (body req) "username") = None ->
    fst (static_post_api_login req w) = Return invalid_credentials) /\
   (forall user plain hash,
      findUserByUsername (obj_get (body req) "username") = Some user ->
      obj_get (body req) "password" = JStr plain ->
      obj_get user "password" = JStr hash ->
      bcrypt_check plain hash = false ->
      fst (static_post_api_login req w) = Return invalid_credentials)).
Proof.
  split.
  { intros H. split; [now apply login_missing | now apply static_login_missing]. }
  intros Hu Hp.
  assert (Hplain : forall plain, obj_get (body req) "password" = JStr plain ->
                                 plain <> EmptyString).
  { intros plain E ->. unfold present in Hp. rewrite E in Hp. discriminate. }
  split; [|split; [|split]].
  - now apply login_unknown_user.
  - intros doc plain hash Hup Hfind Hpw Hhash Hcheck.
    apply (login_wrong_password req w doc plain hash); auto.
  - now apply static_login_unknown_user.
  - intros u plain hash Hfind Hpw Hhash Hcheck.
    apply (static_login_wrong_password req w u plain hash); auto.
Qed.

(** C1: the code departs from the claim on a login whose password is
    present but is not a string (a number, or [true]).  For a username
    that no stored user has the answer is 401 [Invalid credentials]; for
    a username that a stored user has the hash check throws and the
    answer is 500 [Internal server error], with the error logged.  The
    two answers differ, in both servers: the response of such a login
    tells whether the username exists. *)
Theorem login_non_string_password_reveals_user (req : request) (w : world) :
  present (obj_get (body req) "username") ->
  present (obj_get (body req) "password") ->
  (forall plain, obj_get (body req) "password" <> JStr plain) ->
  (store_up w ->
   find (has_username (cast_String (obj_get (body req) "username"))) (users w) = None ->
   fst (post_api_login req w) = Return invalid_credentials) /\
  (forall doc,
     store_up w ->
     find (has_username (cast_String (obj_get (body req) "username"))) (users w) = Some doc ->
     fst (post_api_login req w) = Return internal_error /\
     console (snd (post_api_login req w)) = console w ++ [("Login error:", Some BcryptError)]) /\
  (findUserByUsername (obj_get (body req) "username") = None ->
   fst (static_post_api_login req w) = Return invalid_credentials) /\
  (forall user,
     findUserByUsername (obj_get (body req) "username") = Some user ->
     fst (static_post_api_login req w) = Return internal_error /\
     console (snd (static_post_api_login req w))
     = console w ++ [("Login error:", Some BcryptError)]) /\
  invalid_credentials <> internal_error.
Proof.
  intros Hu Hp Hns.
  split; [|split; [|split; [|split]]].
  - now apply login_unknown_user.
  - intros doc Hup Hfind. now apply (login_non_string_password req w doc).
  - now apply static_login_unknown_user.
  - intros u Hfind. now apply (static_login_non_string_password req w u).
  - discriminate.
Qed.

(** A successful login carries a token issued for the stored user, with
    the 24-hour expiry, at the time of the request. *)
Lemma login_token_is_issued req w w' message token u :
  post_api_login req w = (Return (mkResponse 200 (LoginBody message token u)), w') ->
  exists doc,
    In doc (users w) /\
    u = obj_without "password" doc /\
    token = jwt_sign [("id", obj_get doc "_id"); ("username", obj_get doc "username");
                      ("role", obj_get doc "role")] JWT_SECRET expiresIn_24h (clock w).
Proof.
  destruct w as [us nid sl clk outs con cls].
  unfold post_api_login, User_findOne, bcrypt_compare, toObject. unfold_monad. cbn.
  destruct (negb (truthy (obj_get (body req) "username"))
            || negb (truthy (obj_get (body req) "password"))); [discriminate|].
  cbn.
  assert (Hfound : forall doc,
            find (has_username (cast_String (obj_get (body req) "username"))) us = Some doc ->
            In doc us) by (intros doc Hf; now apply find_some in Hf).
  destruct outs as [|[|] outs]; cbn; try discriminate;
    (destruct (find _ us) as [doc|] eqn:Hf; cbn; [|discriminate]);
    (destruct (obj_get (body req) "password"); cbn; try discriminate);
    (destruct (obj_get doc "password"); cbn; try discriminate);
    (destruct (bcrypt_check _ _); cbn; [|discriminate]);
    intros [= <- <- <- <-]; exists doc; auto.
Qed.

(** ** What a response carries of a user *)

Ltac innermost x :=
  lazymatch x with
  | context [match _ with _ => _ end] => fail
  | _ => idtac
  end.

Ltac case_split :=
  repeat match goal with
         | |- context [match ?x with _ => _ end] => innermost x; destruct x eqn:?; cbn
         end.

Lemma no_password_without m t u :
  no_password (mkResponse 200 (LoginBody m t (obj_without "password" u))).
Proof. split; [apply has_key_without | apply obj_get_without]. Qed.

Lemma no_password_user u :
  no_password (mkResponse 200 (UserBody (obj_without "password" u))).
Proof. split; [apply has_key_without | apply obj_get_without]. Qed.

Lemma post_api_login_answers : answers post_api_login login_ok.
Proof.
  intros req [us nid sl clk outs con cls].
  unfold post_api_login, User_findOne, bcrypt_compare, toObject. unfold_monad. cbn.
  case_split; eexists _, _; (split; [reflexivity|]);
    (split; [try exact I; apply no_password_without | cbn; intros; try discriminate; exact I]).
Qed.

Lemma static_post_api_login_answers : answers static_post_api_login login_ok.
Proof.
  intros req w.
  unfold static_post_api_login, bcrypt_compare. unfold_monad. cbn.
  case_split; eexists _, _; (split; [reflexivity|]);
    (split; [try exact I; apply no_password_without | cbn; intros; try discriminate; exact I]).
Qed.

Lemma option_map_without (found : option obj) u :
  option_map (obj_without "password") found = Some u ->
  no_password (mkResponse 200 (UserBody u)).
Proof.
  destruct found as [doc|]; [|discriminate].
  intros [= <-]. apply no_password_user.
Qed.

Lemma get_api_user_answers : answers get_api_user login_ok.
Proof.
  intros req [us nid sl clk outs con cls].
  unfold get_api_user. rewrite authenticateToken_eq.
  unfold get_api_user_handler, User_findById_select. unfold_monad. cbn.
  case_split; eexists _, _; (split; [reflexivity|]);
    (split; [try exact I; eapply option_map_without; eassumption
            | cbn; intros; try discriminate; exact I]).
Qed.

Lemma static_get_api_user_answers : answers static_get_api_user login_ok.
Proof.
  intros req w.
  unfold static_get_api_user. rewrite authenticateToken_eq.
  unfold_monad.
  destruct (negb (truthy (token_of req)));
    [eexists _, _; split; [reflexivity|]; split; [exact I | discriminate]|].
  destruct (jwt_verify (token_of req) JWT_SECRET (clock w)) as [err|claims];
    [eexists _, _; split; [reflexivity|]; split; [exact I | discriminate]|].
  destruct (find _ STATIC_USERS) as [u|];
    eexists _, _; (split; [reflexivity|]);
    (split; [try exact I; apply no_password_user | cbn; intros; try discriminate; exact I]).
Qed.

(** C7: the stored password is never serialized out: each endpoint that
    returns a user answers every request, and the user object of its
    answer, so that of every successful login and of every successful
    GET /api/user, has no [password] property. *)
Theorem password_never_serialized (req : request) (w : world) :
  (exists resp w',
     post_api_login req w = (Return resp, w') /\
     no_password resp /\ (status resp = 200 -> carries_user resp)) /\
  (exists resp w',
     get_api_user req w = (Return resp, w') /\
     no_password resp /\ (status resp = 200 -> carries_user resp)) /\
  (exists resp w',
     static_post_api_login req w = (Return resp, w') /\
     no_password resp /\ (status resp = 200 -> carries_user resp)) /\
  (exists resp w',
     static_get_api_user req w = (Return resp, w') /\
     no_password resp /\ (status resp = 200 -> carries_user resp)).
Proof.
  split; [|split; [|split]].
  - apply post_api_login_answers.
  - apply get_api_user_answers.
  - apply static_post_api_login_answers.
  - apply static_get_api_user_answers.
Qed.

(** ** Registration *)

Lemma present_string plain : present (JStr plain) -> plain <> EmptyString.
Proof. unfold present. intros H ->. discriminate. Qed.

Lemma new_User_username username password name role department :
  present username ->
  obj_get (new_User username password name role department) "username"
  = cast_String username.
Proof.
  unfold present, new_User.
  destruct username as [| |[|]|n|u]; cbn; try discriminate; reflexivity.
Qed.

Lemma stored_username id username password name role department :
  present username ->
  obj_get ((("_id", id) :: new_User username password name role department)
             ++ [("__v", JNum 0)]) "username"
  = cast_String username.
Proof.
  unfold present, new_User.
  destruct username as [| |[|]|n|u]; cbn; try discriminate; reflexivity.
Qed.

Lemma register_missing req w :
  truthy (obj_get (body req) "username") = false \/
  truthy (obj_get (body req) "password") = false ->
  post_api_register req w
  = (Return (mkResponse 400 (MessageBody "Username and password required")), w).
Proof.
  intros H. unfold post_api_register.
  replace (negb (truthy (obj_get (body req) "username"))
           || negb (truthy (obj_get (body req) "password"))) with true.
  - reflexivity.
  - destruct H as [-> | ->]; cbn; [reflexivity | now rewrite orb_true_r].
Qed.

Lemma register_fresh req w plain :
  present (obj_get (body req) "username") ->
  obj_get (body req) "password" = JStr plain ->
  plain <> EmptyString ->
  store_up w ->
  registered (obj_get (body req) "username") w = false ->
  exists w' stored,
    post_api_register req w = (Return created, w') /\
    users w' = users w ++ [stored] /\
    obj_get stored "username" = cast_String (obj_get (body req) "username").
Proof.
  intros Hu Hp Hne Hup Hfresh.
  pose proof (new_User_username (obj_get (body req) "username")
                (JStr (bcrypt_digest (salts w) plain))
                (obj_get (body req) "name") (obj_get (body req) "role")
                (obj_get (body req) "department") Hu) as Hname.
  unfold registered in Hfresh.
  unfold post_api_register, bcrypt_hash, save.
  rewrite Hp, Hu. apply String.eqb_neq in Hne.
  assert (Ht : truthy (JStr plain) = true) by (cbn; now rewrite Hne).
  rewrite Ht, Hne. cbn [negb orb].
  store_is_up w Hup; unfold_monad; cbn [fst snd outages users next_id salts clock console calls] in *;
    rewrite Hname, Hfresh; eexists _, _; (split; [reflexivity|]);
    (split; [reflexivity|]); now apply stored_username.
Qed.

Lemma register_duplicate req w :
  present (obj_get (body req) "username") ->
  present (obj_get (body req) "password") ->
  registered (obj_get (body req) "username") w = true ->
  exists w',
    post_api_register req w = (Return internal_error, w') /\
    users w' = users w /\
    (store_up w ->
     forall plain, obj_get (body req) "password" = JStr plain ->
     console w' = console w ++
       [("Register error:", Some (DuplicateKey (cast_String (obj_get (body req) "username"))))]).
Proof.
  unfold present. intros Hu Hp Hdup.
  pose proof (fun p => new_User_username (obj_get (body req) "username") p
                (obj_get (body req) "name") (obj_get (body req) "role")
                (obj_get (body req) "department") Hu) as Hname.
  unfold registered in Hdup.
  unfold post_api_register, bcrypt_hash, save. rewrite Hu, Hp. cbn [negb orb].
  destruct w as [us nid sl clk outs con cls].
  cbn [outages users next_id salts clock console calls] in *.
  destruct (obj_get (body req) "password") as [| | | |plain] eqn:Hpw;
    try (unfold_monad; cbn; eexists; repeat split; try reflexivity;
         intros; discriminate).
  destruct plain as [|c plain]; [discriminate|]. cbn [String.eqb].
  destruct outs as [|[|] outs]; unfold_monad;
    cbn [fst snd outages users next_id salts clock console calls];
    rewrite ?Hname, ?Hdup; eexists; (split; [reflexivity|]);
    (split; [reflexivity|]); unfold store_up; cbn [outages];
    intros; try discriminate; reflexivity.
Qed.

(** C8, as amended: POST /api/register answers 400 when the username or
    the password is missing or empty, whatever the other fields are and
    without looking at name, role and department; with a username, a
    non-empty string password and a username no stored user has, it
    answers 201 with a message, the store serving the call. *)
Theorem register_validation (req : request) (w : world) :
  (truthy (obj_get (body req) "username") = false \/
   truthy (obj_get (body req) "password") = false ->
   post_api_register req w
   = (Return (mkResponse 400 (MessageBody "Username and password required")), w)) /\
  (forall plain,
     present (obj_get (body req) "username") ->
     obj_get (body req) "password" = JStr plain ->
     plain <> EmptyString ->
     store_up w ->
     registered (obj_get (body req) "username") w = false ->
     exists w' stored,
       post_api_register req w
       = (Return (mkResponse 201 (MessageBody "User registered successfully")), w') /\
       users w' = users w ++ [stored] /\
       obj_get stored "username" = cast_String (obj_get (body req) "username")).
Proof.
  split.
  - apply register_missing.
  - intros plain. apply register_fresh.
Qed.

(** C9: registering a username that a stored user already has fails: the
    store refuses the document with [DuplicateKey], the caller gets
    HTTP 500 (not 409), and the collection is left as it was. *)
Theorem register_duplicate_is_500 (req : request) (w : world) (plain : string) :
  present (obj_get (body req) "username") ->
  obj_get (body req) "password" = JStr plain ->
  plain <> EmptyString ->
  store_up w ->
  registered (obj_get (body req) "username") w = true ->
  exists w',
    post_api_register req w
    = (Return (mkResponse 500 (MessageBody "Internal server error")), w') /\
    status (mkResponse 500 (MessageBody "Internal server error")) <> 409 /\
    users w' = users w /\
    console w' = console w ++
      [("Register error:", Some (DuplicateKey (cast_String (obj_get (body req) "username"))))].
Proof.
  intros Hu Hp Hne Hup Hdup.
  assert (Hpp : present (obj_get (body req) "password")).
  { rewrite Hp. unfold present. cbn. apply String.eqb_neq in Hne. now rewrite Hne. }
  destruct (register_duplicate req w Hu Hpp Hdup) as (w' & Hrun & Husers & Hlog).
  exists w'. split; [exact Hrun|]. split; [discriminate|].
  split; [exact Husers|]. exact (Hlog Hup plain Hp).
Qed.


(** ** The bootstrap seeder *)

Lemma existsb_find {A} (f : A -> bool) l :
  existsb f l = match find f l with Some _ => true | None => false end.
Proof.
  induction l as [|x l IH]; simpl; [reflexivity|].
  destruct (f x); [reflexivity | exact IH].
Qed.

Lemma find_app {A} (f : A -> bool) l l' :
  find f (l ++ l') = match find f l with Some x => Some x | None => find f l' end.
Proof.
  induction l as [|x l IH]; simpl; [reflexivity|].
  destruct (f x); [reflexivity | exact IH].
Qed.

(** One run of the seeder when the store serves every call. *)
Lemma seed_run us nid sl clk con cls :
  seedDefaultUsers (mkWorld us nid sl clk [] con cls) =
  let cls' := (cls ++ [FindOne (JStr "admin")]) ++ [FindOne (JStr "officer")] in
  (Return tt,
   match find (has_username (JStr "admin")) us,
         find (has_username (JStr "officer")) us with
   | Some _, Some _ => mkWorld us nid sl clk [] con cls'
   | None, Some _ =>
       mkWorld (us ++ [admin_doc nid sl]) (nid + 1) (sl + 1) clk []
               (con ++ [("✅ Admin user seeded", None)])
               ((cls' ++ [Hash (JStr "government123")]) ++ [Save (JStr "admin")])
   | Some _, None =>
       mkWorld (us ++ [officer_doc nid sl]) (nid + 1) (sl + 1) clk []
               (con ++ [("✅ Officer user seeded", None)])
               ((cls' ++ [Hash (JStr "officer456")]) ++ [Save (JStr "officer")])
   | None, None =>
       mkWorld ((us ++ [admin_doc nid sl]) ++ [officer_doc (nid + 1) (sl + 1)])
               (nid + 1 + 1) (sl + 1 + 1) clk []
               ((con ++ [("✅ Admin user seeded", None)]) ++ [("✅ Officer user seeded", None)])
               ((((cls' ++ [Hash (JStr "government123")]) ++ [Save (JStr "admin")])
                   ++ [Hash (JStr "officer456")]) ++ [Save (JStr "officer")])
   end)%N.
Proof.
  unfold seedDefaultUsers, User_findOne, User_create, save, bcrypt_hash.
  unfold_monad. cbn.
  destruct (find (has_username (JStr "admin")) us) eqn:Ha,
           (find (has_username (JStr "officer")) us) eqn:Ho; cbn;
    repeat (rewrite ?existsb_app, ?existsb_find, ?Ha, ?Ho; cbn);
    reflexivity.
Qed.

Lemma jsval_eqb_eq a b : jsval_eqb a b = true <-> a = b.
Proof.
  destruct a as [| |x|x|x], b as [| |y|y|y]; simpl;
    try (split; [discriminate | congruence]); try tauto.
  - rewrite Bool.eqb_true_iff. split; congruence.
  - rewrite Z.eqb_eq. split; congruence.
  - rewrite String.eqb_eq. split; congruence.
Qed.

Lemma count_absent u docs :
  find (has_username (JStr u)) docs = None -> count_username u docs = 0%nat.
Proof.
  unfold count_username.
  induction docs as [|d docs IH]; simpl; [reflexivity|].
  destruct (has_username (JStr u) d); [discriminate | exact IH].
Qed.

Lemma find_absent u docs :
  ~ In (JStr u) (map (fun doc => obj_get doc "username") docs) ->
  find (has_username (JStr u)) docs = None.
Proof.
  induction docs as [|d docs IH]; simpl; intros H; [reflexivity|].
  destruct (has_username (JStr u) d) eqn:E.
  - apply jsval_eqb_eq in E. tauto.
  - apply IH. tauto.
Qed.

Lemma count_found u docs d :
  unique_usernames docs ->
  find (has_username (JStr u)) docs = Some d ->
  count_username u docs = 1%nat.
Proof.
  unfold unique_usernames, count_username.
  induction docs as [|x docs IH]; simpl; intros Hnd Hfind; [discriminate|].
  inversion Hnd as [|? ? Hnotin Hnd']; subst.
  destruct (has_username (JStr u) x) eqn:E.
  - apply jsval_eqb_eq in E. rewrite E in Hnotin.
    simpl. f_equal. apply (count_absent u docs). now apply find_absent.
  - now apply IH.
Qed.

Lemma count_app u docs docs' :
  count_username u (docs ++ docs')
  = (count_username u docs + count_username u docs')%nat.
Proof. unfold count_username. now rewrite filter_app, length_app. Qed.

Lemma unique_usernames_app docs d :
  unique_usernames docs ->
  find (has_username (obj_get d "username")) docs = None ->
  unique_usernames (docs ++ [d]).
Proof.
  unfold unique_usernames. intros Hnd Hfind.
  rewrite map_app. cbn [map].
  apply NoDup_app; [assumption | repeat constructor; intros [] |].
  intros v Hin [<-|[]].
  apply in_map_iff in Hin as (x & Hx & Hin).
  pose proof (find_none _ _ Hfind x Hin) as Hno.
  unfold has_username in Hno.
  assert (jsval_eqb (obj_get x "username") (obj_get d "username") = true)
    by now apply jsval_eqb_eq.
  congruence.
Qed.

(** [save] keeps the usernames unique. *)
Lemma save_keeps_unique doc w stored w' :
  unique_usernames (users w) ->
  obj_get ((("_id", ObjectId (next_id w)) :: doc) ++ [("__v", JNum 0)]) "username"
  = obj_get doc "username" ->
  save doc w = (Return stored, w') ->
  unique_usernames (users w').
Proof.
  intros Hnd Hname.
  unfold save. unfold_monad.
  destruct w as [us nid sl clk outs con cls].
  cbn [users next_id salts clock outages console calls] in *.
  destruct outs as [|[|] outs];
    cbn [users next_id salts clock outages console calls];
    rewrite ?existsb_find;
    try destruct (find (has_username (obj_get doc "username")) us) eqn:E;
    intros [= <- <-]; cbn [users];
    (apply unique_usernames_app; [assumption | ]);
    cbn [app] in *; now rewrite Hname.
Qed.

(** C5: the seeder is idempotent: run twice in a row on the same store, it
    leaves exactly one record for [admin] and one for [officer]; the
    second run creates nothing and computes no hash. *)
Theorem seeder_idempotent (w : world) :
  outages w = [] ->
  unique_usernames (users w) ->
  let w1 := snd (seedDefaultUsers w) in
  let w2 := snd (seedDefaultUsers w1) in
  count_username "admin" (users w2) = 1%nat /\
  count_username "officer" (users w2) = 1%nat /\
  users w2 = users w1 /\
  unique_usernames (users w2) /\
  calls w2 = calls w1 ++ [FindOne (JStr "admin"); FindOne (JStr "officer")] /\
  hashes (calls w2) = hashes (calls w1) /\
  salts w2 = salts w1.
Proof.
  destruct w as [us nid sl clk outs con cls]. cbn [outages users].
  intros -> Huniq. cbv zeta.
  rewrite seed_run. cbv zeta. cbn [snd].
  destruct (find (has_username (JStr "admin")) us) as [a|] eqn:Ha,
           (find (has_username (JStr "officer")) us) as [o|] eqn:Ho;
    rewrite seed_run; cbv zeta; cbn [snd users calls salts];
    rewrite ?find_app, ?Ha, ?Ho; cbn [find has_username obj_get admin_doc officer_doc
      String.eqb Ascii.eqb Bool.eqb jsval_eqb users calls salts].
  - repeat split.
    + exact (count_found _ _ _ Huniq Ha).
    + exact (count_found _ _ _ Huniq Ho).
    + exact Huniq.
    + now rewrite <- app_assoc.
    + unfold hashes. rewrite !filter_app. cbn. now rewrite !app_nil_r.
  - repeat split.
    + rewrite count_app, (count_found _ _ _ Huniq Ha). reflexivity.
    + rewrite count_app, (count_absent _ _ Ho). reflexivity.
    + apply unique_usernames_app; [exact Huniq | exact Ho].
    + now rewrite <- app_assoc.
    + unfold hashes. rewrite !filter_app. cbn. now rewrite !app_nil_r.
  - repeat split.
    + rewrite count_app, (count_absent _ _ Ha). reflexivity.
    + rewrite count_app, (count_found _ _ _ Huniq Ho). reflexivity.
    + apply unique_usernames_app; [exact Huniq | exact Ha].
    + now rewrite <- app_assoc.
    + unfold hashes. rewrite !filter_app. cbn. now rewrite !app_nil_r.
  - repeat split.
    + rewrite !count_app, (count_absent _ _ Ha). reflexivity.
    + rewrite !count_app, (count_absent _ _ Ho). reflexivity.
    + apply unique_usernames_app; [apply unique_usernames_app|];
        [exact Huniq | exact Ha |].
      rewrite find_app. cbn. now rewrite Ho.
    + now rewrite <- app_assoc.
    + unfold hashes. rewrite !filter_app. cbn. now rewrite !app_nil_r.
Qed.

(** The seeder catches whatever is thrown. *)
Lemma seed_never_throws w : fst (seedDefaultUsers w) = Return tt.
Proof.
  destruct w as [us nid sl clk outs con cls].
  unfold seedDefaultUsers, User_findOne, User_create, save, bcrypt_hash.
  unfold_monad. cbn.
  case_split; reflexivity.
Qed.

(** A run in which the store refuses to create [admin]. *)
Lemma seed_admin_fails us nid sl clk rest con cls :
  find (has_username (JStr "admin")) us = None ->
  seedDefaultUsers (mkWorld us nid sl clk (false :: false :: true :: rest) con cls) =
  (Return tt,
   mkWorld us nid (sl + 1) clk rest
           (con ++ [("❌ Error seeding users:", Some StoreError)])
           ((((cls ++ [FindOne (JStr "admin")]) ++ [FindOne (JStr "officer")])
               ++ [Hash (JStr "government123")]) ++ [Save (JStr "admin")]))%N.
Proof.
  intros Ha.
  unfold seedDefaultUsers, User_findOne, User_create, save, bcrypt_hash.
  unfold_monad. cbn. rewrite Ha. cbn.
  destruct (find (has_username (JStr "officer")) us); reflexivity.
Qed.

(** C6, as amended: a failure while seeding does not abort startup: the
    seeder returns normally in every run.  A run in which the store
    refuses one of the calls it needs (a lookup or a creation) ends with
    the error logged, after the line for [admin] if that account was
    created before the failure; a served run logs one line for each
    account it created and no error.  Both accounts are looked up before
    anything is created, and when creating [admin] fails the run ends
    there: nothing is hashed or created for [officer] in that run. *)
Theorem seeder_failure_is_contained (w : world) (rest : list bool) :
  let w' := snd (seedDefaultUsers w) in
  fst (seedDefaultUsers w) = Return tt /\
  (refused (seeder_calls w) w = true ->
   exists logs,
     (logs = [] \/ logs = [("✅ Admin user seeded", None)]) /\
     console w' = console w ++ logs ++ [("❌ Error seeding users:", Some StoreError)]) /\
  (refused (seeder_calls w) w = false ->
   console w' = console w ++ seeded_logs w) /\
  (find (has_username (JStr "admin")) (users w) = None ->
   outages w = false :: false :: true :: rest ->
   users w' = users w /\
   console w' = console w ++ [("❌ Error seeding users:", Some StoreError)] /\
   calls w' = calls w ++ [FindOne (JStr "admin"); FindOne (JStr "officer");
                          Hash (JStr "government123"); Save (JStr "admin")]).
Proof.
  cbv zeta.
  split; [apply seed_never_throws|].
  split; [|split].
  - destruct w as [us nid sl clk outs con cls].
    unfold refused, seeder_calls. cbn [users outages console].
    unfold seedDefaultUsers, User_findOne, User_create, save, bcrypt_hash.
    unfold_monad. cbn.
    destruct (find (has_username (JStr "admin")) us) eqn:Ha,
             (find (has_username (JStr "officer")) us) eqn:Ho;
      destruct outs as [|[|] [|[|] [|[|] [|[|] outs]]]]; cbn;
      repeat (rewrite ?existsb_app, ?existsb_find, ?Ha, ?Ho; cbn);
      try discriminate; intros _;
      first
        [ exists []; split; [now left | reflexivity]
        | exists [("✅ Admin user seeded", None)]; split;
          [now right | now rewrite <- ?app_assoc] ].
  - destruct w as [us nid sl clk outs con cls].
    unfold refused, seeder_calls, seeded_logs. cbn [users outages console].
    unfold seedDefaultUsers, User_findOne, User_create, save, bcrypt_hash.
    unfold_monad. cbn.
    destruct (find (has_username (JStr "admin")) us) eqn:Ha,
             (find (has_username (JStr "officer")) us) eqn:Ho;
      destruct outs as [|[|] [|[|] [|[|] [|[|] outs]]]]; cbn;
      repeat (rewrite ?existsb_app, ?existsb_find, ?Ha, ?Ho; cbn);
      try discriminate; intros _;
      rewrite ?app_nil_r, <- ?app_assoc; reflexivity.
  - destruct w as [us nid sl clk outs con cls].
    cbn [users outages console calls]. intros Ha ->.
    rewrite (seed_admin_fails _ _ _ _ _ _ _ Ha). cbn [snd users console calls].
    repeat split. now rewrite <- !app_assoc.
Qed.

(** ** What a run may change *)

Section Respects.

Variable R : world -> world -> Prop.
Hypothesis R_trans : forall w1 w2 w3, R w1 w2 -> R w2 w3 -> R w1 w3.
Hypothesis R_untouched : forall w w', untouched w w' -> R w w'.

Lemma R_refl w : R w w.
Proof. apply R_untouched. repeat split. Qed.

Lemma respects_untouched {A} (m : M A) : respects untouched m -> respects R m.
Proof. intros H w. apply R_untouched, H. Qed.

Lemma respects_bind {A B} (c : M A) (k : A -> M B) :
  respects R c -> (forall a, respects R (k a)) -> respects R (bind c k).
Proof.
  intros Hc Hk w. unfold bind. specialize (Hc w).
  destruct (c w) as [[a|e] w1]; cbn [snd] in *; [|exact Hc].
  eapply R_trans; [exact Hc | apply Hk].
Qed.

Lemma respects_try_catch {A} (body : M A) (handler : error -> M A) :
  respects R body -> (forall e, respects R (handler e)) ->
  respects R (try_catch body handler).
Proof.
  intros Hb Hh w. unfold try_catch. specialize (Hb w).
  destruct (body w) as [[a|e] w1]; cbn [snd] in *; [exact Hb|].
  eapply R_trans; [exact Hb | apply Hh].
Qed.

End Respects.

Lemma untouched_trans w1 w2 w3 : untouched w1 w2 -> untouched w2 w3 -> untouched w1 w3.
Proof. unfold untouched. intros (A1 & A2 & A3) (B1 & B2 & B3). repeat split; congruence. Qed.

Lemma store_ok_untouched w w' : untouched w w' -> store_ok w -> store_ok w'.
Proof.
  unfold untouched, store_ok, ids_fresh. intros (Hu & Hn & _).
  rewrite Hu, Hn. tauto.
Qed.

Lemma grows_untouched w w' : untouched w w' -> grows w w'.
Proof.
  intros H. pose proof (store_ok_untouched _ _ H) as Hok.
  destruct H as (Hu & Hn & Hc).
  split; [|split]; [exists []; now rewrite app_nil_r | exact Hok | exact Hc].
Qed.

Lemma grows_trans w1 w2 w3 : grows w1 w2 -> grows w2 w3 -> grows w1 w3.
Proof.
  intros ([a Ha] & Hok1 & Hc1) ([b Hb] & Hok2 & Hc2).
  split; [|split]; [| tauto | congruence].
  exists (a ++ b). now rewrite Hb, Ha, app_assoc.
Qed.

(** The calls that leave the collection alone. *)
Lemma untouched_ret {A} (a : A) : respects untouched (ret a).
Proof. intros w. repeat split. Qed.

Lemma untouched_throw {A} e : respects untouched (@throw A e).
Proof. intros w. repeat split. Qed.

Lemma untouched_get_world : respects untouched get_world.
Proof. intros w. repeat split. Qed.

Lemma untouched_Date_now : respects untouched Date_now.
Proof. intros w. repeat split. Qed.

Lemma untouched_record c : respects untouched (record c).
Proof. intros w. repeat split. Qed.

Lemma untouched_console_log msg : respects untouched (console_log msg).
Proof. intros w. repeat split. Qed.

Lemma untouched_console_error msg e : respects untouched (console_error msg e).
Proof. intros w. repeat split. Qed.

Lemma untouched_store_call : respects untouched store_call.
Proof.
  intros w. unfold store_call.
  destruct (outages w) as [|[|] rest]; repeat split.
Qed.

Lemma untouched_res_status_json code b : respects untouched (res_status_json code b).
Proof. intros w. repeat split. Qed.

Lemma untouched_res_json b : respects untouched (res_json b).
Proof. intros w. repeat split. Qed.

Lemma untouched_bcrypt_hash data rounds : respects untouched (bcrypt_hash data rounds).
Proof.
  unfold bcrypt_hash.
  apply (respects_bind untouched untouched_trans); [apply untouched_record|].
  intros _. destruct data as [| | | |plain]; try apply untouched_throw.
  destruct (String.eqb plain EmptyString); [apply untouched_throw|].
  intros w. repeat split.
Qed.

Lemma untouched_bcrypt_compare data hash : respects untouched (bcrypt_compare data hash).
Proof.
  unfold bcrypt_compare.
  apply (respects_bind untouched untouched_trans); [apply untouched_record|].
  intros _. destruct data, hash; try apply untouched_throw. apply untouched_ret.
Qed.

Lemma ObjectId_inj n m : ObjectId n = ObjectId m -> n = m.
Proof.
  unfold ObjectId. intros [= H].
  apply (f_equal NilEmpty.uint_of_string) in H.
  rewrite !NilEmpty.usu in H. injection H as H.
  apply (f_equal N.of_uint) in H.
  now rewrite !DecimalN.Unsigned.of_to in H.
Qed.

Lemma obj_get_app a b k :
  obj_get (a ++ b) k = if has_key k a then obj_get a k else obj_get b k.
Proof.
  unfold has_key.
  induction a as [|[k' v'] a IH]; cbn; [reflexivity|].
  destruct (String.eqb k' k); [reflexivity | exact IH].
Qed.

(** What the store adds to a document does not change its fields. *)
Lemma stored_field id doc k :
  k <> "_id" -> k <> "__v" ->
  obj_get ((("_id", id) :: doc) ++ [("__v", JNum 0)]) k = obj_get doc k.
Proof.
  intros H1 H2. cbn [app obj_get].
  destruct (String.eqb_spec "_id" k); [congruence|].
  rewrite obj_get_app.
  destruct (has_key k doc) eqn:E; [reflexivity|].
  rewrite (obj_get_absent doc k) by now apply has_key_In.
  cbn [obj_get]. destruct (String.eqb_spec "__v" k); [congruence | reflexivity].
Qed.

Lemma store_ok_save_accepted us nid sl clk outs con cls doc :
  find (has_username (obj_get doc "username")) us = None ->
  store_ok (mkWorld us nid sl clk outs con cls) ->
  store_ok (mkWorld (us ++ [(("_id", ObjectId nid) :: doc) ++ [("__v", JNum 0)]])
                    (nid + 1) sl clk outs con cls).
Proof.
  unfold store_ok, ids_fresh. cbn [users next_id].
  intros Hfind (Huniq & Hnd & Hall).
  split; [|split].
  - apply unique_usernames_app; [exact Huniq|].
    rewrite stored_field by discriminate. exact Hfind.
  - rewrite map_app. cbn [map app obj_get String.eqb Ascii.eqb Bool.eqb].
    apply NoDup_app; [exact Hnd | repeat constructor; intros [] |].
    intros v Hin [<-|[]].
    apply in_map_iff in Hin as (d & Hd & Hin).
    rewrite Forall_forall in Hall.
    destruct (Hall d Hin) as (n & Hn & Hid).
    rewrite Hid in Hd. apply ObjectId_inj in Hd. lia.
  - apply Forall_app. split.
    + eapply Forall_impl; [|exact Hall].
      intros d (n & Hn & Hid). exists n. split; [lia | exact Hid].
    + repeat constructor. exists nid. split; [lia | reflexivity].
Qed.

(** [save] only adds, and keeps the store in order. *)
Lemma grows_save doc : respects grows (save doc).
Proof.
  intros [us nid sl clk outs con cls].
  unfold save. unfold_monad. cbn.
  assert (Hsame : forall outs' cls',
            grows (mkWorld us nid sl clk outs con cls)
                  (mkWorld us nid sl clk outs' con cls'))
    by (intros; apply grows_untouched; repeat split).
  assert (Hsave : forall outs' cls',
            grows (mkWorld us nid sl clk outs con cls)
                  (snd (if existsb (has_username (obj_get doc "username")) us
                        then (Throw (DuplicateKey (obj_get doc "username")),
                              mkWorld us nid sl clk outs' con cls')
                        else (Return ((("_id", ObjectId nid) :: doc) ++ [("__v", JNum 0)]),
                              mkWorld (us ++ [(("_id", ObjectId nid) :: doc) ++ [("__v", JNum 0)]])
                                      (nid + 1) sl clk outs' con cls')))).
  { intros outs' cls'. rewrite existsb_find.
    destruct (find (has_username (obj_get doc "username")) us) eqn:Hfind; cbn [snd];
      [apply Hsame|].
    split; [|split]; cbn [users clock]; [eexists; reflexivity | | reflexivity].
    intros Hok. apply store_ok_save_accepted; [exact Hfind|].
    exact (store_ok_untouched _ (mkWorld us nid sl clk outs' con cls')
             (conj eq_refl (conj eq_refl eq_refl)) Hok). }
  destruct outs as [|[|] outs]; cbn; [apply Hsave | apply Hsame | apply Hsave].
Qed.

Ltac run_respects known trans lift :=
  repeat first
    [ known
    | apply (respects_try_catch _ trans)
    | apply (respects_bind _ trans)
    | apply lift; first
        [ apply untouched_ret | apply untouched_throw | apply untouched_get_world
        | apply untouched_Date_now | apply untouched_record
        | apply untouched_console_log | apply untouched_console_error
        | apply untouched_store_call | apply untouched_res_status_json
        | apply untouched_res_json | apply untouched_bcrypt_hash
        | apply untouched_bcrypt_compare ]
    | match goal with
      | |- forall _, _ => intro
      | |- respects _ (if ?c then _ else _) => destruct c
      | |- respects _ (match ?x with _ => _ end) => destruct x
      end ].

Lemma lift_untouched {A} (m : M A) : respects untouched m -> respects untouched m.
Proof. exact (fun H => H). Qed.

Lemma untouched_User_findOne username : respects untouched (User_findOne username).
Proof. unfold User_findOne. run_respects fail untouched_trans @lift_untouched. Qed.

Lemma untouched_User_findById_select id excluded :
  respects untouched (User_findById_select id excluded).
Proof. unfold User_findById_select. run_respects fail untouched_trans @lift_untouched. Qed.

(** The gate changes nothing by itself. *)
Lemma respects_authenticateToken R req (next : handler) :
  (forall w1 w2 w3, R w1 w2 -> R w2 w3 -> R w1 w3) ->
  (forall w w', untouched w w' -> R w w') ->
  (forall req', respects R (next req')) ->
  respects R (authenticateToken req next).
Proof.
  intros Htrans Hlift Hnext w. rewrite authenticateToken_eq.
  destruct (negb (truthy (token_of req))); [apply Hlift; repeat split|].
  destruct (jwt_verify _ _ _); [apply Hlift; repeat split | apply Hnext].
Qed.

Lemma untouched_post_api_login req : respects untouched (post_api_login req).
Proof.
  unfold post_api_login. cbv zeta.
  run_respects ltac:(apply untouched_User_findOne) untouched_trans @lift_untouched.
Qed.

Lemma untouched_get_api_user req : respects untouched (get_api_user req).
Proof.
  unfold get_api_user.
  apply respects_authenticateToken; [apply untouched_trans | auto |].
  intros req'. unfold get_api_user_handler.
  run_respects ltac:(apply untouched_User_findById_select) untouched_trans @lift_untouched.
Qed.

Lemma untouched_static_post_api_login req : respects untouched (static_post_api_login req).
Proof.
  unfold static_post_api_login. cbv zeta.
  run_respects fail untouched_trans @lift_untouched.
Qed.

Lemma untouched_static_get_api_user req : respects untouched (static_get_api_user req).
Proof.
  unfold static_get_api_user.
  apply respects_authenticateToken; [apply untouched_trans | auto |].
  intros req'. run_respects fail untouched_trans @lift_untouched.
Qed.

Lemma grows_post_api_register req : respects grows (post_api_register req).
Proof.
  unfold post_api_register. cbv zeta.
  run_respects ltac:(apply grows_save) grows_trans
    (@respects_untouched grows grows_untouched).
Qed.

Lemma grows_seedDefaultUsers : respects grows seedDefaultUsers.
Proof.
  unfold seedDefaultUsers, User_create.
  run_respects
    ltac:(first [ apply grows_save
                | apply (respects_untouched grows grows_untouched), untouched_User_findOne ])
    grows_trans (@respects_untouched grows grows_untouched).
Qed.

(** ** The answers of the endpoints *)

Ltac answered :=
  case_split; eexists _, _; (split; [reflexivity|]); cbn; tauto.

Lemma register_answers :
  answers post_api_register (fun resp => In (status resp) [201; 400; 500]).
Proof.
  intros req [us nid sl clk outs con cls].
  unfold post_api_register, bcrypt_hash, save. unfold_monad. cbn.
  answered.
Qed.

Lemma login_answers :
  answers post_api_login (fun resp => In (status resp) [200; 400; 401; 500]).
Proof.
  intros req [us nid sl clk outs con cls].
  unfold post_api_login, User_findOne, bcrypt_compare, toObject. unfold_monad. cbn.
  answered.
Qed.

Lemma static_login_answers :
  answers static_post_api_login (fun resp => In (status resp) [200; 400; 401; 500]).
Proof.
  intros req w.
  unfold static_post_api_login, bcrypt_compare. unfold_monad. cbn.
  answered.
Qed.

Lemma user_answers :
  answers get_api_user (fun resp => In (status resp) [200; 401; 403; 404; 500]).
Proof.
  intros req [us nid sl clk outs con cls].
  unfold get_api_user. rewrite authenticateToken_eq.
  unfold get_api_user_handler, User_findById_select. unfold_monad. cbn.
  answered.
Qed.

Lemma static_user_answers :
  answers static_get_api_user (fun resp => In (status resp) [200; 401; 403; 404]).
Proof.
  intros req w.
  unfold static_get_api_user. rewrite authenticateToken_eq. unfold_monad.
  destruct (negb (truthy (token_of req))); [eexists _, _; split; [reflexivity|]; cbn; tauto|].
  destruct (jwt_verify (token_of req) JWT_SECRET (clock w));
    [eexists _, _; split; [reflexivity|]; cbn; tauto|].
  destruct (find _ STATIC_USERS); eexists _, _; (split; [reflexivity|]); cbn; tauto.
Qed.

Lemma stats_answers :
  answers get_api_dashboard_stats (fun resp => In (status resp) [200; 401; 403]).
Proof.
  intros req w.
  unfold get_api_dashboard_stats. rewrite authenticateToken_eq. unfold_monad.
  answered.
Qed.

Lemma logout_answers :
  answers static_post_api_logout (fun resp => In (status resp) [200; 401; 403]).
Proof.
  intros req w.
  unfold static_post_api_logout. rewrite authenticateToken_eq. unfold_monad.
  answered.
Qed.

(** Every endpoint answers every request, whatever the store does, and
    its status is one of a few: no exception leaves a handler. *)
Theorem endpoints_always_answer (req : request) (w : world) :
  (exists resp w', post_api_register req w = (Return resp, w') /\
                   In (status resp) [201; 400; 500]) /\
  (exists resp w', post_api_login req w = (Return resp, w') /\
                   In (status resp) [200; 400; 401; 500]) /\
  (exists resp w', get_api_user req w = (Return resp, w') /\
                   In (status resp) [200; 401; 403; 404; 500]) /\
  (exists resp w', get_api_dashboard_stats req w = (Return resp, w') /\
                   In (status resp) [200; 401; 403]) /\
  (exists resp w', static_post_api_login req w = (Return resp, w') /\
                   In (status resp) [200; 400; 401; 500]) /\
  (exists resp w', static_get_api_user req w = (Return resp, w') /\
                   In (status resp) [200; 401; 403; 404]) /\
  (exists resp w', static_post_api_logout req w = (Return resp, w') /\
                   In (status resp) [200; 401; 403]).
Proof.
  repeat split.
  - apply register_answers.
  - apply login_answers.
  - apply user_answers.
  - apply stats_answers.
  - apply static_login_answers.
  - apply static_user_answers.
  - apply logout_answers.
Qed.

(** Login and the profile fetch, in both servers, never change the user
    collection, the id generator or the clock, whatever the request and
    whatever the store does. *)
Theorem reading_endpoints_leave_the_store (req : request) (w : world) :
  forall h : handler,
    In h [post_api_login; get_api_user; static_post_api_login; static_get_api_user] ->
    users (snd (h req w)) = users w /\
    next_id (snd (h req w)) = next_id w /\
    clock (snd (h req w)) = clock w.
Proof.
  intros h Hin. cbn [In] in Hin.
  destruct Hin as [<-|[<-|[<-|[<-|[]]]]].
  - apply untouched_post_api_login.
  - apply untouched_get_api_user.
  - apply untouched_static_post_api_login.
  - apply untouched_static_get_api_user.
Qed.

Lemma grows_find w w' username doc :
  grows w w' ->
  find (has_username username) (users w) = Some doc ->
  find (has_username username) (users w') = Some doc.
Proof.
  intros ([added Hadd] & _) Hfind. now rewrite Hadd, find_app, Hfind.
Qed.

(** Registration and the seeder only add users at the end of the
    collection, whatever the store does: no stored user is changed or
    removed, a username that resolved to a user still resolves to it, and
    a store with distinct usernames and ids keeps them distinct. *)
Theorem writing_only_appends (req : request) (w : world) :
  forall w',
    w' = snd (post_api_register req w) \/ w' = snd (seedDefaultUsers w) ->
    (exists added, users w' = users w ++ added) /\
    (forall username doc,
       find (has_username username) (users w) = Some doc ->
       find (has_username username) (users w') = Some doc) /\
    (store_ok w -> store_ok w').
Proof.
  intros w' Hw'.
  assert (Hg : grows w w').
  { destruct Hw' as [-> | ->];
      [apply grows_post_api_register | apply grows_seedDefaultUsers]. }
  split; [apply Hg|]. split; [|apply Hg].
  intros username doc. now apply grows_find.
Qed.

(** ** Who gets a token *)

Ltac not_200 := intros [= <- <-] Hs; cbn in Hs; discriminate Hs.

Lemma login_success req w w' resp :
  post_api_login req w = (Return resp, w') ->
  status resp = 200 ->
  exists doc plain hash,
    find (has_username (cast_String (obj_get (body req) "username"))) (users w) = Some doc /\
    present (obj_get (body req) "username") /\
    obj_get (body req) "password" = JStr plain /\
    obj_get doc "password" = JStr hash /\
    bcrypt_check plain hash = true /\
    resp = mkResponse 200
             (LoginBody "Login successful"
                (jwt_sign [("id", obj_get doc "_id"); ("username", obj_get doc "username");
                           ("role", obj_get doc "role")] JWT_SECRET expiresIn_24h (clock w))
                (obj_without "password" doc)).
Proof.
  destruct w as [us nid sl clk outs con cls].
  unfold post_api_login, User_findOne, bcrypt_compare, toObject, present.
  unfold_monad. cbn.
  destruct (truthy (obj_get (body req) "username")) eqn:Hu; cbn; [|not_200].
  destruct (truthy (obj_get (body req) "password")) eqn:Hp; cbn; [|not_200].
  destruct outs as [|[|] outs]; cbn; try not_200;
    (destruct (find _ us) as [doc|] eqn:Hf; cbn; [|not_200]);
    (destruct (obj_get (body req) "password") as [| | | |plain]; cbn; try not_200);
    (destruct (obj_get doc "password") as [| | | |hash] eqn:Hh; cbn; try not_200);
    (destruct (bcrypt_check plain hash) eqn:Hc; cbn; [|not_200]);
    intros [= <- <-] _; exists doc, plain, hash; repeat split; auto.
Qed.

Lemma static_login_success req w w' resp :
  static_post_api_login req w = (Return resp, w') ->
  status resp = 200 ->
  exists user plain hash,
    findUserByUsername (obj_get (body req) "username") = Some user /\
    obj_get (body req) "password" = JStr plain /\
    obj_get user "password" = JStr hash /\
    bcrypt_check plain hash = true /\
    resp = mkResponse 200
             (LoginBody "Login successful"
                (jwt_sign [("id", obj_get user "id"); ("username", obj_get user "username");
                           ("role", obj_get user "role")] JWT_SECRET expiresIn_24h (clock w))
                (obj_without "password" user)).
Proof.
  unfold static_post_api_login, bcrypt_compare. unfold_monad. cbn.
  destruct (truthy (obj_get (body req) "username")) eqn:Hu; cbn; [|not_200].
  destruct (truthy (obj_get (body req) "password")) eqn:Hp; cbn; [|not_200].
  destruct (findUserByUsername _) as [u|] eqn:Hf; cbn; [|not_200].
  destruct (obj_get (body req) "password") as [| | | |plain]; cbn; try not_200.
  destruct (obj_get u "password") as [| | | |hash] eqn:Hh; cbn; try not_200.
  destruct (bcrypt_check plain hash) eqn:Hc; cbn; [|not_200].
  intros [= <- <-] _. exists u, plain, hash. repeat split; auto.
Qed.

Lemma findUserByUsername_cases username user :
  findUserByUsername username = Some user ->
  (username = JStr "admin" /\ user = static_admin) \/
  (username = JStr "officer" /\ user = static_officer).
Proof.
  unfold findUserByUsername, STATIC_USERS. cbn [find obj_get String.eqb Ascii.eqb Bool.eqb].
  destruct (jsval_eqb (JStr "admin") username) eqn:E1.
  - apply jsval_eqb_eq in E1. intros [= <-]. left. auto.
  - destruct (jsval_eqb (JStr "officer") username) eqn:E2; [|discriminate].
    apply jsval_eqb_eq in E2. intros [= <-]. right. auto.
Qed.

(** ** A token at the gate *)

Lemma b64_char_not_space n : Ascii.eqb (b64_char n) " " = false.
Proof.
  unfold b64_char.
  generalize (N.to_nat n). intros k.
  do 64 (destruct k as [|k]; [reflexivity|]).
  reflexivity.
Qed.

Lemma b64_encode_no_space s : contains " " (b64_encode s) = false.
Proof.
  induction s as [|a|a b|a b c r IH] using string_ind3;
    cbn [b64_encode contains]; rewrite ?b64_char_not_space; auto.
Qed.

Lemma contains_app c a b : contains c (a +++ b) = contains c a || contains c b.
Proof.
  induction a as [|x a IH]; cbn; [reflexivity|].
  rewrite IH. now rewrite orb_assoc.
Qed.

Lemma jwt_sign_no_space payload secret expiresIn now :
  contains " " (jwt_sign payload secret expiresIn now) = false.
Proof.
  unfold jwt_sign, signing_input.
  rewrite !contains_app, !b64_encode_no_space. reflexivity.
Qed.

(** A header made of a scheme word, a space and an issued token. *)
Lemma token_of_issued req scheme payload secret expiresIn now :
  contains " " scheme = false ->
  header req "authorization"
  = Some (scheme +++ " " +++ jwt_sign payload secret expiresIn now) ->
  token_of req = JStr (jwt_sign payload secret expiresIn now).
Proof.
  intros Hs Hh.
  rewrite (token_of_segment req _ Hh).
  - unfold index. rewrite split_join by exact Hs.
    now rewrite split_without_sep by apply jwt_sign_no_space.
  - destruct scheme; discriminate.
Qed.

Lemma gate_on_issued req next w scheme payload expiresIn now :
  contains " " scheme = false ->
  NoDup (keys payload) ->
  header req "authorization"
  = Some (scheme +++ " " +++ jwt_sign payload JWT_SECRET expiresIn now) ->
  authenticateToken req next w
  = if now + expiresIn <=? clock w then (Return forbidden, w)
    else next (with_user req (filter is_defined (claims_of payload expiresIn now))) w.
Proof.
  intros Hs Hnd Hh.
  rewrite authenticateToken_eq, (token_of_issued _ _ _ _ _ _ Hs Hh).
  rewrite jwt_verify_sign by exact Hnd.
  replace (negb (truthy (JStr (jwt_sign payload JWT_SECRET expiresIn now)))) with false.
  - now destruct (now + expiresIn <=? clock w).
  - destruct (jwt_sign payload JWT_SECRET expiresIn now) eqn:E; [|reflexivity].
    pose proof (jwt_verify_sign payload JWT_SECRET expiresIn now now Hnd) as Hv.
    rewrite E in Hv. unfold jwt_verify in Hv. cbn in Hv.
    destruct (now + expiresIn <=? now); discriminate.
Qed.

Lemma find_by_key (f : obj -> jsval) docs doc :
  NoDup (map f docs) -> In doc docs ->
  find (fun d => jsval_eqb (f d) (f doc)) docs = Some doc.
Proof.
  induction docs as [|x docs IH]; cbn; intros Hnd Hin; [tauto|].
  inversion Hnd as [|? ? Hnotin Hnd']; subst.
  destruct (jsval_eqb (f x) (f doc)) eqn:E.
  - apply jsval_eqb_eq in E. destruct Hin as [->|Hin]; [reflexivity|].
    exfalso. apply Hnotin. rewrite E. now apply in_map.
  - destruct Hin as [->|Hin]; [|now apply IH].
    assert (jsval_eqb (f doc) (f doc) = true) by now apply jsval_eqb_eq.
    congruence.
Qed.

Lemma found_has_username username docs doc :
  find (has_username username) docs = Some doc ->
  In doc docs /\ obj_get doc "username" = username.
Proof.
  intros H. apply find_some in H as [Hin Hu].
  split; [exact Hin | now apply jsval_eqb_eq].
Qed.

(** The session of a login: the token of a successful login is issued
    for the stored user that the lookup found for the submitted username.
    Presented after any scheme word, it passes the gate at every time
    before issuance plus 24 hours: the handler is run on the request with
    [user] set to the claims of the token, which are the id, username and
    role of that stored user, the time of issuance and the expiry, the
    headers and the body as they came.  From issuance plus 24 hours on
    it is answered 403. *)
Theorem login_session_lasts_24h (req : request) (w w' : world) (resp : response) :
  post_api_login req w = (Return resp, w') ->
  status resp = 200 ->
  exists token u doc claims,
    sent resp = LoginBody "Login successful" token u /\
    In doc (users w) /\
    obj_get claims "id" = obj_get doc "_id" /\
    obj_get claims "username" = cast_String (obj_get (body req) "username") /\
    obj_get claims "role" = obj_get doc "role" /\
    (forall (req2 : request) (next : handler) (w2 : world) (scheme : string),
       contains " " scheme = false ->
       header req2 "authorization" = Some (scheme +++ " " +++ token) ->
       (clock w2 < clock w + 86400 ->
        authenticateToken req2 next w2 = next (with_user req2 claims) w2) /\
       (clock w + 86400 <= clock w2 ->
        authenticateToken req2 next w2 = (Return forbidden, w2))) /\
    find (has_username (cast_String (obj_get (body req) "username"))) (users w) = Some doc /\
    obj_get doc "username" = cast_String (obj_get (body req) "username") /\
    obj_get claims "iat" = JNum (clock w) /\
    obj_get claims "exp" = JNum (clock w + 86400) /\
    (forall req2 : request,
       user (with_user req2 claims) = claims /\
       headers (with_user req2 claims) = headers req2 /\
       body (with_user req2 claims) = body req2).
Proof.
  intros Hrun H200.
  destruct (login_success req w w' resp Hrun H200)
    as (doc & plain & hash & Hfind & _ & _ & _ & _ & ->).
  pose proof Hfind as Hfound.
  apply found_has_username in Hfind as [Hin Hname].
  destruct (login_claims (obj_get doc "_id") (obj_get doc "username") (obj_get doc "role")
              (clock w)) as (C1 & C2 & C3 & C4 & C5).
  eexists _, _, doc, _. split; [reflexivity|].
  split; [exact Hin|]. split; [exact C1|].
  split; [now rewrite C2|]. split; [exact C3|].
  split; [|split; [exact Hfound|]; split; [exact Hname|]; split; [exact C4|];
           split; [exact C5|]; intros req2; repeat split].
  - intros req2 next w2 scheme Hs Hh.
    rewrite (gate_on_issued req2 next w2 scheme _ _ _ Hs (NoDup_login_keys _ _ _) Hh).
    change 86400 with expiresIn_24h.
    split; intros Ht.
    + apply Z.leb_gt in Ht. now rewrite Ht.
    + apply Z.leb_le in Ht. now rewrite Ht.
Qed.

(** After a successful login on the static server, the profile fetch
    with that token as bearer, before it expires, returns the user that
    the login returned. *)
Theorem static_login_then_profile (req : request) (w w' : world) (resp : response) :
  static_post_api_login req w = (Return resp, w') ->
  status resp = 200 ->
  exists token u,
    sent resp = LoginBody "Login successful" token u /\
    forall (req2 : request) (w2 : world),
      header req2 "authorization" = Some ("Bearer " +++ token) ->
      clock w2 < clock w + 86400 ->
      static_get_api_user req2 w2 = (Return (mkResponse 200 (UserBody u)), w2).
Proof.
  intros Hrun H200.
  destruct (static_login_success req w w' resp Hrun H200)
    as (u & plain & hash & Hfind & _ & _ & _ & ->).
  eexists _, _. split; [reflexivity|].
  intros req2 w2 Hh Ht.
  unfold static_get_api_user.
  rewrite (gate_on_issued req2 _ w2 "Bearer" _ _ _ eq_refl (NoDup_login_keys _ _ _) Hh).
  change 86400 with expiresIn_24h in Ht.
  apply Z.leb_gt in Ht. rewrite Ht.
  cbn [user with_user].
  destruct (login_claims (obj_get u "id") (obj_get u "username") (obj_get u "role")
              (clock w)) as (C1 & _).
  rewrite C1.
  apply findUserByUsername_cases in Hfind as [[_ ->]|[_ ->]]; reflexivity.
Qed.

(** After a successful login on the MongoDB-backed server, the profile
    fetch with that token as bearer returns the user that the login
    returned: at any later state of the collection whose ids are in
    order, before the token expires and with the store serving. *)
Theorem login_then_profile (req : request) (w w' : world) (resp : response) :
  post_api_login req w = (Return resp, w') ->
  status resp = 200 ->
  exists token u,
    sent resp = LoginBody "Login successful" token u /\
    forall (req2 : request) (w2 : world) (more : list obj),
      header req2 "authorization" = Some ("Bearer " +++ token) ->
      clock w2 < clock w + 86400 ->
      users w2 = users w ++ more ->
      ids_fresh w2 ->
      store_up w2 ->
      fst (get_api_user req2 w2) = Return (mkResponse 200 (UserBody u)).
Proof.
  intros Hrun H200.
  destruct (login_success req w w' resp Hrun H200)
    as (doc & plain & hash & Hfind & _ & _ & _ & _ & ->).
  apply found_has_username in Hfind as [Hin _].
  eexists _, _. split; [reflexivity|].
  intros req2 w2 more Hh Ht Husers [Hnd Hall] Hup.
  assert (Hin2 : In doc (users w2)) by (rewrite Husers; apply in_or_app; now left).
  rewrite Forall_forall in Hall. destruct (Hall doc Hin2) as (n & _ & Hid).
  unfold get_api_user.
  rewrite (gate_on_issued req2 _ w2 "Bearer" _ _ _ eq_refl (NoDup_login_keys _ _ _) Hh).
  change 86400 with expiresIn_24h in Ht.
  apply Z.leb_gt in Ht. rewrite Ht.
  unfold get_api_user_handler, User_findById_select. cbn [user with_user].
  destruct (login_claims (obj_get doc "_id") (obj_get doc "username") (obj_get doc "role")
              (clock w)) as (C1 & _).
  rewrite C1.
  pose proof (find_by_key (fun d => obj_get d "_id") (users w2) doc Hnd Hin2) as Hf.
  cbv beta in Hf. rewrite Hid in *. unfold ObjectId in *.
  store_is_up w2 Hup; unfold_monad; cbn; rewrite Hf; reflexivity.
Qed.

(** ** Registering, then logging in *)

Lemma new_User_password username hash name role department :
  obj_get (new_User username (JStr hash) name role department) "password" = JStr hash.
Proof.
  unfold new_User. cbn [filter is_defined snd cast_String].
  destruct (cast_String username); reflexivity.
Qed.

(** What a served registration of a fresh username stores. *)
Lemma register_stores req w plain :
  present (obj_get (body req) "username") ->
  obj_get (body req) "password" = JStr plain ->
  plain <> EmptyString ->
  store_up w ->
  registered (obj_get (body req) "username") w = false ->
  let stored :=
    (("_id", ObjectId (next_id w))
       :: new_User (obj_get (body req) "username") (JStr (bcrypt_digest (salts w) plain))
                   (obj_get (body req) "name") (obj_get (body req) "role")
                   (obj_get (body req) "department")) ++ [("__v", JNum 0)] in
  fst (post_api_register req w) = Return created /\
  users (snd (post_api_register req w)) = users w ++ [stored] /\
  outages (snd (post_api_register req w)) = tl (outages w).
Proof.
  intros Hu Hp Hne Hup Hfresh.
  pose proof (new_User_username (obj_get (body req) "username")
                (JStr (bcrypt_digest (salts w) plain))
                (obj_get (body req) "name") (obj_get (body req) "role")
                (obj_get (body req) "department") Hu) as Hname.
  unfold registered in Hfresh.
  unfold post_api_register, bcrypt_hash, save.
  rewrite Hp, Hu. apply String.eqb_neq in Hne.
  assert (Ht : truthy (JStr plain) = true) by (cbn; now rewrite Hne).
  rewrite Ht, Hne. cbn [negb orb].
  store_is_up w Hup; unfold_monad;
    cbn [fst snd outages users next_id salts clock console calls tl] in *;
    rewrite Hname, Hfresh; repeat split.
Qed.

Lemma obj_get_without_other k k' o :
  k <> k' -> obj_get (obj_without k o) k' = obj_get o k'.
Proof.
  intros Hne. unfold obj_without.
  induction o as [|[k0 v0] o IH]; cbn; [reflexivity|].
  destruct (String.eqb_spec k0 k) as [->|]; cbn.
  - destruct (String.eqb_spec k k'); [congruence | exact IH].
  - now rewrite IH.
Qed.

(** A user who registered can log in: after a served registration of a
    fresh username, a login with the same username and password is
    answered 200 with a token and the stored user without its password,
    when the hash check accepts what the digest made. *)
Theorem register_then_login (req : request) (w : world) (plain : string) :
  bcrypt_sound ->
  present (obj_get (body req) "username") ->
  obj_get (body req) "password" = JStr plain ->
  plain <> EmptyString ->
  registered (obj_get (body req) "username") w = false ->
  store_up w ->
  store_up (snd (post_api_register req w)) ->
  fst (post_api_register req w) = Return created /\
  exists token u,
    fst (post_api_login req (snd (post_api_register req w)))
    = Return (mkResponse 200 (LoginBody "Login successful" token u)) /\
    obj_get u "username" = cast_String (obj_get (body req) "username") /\
    obj_get u "_id" = ObjectId (next_id w) /\
    obj_get u "password" = JUndefined.
Proof.
  intros Hsound Hu Hp Hne Hfresh Hup Hup1.
  destruct (register_stores req w plain Hu Hp Hne Hup Hfresh) as (Hreg & Husers & _).
  split; [exact Hreg|].
  remember (snd (post_api_register req w)) as w1 eqn:Ew1. clear Ew1.
  remember ((("_id", ObjectId (next_id w))
               :: new_User (obj_get (body req) "username")
                    (JStr (bcrypt_digest (salts w) plain))
                    (obj_get (body req) "name") (obj_get (body req) "role")
                    (obj_get (body req) "department")) ++ [("__v", JNum 0)])
    as stored eqn:Estored.
  assert (Hsname : obj_get stored "username" = cast_String (obj_get (body req) "username")).
  { subst stored. rewrite stored_field by discriminate. now apply new_User_username. }
  assert (Hspw : obj_get stored "password" = JStr (bcrypt_digest (salts w) plain)).
  { subst stored. rewrite stored_field by discriminate. apply new_User_password. }
  assert (Hsid : obj_get stored "_id" = ObjectId (next_id w)).
  { subst stored. reflexivity. }
  clear Estored.
  assert (Hfind : find (has_username (cast_String (obj_get (body req) "username")))
                       (users w1) = Some stored).
  { rewrite Husers, find_app.
    unfold registered in Hfresh. rewrite existsb_find in Hfresh.
    destruct (find _ (users w)); [discriminate|].
    cbn [find]. unfold has_username. rewrite Hsname.
    now rewrite (proj2 (jsval_eqb_eq _ _) eq_refl). }
  exists (jwt_sign [("id", obj_get stored "_id"); ("username", obj_get stored "username");
                    ("role", obj_get stored "role")] JWT_SECRET expiresIn_24h (clock w1)),
         (obj_without "password" stored).
  split; [|split; [|split]].
  - unfold post_api_login, User_findOne, bcrypt_compare, toObject. unfold present in Hu.
    rewrite Hu, Hp.
    assert (Ht : truthy (JStr plain) = true).
    { destruct plain; [congruence | reflexivity]. }
    rewrite Ht. cbn [negb orb]. clear Husers.
    store_is_up w1 Hup1; unfold_monad; cbn; rewrite Hfind; cbn;
      rewrite Hspw, Hsound; reflexivity.
  - now rewrite obj_get_without_other by discriminate.
  - now rewrite obj_get_without_other by discriminate.
  - apply obj_get_without.
Qed.


(** ** What the gate lets through *)

Lemma jwt_verify_sound token secret t claims :
  jwt_verify token secret t = inr claims ->
  exists tk header_seg payload_seg signature,
    token = JStr tk /\
    split "." tk = [header_seg; payload_seg; signature] /\
    signature = b64_encode (hmac secret (signing_input header_seg payload_seg)) /\
    decode_segment payload_seg = Some claims /\
    (obj_get claims "exp" = JUndefined \/
     exists exp, obj_get claims "exp" = JNum exp /\ t < exp).
Proof.
  unfold jwt_verify.
  destruct token as [| | | |tk]; try discriminate.
  destruct (split "." tk) as [|h [|p [|s [|x l]]]] eqn:Hsplit; try discriminate.
  destruct (decode_segment h) as [header|]; [|discriminate].
  destruct (decode_segment p) as [payload|] eqn:Hp; [|discriminate].
  destruct (negb (jsval_eqb (obj_get header "alg") (JStr "HS256"))); [discriminate|].
  destruct (String.eqb_spec s (b64_encode (hmac secret (signing_input h p))))
    as [Hs|]; cbn [negb]; [|discriminate].
  destruct (obj_get payload "exp") as [| | |exp|] eqn:Hexp; try discriminate.
  - intros [= <-]. exists tk, h, p, s. repeat split; auto.
  - destruct (Z.leb_spec exp t); [discriminate|].
    intros [= <-]. exists tk, h, p, s. repeat split; eauto.
Qed.

Lemma gate_200 req (next : handler) w resp w' :
  authenticateToken req next w = (Return resp, w') ->
  status resp = 200 ->
  valid_bearer req w.
Proof.
  rewrite authenticateToken_eq.
  destruct (negb (truthy (token_of req))); [not_200|].
  destruct (jwt_verify (token_of req) JWT_SECRET (clock w)) as [err|claims] eqn:Hv;
    [not_200|].
  intros _ _.
  destruct (jwt_verify_sound _ _ _ _ Hv) as (tk & h & p & s & H1 & H2 & H3 & H4 & H5).
  exists tk, h, p, s, claims. auto.
Qed.

(** A protected endpoint answers 200 only to a request whose token is
    signed with the server's secret and has not expired. *)
Theorem protected_endpoints_need_a_valid_token
        (req : request) (w w' : world) (resp : response) :
  get_api_user req w = (Return resp, w') \/
  get_api_dashboard_stats req w = (Return resp, w') \/
  static_get_api_user req w = (Return resp, w') \/
  static_post_api_logout req w = (Return resp, w') ->
  status resp = 200 ->
  valid_bearer req w.
Proof.
  intros [H|[H|[H|H]]]; exact (gate_200 _ _ _ _ _ H).
Qed.

(** ** The seeder, again *)

(** A run in which the store refused to create [admin] is made good by
    the next run, if the store serves it: both default accounts are then
    stored, once each. *)
Theorem seeder_recovers_on_next_run (w : world) :
  unique_usernames (users w) ->
  find (has_username (JStr "admin")) (users w) = None ->
  outages w = [false; false; true] ->
  let w1 := snd (seedDefaultUsers w) in
  let w2 := snd (seedDefaultUsers w1) in
  users w1 = users w /\
  count_username "admin" (users w2) = 1%nat /\
  count_username "officer" (users w2) = 1%nat /\
  unique_usernames (users w2).
Proof.
  destruct w as [us nid sl clk outs con cls]. cbn [outages users].
  intros Huniq Ha ->. cbv zeta.
  rewrite (seed_admin_fails _ _ _ _ _ _ _ Ha). cbn [snd users].
  split; [reflexivity|].
  rewrite seed_run. cbv zeta. cbn [snd]. rewrite Ha.
  destruct (find (has_username (JStr "officer")) us) as [o|] eqn:Ho; cbn [users].
  - repeat split.
    + rewrite count_app, (count_absent _ _ Ha). reflexivity.
    + rewrite count_app, (count_found _ _ _ Huniq Ho). reflexivity.
    + apply unique_usernames_app; [exact Huniq | exact Ha].
  - repeat split.
    + rewrite !count_app, (count_absent _ _ Ha). reflexivity.
    + rewrite !count_app, (count_absent _ _ Ho). reflexivity.
    + apply unique_usernames_app; [apply unique_usernames_app|];
        [exact Huniq | exact Ha |].
      rewrite find_app. cbn. now rewrite Ho.
Qed.

(** After a served run of the seeder on a store without [admin], the
    default credentials log in as [admin], when the hash check accepts
    what the digest made. *)
Theorem seeded_admin_can_log_in (w : world) (req : request) :
  bcrypt_sound ->
  outages w = [] ->
  find (has_username (JStr "admin")) (users w) = None ->
  obj_get (body req) "username" = JStr "admin" ->
  obj_get (body req) "password" = JStr "government123" ->
  exists token u,
    fst (post_api_login req (snd (seedDefaultUsers w)))
    = Return (mkResponse 200 (LoginBody "Login successful" token u)) /\
    obj_get u "username" = JStr "admin" /\
    obj_get u "role" = JStr "admin" /\
    obj_get u "password" = JUndefined.
Proof.
  intros Hsound Hout Ha Hu Hp.
  destruct w as [us nid sl clk outs con cls]. cbn [outages users] in *. subst outs.
  rewrite seed_run. cbv zeta. cbn [snd]. rewrite Ha.
  assert (Hrun : forall us' nid' sl' con' cls',
    find (has_username (JStr "admin")) us' = Some (admin_doc nid sl) ->
    fst (post_api_login req (mkWorld us' nid' sl' clk [] con' cls'))
    = Return (mkResponse 200
        (LoginBody "Login successful"
           (jwt_sign [("id", ObjectId nid); ("username", JStr "admin"); ("role", JStr "admin")]
                     JWT_SECRET expiresIn_24h clk)
           (obj_without "password" (admin_doc nid sl))))).
  { intros us' nid' sl' con' cls' Hfind.
    unfold post_api_login, User_findOne, bcrypt_compare, toObject.
    rewrite Hu, Hp. unfold_monad. cbn. rewrite Hfind. cbn.
    rewrite Hsound. reflexivity. }
  destruct (find (has_username (JStr "officer")) us) as [o|] eqn:Ho;
    eexists _, _; (split; [apply Hrun; rewrite !find_app, ?Ha; reflexivity|]);
    repeat split.
Qed.

(** ** The tallies of the dashboard *)

Section Tally.

Variable key : string.
Hypothesis key_not_count : key <> "count".

Local Abbreviation item_of := (chart_item key).
Local Abbreviation tallied := (tallied_by key).

Lemma item_of_key vn : obj_get (item_of vn) key = fst vn.
Proof. unfold chart_item. cbn [obj_get]. now rewrite String.eqb_refl. Qed.

Lemma item_of_count vn : obj_get (item_of vn) "count" = JNum (snd vn).
Proof.
  unfold chart_item. cbn [obj_get].
  destruct (String.eqb_spec key "count"); [congruence|].
  reflexivity.
Qed.

Lemma count_up_item vn : count_up (item_of vn) = item_of (fst vn, snd vn + 1).
Proof.
  unfold count_up. rewrite item_of_count.
  unfold chart_item. cbn [obj_set fst snd].
  destruct (String.eqb_spec key "count"); [congruence|].
  reflexivity.
Qed.

Lemma tally_items pairs damage :
  tally key (map item_of pairs) damage
  = map item_of (tally_pairs (obj_get damage key) pairs).
Proof.
  unfold tally.
  induction pairs as [|[v n] pairs IH]; [reflexivity|].
  cbn [map find change_found tally_pairs].
  rewrite item_of_key. cbn [fst].
  destruct (jsval_eqb v (obj_get damage key)) eqn:E.
  - now rewrite count_up_item.
  - cbn [map]. rewrite <- IH.
    destruct (find _ (map item_of pairs)); reflexivity.
Qed.

Lemma fold_tally_items data pairs :
  fold_left (tally key) data (map item_of pairs)
  = map item_of (fold_left (fun ps d => tally_pairs (obj_get d key) ps) data pairs).
Proof.
  revert pairs.
  induction data as [|d data IH]; intros pairs; [reflexivity|].
  cbn [fold_left]. now rewrite tally_items, IH.
Qed.

Lemma records_with_snoc value seen d :
  records_with key value (seen ++ [d])
  = records_with key value seen + (if jsval_eqb (obj_get d key) value then 1 else 0).
Proof.
  unfold records_with. rewrite filter_app, length_app. cbn [filter].
  destruct (jsval_eqb (obj_get d key) value); cbn [length]; lia.
Qed.

Lemma jsval_eqb_sym a b : jsval_eqb a b = jsval_eqb b a.
Proof.
  destruct (jsval_eqb a b) eqn:E1, (jsval_eqb b a) eqn:E2; try reflexivity.
  - apply jsval_eqb_eq in E1. subst. 
    rewrite (proj2 (jsval_eqb_eq b b) eq_refl) in E2. discriminate.
  - apply jsval_eqb_eq in E2. subst.
    rewrite (proj2 (jsval_eqb_eq a a) eq_refl) in E1. discriminate.
Qed.

Lemma tally_pairs_fst value pairs :
  map fst (tally_pairs value pairs)
  = if existsb (fun v => jsval_eqb v value) (map fst pairs) then map fst pairs
    else map fst pairs ++ [value].
Proof.
  induction pairs as [|[v n] pairs IH]; [reflexivity|].
  cbn [tally_pairs map existsb fst].
  destruct (jsval_eqb v value); cbn [orb map fst]; [reflexivity|].
  rewrite IH. now destruct (existsb _ (map fst pairs)).
Qed.

Lemma tally_pairs_In value pairs v n :
  NoDup (map fst pairs) ->
  In (v, n) (tally_pairs value pairs) ->
  (v <> value /\ In (v, n) pairs) \/
  (v = value /\ ((n = 1 /\ ~ In value (map fst pairs)) \/ In (v, n - 1) pairs)).
Proof.
  induction pairs as [|[v0 n0] pairs IH]; cbn [tally_pairs map fst]; intros Hnd Hin.
  - destruct Hin as [[= <- <-]|[]]. right. split; [reflexivity|]. left. split; auto.
  - inversion Hnd as [|? ? Hnotin Hnd']; subst.
    destruct (jsval_eqb v0 value) eqn:E.
    + apply jsval_eqb_eq in E. subst v0.
      destruct Hin as [[= <- <-]|Hin].
      * right. split; [reflexivity|]. right. left. f_equal. lia.
      * left. split; [|now right].
        intros ->. apply Hnotin. apply (in_map fst) in Hin. exact Hin.
    + assert (Hne : v0 <> value).
      { intros ->. rewrite (proj2 (jsval_eqb_eq value value) eq_refl) in E. discriminate. }
      destruct Hin as [[= <- <-]|Hin].
      * left. split; [exact Hne | now left].
      * destruct (IH Hnd' Hin) as [[H1 H2]|[H1 [[H2 H3]|H2]]].
        -- left. split; [exact H1 | now right].
        -- right. split; [exact H1|]. left. split; [exact H2|].
           cbn [In]. intros [->|H]; [now apply Hne | now apply H3].
        -- right. split; [exact H1|]. right. now right.
Qed.

Lemma tallied_step seen pairs d :
  tallied seen pairs -> tallied (seen ++ [d]) (tally_pairs (obj_get d key) pairs).
Proof.
  intros (Hnd & Hcount & Hall).
  split; [|split].
  - rewrite tally_pairs_fst.
    destruct (existsb _ (map fst pairs)) eqn:E; [exact Hnd|].
    apply NoDup_app; [exact Hnd | repeat constructor; intros [] |].
    intros v Hin [<-|[]].
    assert (existsb (fun v' => jsval_eqb v' (obj_get d key)) (map fst pairs) = true).
    { apply existsb_exists. exists (obj_get d key). split; [exact Hin|].
      now apply jsval_eqb_eq. }
    congruence.
  - intros v n Hin. rewrite records_with_snoc.
    destruct (tally_pairs_In _ _ _ _ Hnd Hin) as [[Hne Hin']|[-> [[-> Hnew]|Hin']]].
    + destruct (Hcount v n Hin') as [-> Hpos].
      destruct (jsval_eqb (obj_get d key) v) eqn:E; [|lia].
      apply jsval_eqb_eq in E. congruence.
    + rewrite (proj2 (jsval_eqb_eq _ _) eq_refl).
      assert (records_with key (obj_get d key) seen = 0); [|lia].
      unfold records_with.
      destruct (filter _ seen) as [|x l] eqn:Ef; [reflexivity|].
      exfalso. apply Hnew.
      assert (Hx : In x (filter (fun d0 => jsval_eqb (obj_get d0 key) (obj_get d key)) seen))
        by (rewrite Ef; now left).
      apply filter_In in Hx as [Hx Hv]. apply jsval_eqb_eq in Hv.
      rewrite <- Hv. now apply Hall.
    + rewrite (proj2 (jsval_eqb_eq _ _) eq_refl).
      destruct (Hcount _ _ Hin') as [Heq Hpos]. lia.
  - intros x Hin. rewrite tally_pairs_fst.
    apply in_app_or in Hin as [Hin|[<-|[]]].
    + destruct (existsb _ (map fst pairs)); [now apply Hall|].
      apply in_or_app. left. now apply Hall.
    + destruct (existsb _ (map fst pairs)) eqn:E.
      * apply existsb_exists in E as (v & Hv & Heq).
        apply jsval_eqb_eq in Heq. now subst.
      * apply in_or_app. right. now left.
Qed.

Lemma tallied_fold data seen pairs :
  tallied seen pairs ->
  tallied (seen ++ data) (fold_left (fun ps d => tally_pairs (obj_get d key) ps) data pairs).
Proof.
  revert seen pairs.
  induction data as [|d data IH]; intros seen pairs H; cbn [fold_left].
  - now rewrite app_nil_r.
  - replace (seen ++ d :: data) with ((seen ++ [d]) ++ data)
      by now rewrite <- app_assoc.
    apply IH, tallied_step, H.
Qed.

Lemma tallied_nil : tallied [] [].
Proof. repeat split; try constructor; intros; contradiction. Qed.

Lemma total_count_items pairs :
  total_count (map item_of pairs) = fold_right (fun vn sum => snd vn + sum) 0 pairs.
Proof.
  induction pairs as [|vn pairs IH]; [reflexivity|].
  cbn [map total_count fold_right]. rewrite item_of_count.
  fold (total_count (map item_of pairs)). now rewrite IH.
Qed.

Lemma total_tally_pairs value pairs :
  fold_right (fun vn sum => snd vn + sum) 0 (tally_pairs value pairs)
  = fold_right (fun vn sum => snd vn + sum) 0 pairs + 1.
Proof.
  induction pairs as [|[v n] pairs IH]; cbn [tally_pairs fold_right snd]; [lia|].
  destruct (jsval_eqb v value); cbn [fold_right snd]; lia.
Qed.

Lemma total_fold data pairs :
  fold_right (fun vn sum => snd vn + sum) 0
    (fold_left (fun ps d => tally_pairs (obj_get d key) ps) data pairs)
  = fold_right (fun vn sum => snd vn + sum) 0 pairs + Z.of_nat (length data).
Proof.
  revert pairs.
  induction data as [|d data IH]; intros pairs; cbn [fold_left length]; [lia|].
  rewrite IH, total_tally_pairs. lia.
Qed.

(** The chart of a key: what its items are. *)
Lemma tally_chart data :
  let chart := fold_left (tally key) data [] in
  total_count chart = Z.of_nat (length data) /\
  NoDup (map (fun item => obj_get item key) chart) /\
  (forall item, In item chart ->
     obj_get item "count" = JNum (records_with key (obj_get item key) data) /\
     0 < records_with key (obj_get item key) data) /\
  (forall d, In d data -> In (obj_get d key) (map (fun item => obj_get item key) chart)).
Proof.
  cbv zeta.
  change (@nil obj) with (map item_of []) at 1 2 3 4.
  rewrite fold_tally_items.
  pose proof (tallied_fold data [] [] tallied_nil) as (Hnd & Hcount & Hall).
  cbn [app] in *.
  set (pairs := fold_left _ data []) in *.
  assert (Hkeys : map (fun item => obj_get item key) (map item_of pairs) = map fst pairs).
  { rewrite map_map. apply map_ext. intros vn. apply item_of_key. }
  rewrite Hkeys.
  split; [|split; [|split]].
  - rewrite total_count_items. unfold pairs. rewrite total_fold. reflexivity.
  - exact Hnd.
  - intros item Hin. apply in_map_iff in Hin as ([v n] & <- & Hin).
    rewrite item_of_count, item_of_key. cbn [fst snd].
    destruct (Hcount v n Hin) as [<- Hpos]. auto.
  - exact Hall.
Qed.

End Tally.

(** The counts of the damage-type chart and of the status chart each add
    up to the number of records: no record is left out or counted
    twice. *)
Theorem analytics_charts_add_up (currentData : list obj) :
  total_count (damageTypeData currentData) = Z.of_nat (length currentData) /\
  total_count (statusData currentData) = Z.of_nat (length currentData).
Proof.
  split.
  - apply (tally_chart "type"). discriminate.
  - apply (tally_chart "status"). discriminate.
Qed.

(** In the damage-type chart and in the status chart every value has one
    item, the count of an item is the number of records with its value,
    and the value of every record has an item. *)
Theorem analytics_charts_count_each_value (currentData : list obj) :
  (NoDup (map (fun item => obj_get item "type") (damageTypeData currentData)) /\
   (forall item, In item (damageTypeData currentData) ->
      obj_get item "count"
      = JNum (records_with "type" (obj_get item "type") currentData) /\
      0 < records_with "type" (obj_get item "type") currentData) /\
   (forall damage, In damage currentData ->
      In (obj_get damage "type")
         (map (fun item => obj_get item "type") (damageTypeData currentData)))) /\
  (NoDup (map (fun item => obj_get item "status") (statusData currentData)) /\
   (forall item, In item (statusData currentData) ->
      obj_get item "count"
      = JNum (records_with "status" (obj_get item "status") currentData) /\
      0 < records_with "status" (obj_get item "status") currentData) /\
   (forall damage, In damage currentData ->
      In (obj_get damage "status")
         (map (fun item => obj_get item "status") (statusData currentData)))).
Proof.
  split.
  - apply (tally_chart "type"). discriminate.
  - apply (tally_chart "status"). discriminate.
Qed.

(** ** Who gets an account, who gets a token *)

(** Registration answers 201 only for a username that no stored user
    had; it then stores exactly one user, under that username and with
    the digest of the password, never the password itself unless the
    digest is it. *)
Theorem registration_is_exclusive (req : request) (w w' : world) (resp : response) :
  post_api_register req w = (Return resp, w') ->
  status resp = 201 ->
  registered (obj_get (body req) "username") w = false /\
  registered (obj_get (body req) "username") w' = true /\
  exists stored plain,
    users w' = users w ++ [stored] /\
    obj_get (body req) "password" = JStr plain /\
    obj_get stored "username" = cast_String (obj_get (body req) "username") /\
    obj_get stored "password" = JStr (bcrypt_digest (salts w) plain).
Proof.
  destruct w as [us nid sl clk outs con cls].
  unfold post_api_register, bcrypt_hash, save, registered.
  unfold_monad. cbn -[new_User].
  destruct (truthy (obj_get (body req) "username")) eqn:Hu; cbn -[new_User]; [|not_200].
  destruct (truthy (obj_get (body req) "password")) eqn:Hp; cbn -[new_User]; [|not_200].
  pose proof (fun p => new_User_username (obj_get (body req) "username") p
                (obj_get (body req) "name") (obj_get (body req) "role")
                (obj_get (body req) "department") Hu) as Hname.
  destruct (obj_get (body req) "password") as [| | | |plain]; cbn -[new_User]; try not_200.
  destruct (String.eqb plain EmptyString); cbn -[new_User]; [not_200|].
  rewrite !Hname.
  assert (Hdone : forall outs' cls',
    existsb (has_username (cast_String (obj_get (body req) "username"))) us = false ->
    let stored := (("_id", ObjectId nid)
                     :: new_User (obj_get (body req) "username") (JStr (bcrypt_digest sl plain))
                          (obj_get (body req) "name") (obj_get (body req) "role")
                          (obj_get (body req) "department")) ++ [("__v", JNum 0)] in
    (Return created, mkWorld (us ++ [stored]) (nid + 1)%N (sl + 1)%N clk outs' con cls')
    = (Return resp, w') ->
    existsb (has_username (cast_String (obj_get (body req) "username"))) us = false /\
    existsb (has_username (cast_String (obj_get (body req) "username"))) (users w') = true /\
    exists stored0 plain0,
      users w' = us ++ [stored0] /\ JStr plain = JStr plain0 /\
      obj_get stored0 "username" = cast_String (obj_get (body req) "username") /\
      obj_get stored0 "password" = JStr (bcrypt_digest sl plain0)).
  { intros outs' cls' Hfresh stored [= <- <-]. cbn [users].
    assert (Hsname : obj_get stored "username"
                     = cast_String (obj_get (body req) "username")).
    { unfold stored. rewrite stored_field by discriminate. apply Hname. }
    split; [exact Hfresh|]. split.
    - rewrite existsb_app. cbn [existsb]. unfold has_username at 2.
      rewrite Hsname, (proj2 (jsval_eqb_eq _ _) eq_refl). now rewrite !orb_true_r.
    - exists stored, plain. repeat split; auto.
      unfold stored. rewrite stored_field by discriminate. apply new_User_password. }
  destruct outs as [|[|] outs]; cbn -[new_User]; try not_200;
    (destruct (existsb _ us) eqn:Hfresh; cbn -[new_User]; [not_200|]);
    intros Hrun _; exact (Hdone _ _ eq_refl Hrun).
Qed.

Lemma has_key_without_other k k' o :
  k <> k' -> has_key k' (obj_without k o) = has_key k' o.
Proof.
  intros Hne. unfold obj_without, has_key.
  induction o as [|[k0 v0] o IH]; cbn; [reflexivity|].
  destruct (String.eqb_spec k0 k) as [->|]; cbn.
  - destruct (String.eqb_spec k k'); [congruence | exact IH].
  - now rewrite IH.
Qed.

Lemma keys_without k o :
  keys (obj_without k o) = filter (fun k' => negb (String.eqb k' k)) (keys o).
Proof.
  unfold obj_without, keys.
  induction o as [|[k0 v0] o IH]; cbn; [reflexivity|].
  destruct (String.eqb k0 k); cbn; now rewrite IH.
Qed.

(** The MongoDB-backed server gives a token only to a request for which
    the lookup by the submitted username (a string, or the string form
    of a number or boolean) found a stored user, and whose password is a
    string that the hash check accepts against the hash stored for that
    user.  The token verifies, at the time of the login, to the [_id],
    username and role of that user, and the user that comes back is that
    document with its fields in their order, the [password] left out. *)
Theorem login_needs_valid_credentials (req : request) (w w' : world) (resp : response) :
  post_api_login req w = (Return resp, w') ->
  status resp = 200 ->
  exists doc plain hash,
    In doc (users w) /\
    obj_get doc "username" = cast_String (obj_get (body req) "username") /\
    obj_get (body req) "password" = JStr plain /\
    obj_get doc "password" = JStr hash /\
    bcrypt_check plain hash = true /\
    sent resp = LoginBody "Login successful"
                  (jwt_sign [("id", obj_get doc "_id"); ("username", obj_get doc "username");
                             ("role", obj_get doc "role")] JWT_SECRET expiresIn_24h (clock w))
                  (obj_without "password" doc) /\
    find (has_username (cast_String (obj_get (body req) "username"))) (users w) = Some doc /\
    exists token u claims,
      sent resp = LoginBody "Login successful" token u /\
      jwt_verify (JStr token) JWT_SECRET (clock w) = inr claims /\
      obj_get claims "id" = obj_get doc "_id" /\
      obj_get claims "username" = obj_get doc "username" /\
      obj_get claims "role" = obj_get doc "role" /\
      has_key "password" u = false /\
      keys u = filter (fun k => negb (String.eqb k "password")) (keys doc) /\
      forall k, k <> "password" ->
                obj_get u k = obj_get doc k /\ has_key k u = has_key k doc.
Proof.
  intros Hrun H200.
  destruct (login_success req w w' resp Hrun H200)
    as (doc & plain & hash & Hfind & _ & Hp & Hh & Hc & ->).
  pose proof Hfind as Hfound.
  apply found_has_username in Hfind as [Hin Hname].
  exists doc, plain, hash.
  do 6 (split; [auto; fail|]).
  split; [exact Hfound|].
  destruct (login_claims (obj_get doc "_id") (obj_get doc "username") (obj_get doc "role")
              (clock w)) as (C1 & C2 & C3 & _).
  eexists _, _, _. split; [reflexivity|].
  split.
  { rewrite jwt_verify_sign by apply NoDup_login_keys.
    replace (clock w + expiresIn_24h <=? clock w) with false; [reflexivity|].
    symmetry. apply Z.leb_gt. unfold expiresIn_24h. lia. }
  split; [exact C1|]. split; [exact C2|]. split; [exact C3|].
  split; [apply has_key_without|]. split; [apply keys_without|].
  intros k Hk. split.
  - apply obj_get_without_other. congruence.
  - apply has_key_without_other. congruence.
Qed.

(** The static server gives a token only for the username [admin] or
    [officer], written exactly so, and only when the hash check accepts
    the password against the hash written in the source for it. *)
Theorem static_login_needs_valid_credentials
        (req : request) (w w' : world) (resp : response) :
  static_post_api_login req w = (Return resp, w') ->
  status resp = 200 ->
  exists user plain hash,
    ((obj_get (body req) "username" = JStr "admin" /\ user = static_admin) \/
     (obj_get (body req) "username" = JStr "officer" /\ user = static_officer)) /\
    obj_get (body req) "password" = JStr plain /\
    obj_get user "password" = JStr hash /\
    bcrypt_check plain hash = true /\
    sent resp = LoginBody "Login successful"
                  (jwt_sign [("id", obj_get user "id"); ("username", obj_get user "username");
                             ("role", obj_get user "role")] JWT_SECRET expiresIn_24h (clock w))
                  (obj_without "password" user).
Proof.
  intros Hrun H200.
  destruct (static_login_success req w w' resp Hrun H200)
    as (u & plain & hash & Hfind & Hp & Hh & Hc & ->).
  apply findUserByUsername_cases in Hfind.
  exists u, plain, hash. repeat split; auto.
Qed.

(** ** The work a login does *)

(** The hash check is run only when the lookup found a stored user for
    the username: a login with an unknown username ends after the
    lookup, with 401, and a login with a known one goes on to
    [bcrypt.compare], whatever the password is.  When the password is a
    string that the check rejects the answer is the same 401, so the two
    failure causes then differ in the work done and not in the
    response. *)
Theorem login_compares_only_for_known_users (req : request) (w : world) :
  present (obj_get (body req) "username") ->
  present (obj_get (body req) "password") ->
  store_up w ->
  (find (has_username (cast_String (obj_get (body req) "username"))) (users w) = None ->
   calls (snd (post_api_login req w))
   = calls w ++ [FindOne (obj_get (body req) "username")]) /\
  (forall doc,
     find (has_username (cast_String (obj_get (body req) "username"))) (users w) = Some doc ->
     calls (snd (post_api_login req w))
     = calls w ++ [FindOne (obj_get (body req) "username");
                   Compare (obj_get (body req) "password")]) /\
  (find (has_username (cast_String (obj_get (body req) "username"))) (users w) = None ->
   fst (post_api_login req w) = Return invalid_credentials) /\
  (forall doc plain hash,
     find (has_username (cast_String (obj_get (body req) "username"))) (users w) = Some doc ->
     obj_get (body req) "password" = JStr plain ->
     obj_get doc "password" = JStr hash ->
     bcrypt_check plain hash = false ->
     fst (post_api_login req w) = Return invalid_credentials).
Proof.
  intros Hu Hp Hup.
  split; [|split; [|split]].
  - intros Hfind. unfold present in *.
    unfold post_api_login, User_findOne, bcrypt_compare, toObject.
    rewrite Hu, Hp. cbn [negb orb].
    store_is_up w Hup; unfold_monad; cbn; rewrite Hfind; reflexivity.
  - intros doc Hfind. unfold present in *.
    unfold post_api_login, User_findOne, bcrypt_compare, toObject.
    rewrite Hu, Hp. cbn [negb orb].
    store_is_up w Hup; unfold_monad; cbn; rewrite Hfind; cbn;
      destruct (obj_get (body req) "password"), (obj_get doc "password"); cbn;
      try destruct (bcrypt_check _ _); cbn; now rewrite <- app_assoc.
  - now apply login_unknown_user.
  - intros doc plain hash Hfind Hpw Hhash Hcheck.
    apply (login_wrong_password req w doc plain hash); auto.
    intros ->. unfold present in Hp. rewrite Hpw in Hp. discriminate.
Qed.

(** ** What the seeder adds *)

(** Whatever the store does, a run of the seeder adds nothing, the
    [admin] account, the [officer] account, or both in this order, each
    with the digest of its default password: never another account, and
    never two of one. *)
Theorem seeder_adds_only_the_defaults (w : world) :
  exists added,
    users (snd (seedDefaultUsers w)) = users w ++ added /\
    (added = [] \/
     added = [admin_doc (next_id w) (salts w)] \/
     added = [officer_doc (next_id w) (salts w)] \/
     added = [admin_doc (next_id w) (salts w);
              officer_doc (next_id w + 1) (salts w + 1)]).
Proof.
  destruct w as [us nid sl clk outs con cls].
  unfold seedDefaultUsers, User_findOne, User_create, save, bcrypt_hash.
  unfold_monad. cbn.
  case_split;
    first
      [ exists []; split; [now rewrite app_nil_r | tauto]
      | exists [admin_doc nid sl]; split; [reflexivity | tauto]
      | exists [officer_doc nid sl]; split; [reflexivity | tauto]
      | exists [admin_doc nid sl; officer_doc (nid + 1) (sl + 1)]; split;
        [now rewrite <- app_assoc | tauto] ].
Qed.

End Properties.

(** * The theorems at sample inputs *)

Lemma login_non_string_password_reveals_user_witness :
  let unknown := sample_request None [("username", JStr "ghost"); ("password", JNum 123)] in
  let known := sample_request None [("username", JStr "admin"); ("password", JNum 123)] in
  fst (post_api_login (crypto := sample_crypto) unknown sample_seeded)
  = Return invalid_credentials /\
  fst (post_api_login (crypto := sample_crypto) known sample_seeded)
  = Return internal_error /\
  fst (static_post_api_login (crypto := sample_crypto) unknown sample_seeded)
  = Return invalid_credentials /\
  fst (static_post_api_login (crypto := sample_crypto) known sample_seeded)
  = Return internal_error /\
  invalid_credentials <> internal_error.
Proof.
  cbv zeta.
  assert (Hnum : forall plain, JNum 123 <> JStr plain) by (intros plain; discriminate).
  pose proof (login_non_string_password_reveals_user (crypto := sample_crypto)
                (sample_request None [("username", JStr "ghost"); ("password", JNum 123)])
                sample_seeded eq_refl eq_refl Hnum) as (U1 & _ & U3 & _ & D).
  pose proof (login_non_string_password_reveals_user (crypto := sample_crypto)
                (sample_request None [("username", JStr "admin"); ("password", JNum 123)])
                sample_seeded eq_refl eq_refl Hnum) as (_ & K2 & _ & K4 & _).
  split; [|split; [|split; [|split]]].
  - apply U1; [exact I | reflexivity].
  - eapply K2; [exact I | reflexivity].
  - apply U3. reflexivity.
  - eapply K4. reflexivity.
  - exact D.
Defined.

Lemma login_failures_indistinguishable_witness :
  let missing := sample_request None [("username", JStr "ghost")] in
  let unknown := sample_request None [("username", JStr "ghost"); ("password", JStr "wrong")] in
  let wrong := sample_request None [("username", JStr "admin"); ("password", JStr "wrong")] in
  post_api_login (crypto := sample_crypto) missing sample_seeded
  = (Return (mkResponse 400 (MessageBody "Username and password are required")),
     sample_seeded) /\
  static_post_api_login (crypto := sample_crypto) missing sample_seeded
  = (Return (mkResponse 400 (MessageBody "Username and password are required")),
     sample_seeded) /\
  fst (post_api_login (crypto := sample_crypto) unknown sample_seeded)
  = Return invalid_credentials /\
  fst (post_api_login (crypto := sample_crypto) wrong sample_seeded)
  = Return invalid_credentials /\
  fst (static_post_api_login (crypto := sample_crypto) unknown sample_seeded)
  = Return invalid_credentials /\
  fst (static_post_api_login (crypto := sample_crypto) wrong sample_seeded)
  = Return invalid_credentials.
Proof.
  cbv zeta.
  pose proof (proj1 (login_failures_indistinguishable (crypto := sample_crypto)
                       (sample_request None [("username", JStr "ghost")]) sample_seeded)
                    (or_intror eq_refl)) as (M1 & M2).
  pose proof (proj2 (login_failures_indistinguishable (crypto := sample_crypto)
                       (sample_request None
                          [("username", JStr "ghost"); ("password", JStr "wrong")])
                       sample_seeded) eq_refl eq_refl) as (U1 & _ & U3 & _).
  pose proof (proj2 (login_failures_indistinguishable (crypto := sample_crypto)
                       (sample_request None
                          [("username", JStr "admin"); ("password", JStr "wrong")])
                       sample_seeded) eq_refl eq_refl) as (_ & W2 & _ & W4).
  split; [exact M1|]. split; [exact M2|].
  split; [|split; [|split]].
  - apply U1; [exact I | reflexivity].
  - eapply W2; [exact I | reflexivity | reflexivity | reflexivity | reflexivity].
  - apply U3. reflexivity.
  - eapply W4; reflexivity.
Defined.

Lemma auth_gate_three_way_witness :
  let next : handler := fun req => res_json (UserBody (user req)) in
  let none := sample_request None [] in
  let bad := sample_request (Some "Bearer abc") [] in
  let good := sample_request (Some ("Bearer " +++ sample_token)) [] in
  authenticateToken (crypto := sample_crypto) none next sample_seeded
  = (Return unauthenticated, sample_seeded) /\
  authenticateToken (crypto := sample_crypto) bad next sample_seeded
  = (Return forbidden, sample_seeded) /\
  authenticateToken (crypto := sample_crypto) good next sample_seeded
  = (Return (mkResponse 200 (UserBody
       [("id", JStr "0"); ("username", JStr "admin"); ("role", JStr "admin");
        ("iat", JNum 1000); ("exp", JNum 87400)])), sample_seeded).
Proof.
  cbv zeta.
  split; [|split].
  - apply (auth_gate_three_way (crypto := sample_crypto)). reflexivity.
  - eapply (auth_gate_three_way (crypto := sample_crypto)); [reflexivity|].
    vm_compute. reflexivity.
  - pose proof (auth_gate_three_way (crypto := sample_crypto)
                  (sample_request (Some ("Bearer " +++ sample_token)) [])
                  (fun req => res_json (UserBody (user req))) sample_seeded)
      as (_ & _ & H).
    destruct (H [("id", JStr "0"); ("username", JStr "admin"); ("role", JStr "admin");
                 ("iat", JNum 1000); ("exp", JNum 87400)]) as [Hrun _].
    + reflexivity.
    + vm_compute. reflexivity.
    + rewrite Hrun. reflexivity.
Defined.

Lemma token_validity_witness :
  let token := jwt_sign (crypto := sample_crypto)
                 [("id", JStr "0"); ("username", JStr "admin"); ("role", JStr "admin")]
                 JWT_SECRET expiresIn_24h 1000 in
  (exists claims,
     jwt_verify (crypto := sample_crypto) (JStr token) JWT_SECRET 87399 = inr claims /\
     obj_get claims "iat" = JNum 1000 /\
     obj_get claims "exp" = JNum (1000 + 86400)) /\
  jwt_verify (crypto := sample_crypto) (JStr token) JWT_SECRET 87400
  = inl (Expired (1000 + 86400)) /\
  (exists reason,
     jwt_verify (crypto := sample_crypto) (JStr token) "another secret" 2000
     = inl (Invalid reason)) /\
  (exists reason,
     jwt_verify (crypto := sample_crypto) (JStr "a.b.c") JWT_SECRET 2000
     = inl (Invalid reason)) /\
  (exists reason,
     jwt_verify (crypto := sample_crypto) (JStr "abc") JWT_SECRET 2000
     = inl (Invalid reason)).
Proof.
  cbv zeta.
  split; [|split; [|split; [|split]]].
  - apply (token_validity (crypto := sample_crypto) JWT_SECRET
             (JStr "0") (JStr "admin") (JStr "admin") 1000 87399).
    reflexivity.
  - apply (token_validity (crypto := sample_crypto) JWT_SECRET
             (JStr "0") (JStr "admin") (JStr "admin") 1000 87400).
    discriminate.
  - pose proof (token_validity (crypto := sample_crypto) "another secret"
                  (JStr "0") (JStr "admin") (JStr "admin") 1000 2000)
      as (_ & _ & _ & H & _).
    eapply H.
    + apply split_token.
    + vm_compute. discriminate.
  - pose proof (token_validity (crypto := sample_crypto) JWT_SECRET
                  (JStr "0") (JStr "admin") (JStr "admin") 1000 2000)
      as (_ & _ & _ & H & _).
    eapply H; [reflexivity | vm_compute; discriminate].
  - pose proof (token_validity (crypto := sample_crypto) JWT_SECRET
                  (JStr "0") (JStr "admin") (JStr "admin") 1000 2000)
      as (_ & _ & _ & _ & H & _).
    apply H. vm_compute. discriminate.
Defined.

Lemma seeder_idempotent_witness :
  let w1 := snd (seedDefaultUsers (crypto := sample_crypto) sample_empty) in
  let w2 := snd (seedDefaultUsers (crypto := sample_crypto) w1) in
  count_username "admin" (users w2) = 1%nat /\
  count_username "officer" (users w2) = 1%nat /\
  users w2 = users w1 /\
  unique_usernames (users w2) /\
  calls w2 = calls w1 ++ [FindOne (JStr "admin"); FindOne (JStr "officer")] /\
  hashes (calls w2) = hashes (calls w1) /\
  salts w2 = salts w1.
Proof.
  apply (seeder_idempotent (crypto := sample_crypto) sample_empty).
  - reflexivity.
  - constructor.
Defined.

(** When the store refuses the creation of [admin], [officer] is not
    stored and nothing is hashed or saved for it in that run. *)
Lemma seeder_admin_failure_skips_officer :
  let w' := snd (seedDefaultUsers (crypto := sample_crypto) sample_outage) in
  find (has_username (JStr "officer")) (users sample_outage) = None /\
  console w' = [("❌ Error seeding users:", Some StoreError)] /\
  In (Save (JStr "admin")) (calls w') /\
  find (has_username (JStr "officer")) (users w') = None /\
  ~ In (Hash (JStr "officer456")) (calls w') /\
  ~ In (Save (JStr "officer")) (calls w').
Proof.
  vm_compute. repeat split; auto 10; intros H;
    repeat (destruct H as [H|H]; [discriminate H|]); exact H.
Qed.

Lemma seeder_failure_is_contained_witness :
  let w' := snd (seedDefaultUsers (crypto := sample_crypto) sample_outage) in
  refused (seeder_calls sample_outage) sample_outage = true /\
  fst (seedDefaultUsers (crypto := sample_crypto) sample_outage) = Return tt /\
  (exists logs,
     (logs = [] \/ logs = [("✅ Admin user seeded", None)]) /\
     console w' = console sample_outage ++ logs ++
                  [("❌ Error seeding users:", Some StoreError)]) /\
  users w' = users sample_outage /\
  console w' = console sample_outage ++ [("❌ Error seeding users:", Some StoreError)] /\
  calls w' = calls sample_outage ++
             [FindOne (JStr "admin"); FindOne (JStr "officer");
              Hash (JStr "government123"); Save (JStr "admin")] /\
  refused (seeder_calls sample_empty) sample_empty = false /\
  console (snd (seedDefaultUsers (crypto := sample_crypto) sample_empty))
  = console sample_empty ++ [("✅ Admin user seeded", None); ("✅ Officer user seeded", None)].
Proof.
  cbv zeta.
  pose proof (seeder_failure_is_contained (crypto := sample_crypto) sample_outage [])
    as [H1 [H2 [_ H4]]].
  pose proof (seeder_failure_is_contained (crypto := sample_crypto) sample_empty [])
    as [_ [_ [S3 _]]].
  split; [reflexivity|].
  split; [exact H1|].
  split; [apply H2; reflexivity|].
  destruct (H4 eq_refl eq_refl) as (U & C & K).
  split; [exact U|]. split; [exact C|]. split; [exact K|].
  split; [reflexivity|].
  apply S3. reflexivity.
Defined.

(** A registration without name, role and department is answered 201. *)
Lemma register_without_name_role_department :
  let req := sample_request None [("username", JStr "bob"); ("password", JStr "secret")] in
  obj_get (body req) "name" = JUndefined /\
  obj_get (body req) "role" = JUndefined /\
  obj_get (body req) "department" = JUndefined /\
  fst (post_api_register (crypto := sample_crypto) req sample_seeded) = Return created /\
  fst (post_api_register (crypto := sample_crypto) req sample_seeded)
  <> Return (mkResponse 400 (MessageBody "Username and password required")).
Proof. repeat split; try reflexivity. discriminate. Qed.

Lemma register_validation_witness :
  let missing := sample_request None [("username", JStr "bob"); ("name", JStr "Bob")] in
  let fresh := sample_request None [("username", JStr "bob"); ("password", JStr "secret")] in
  post_api_register (crypto := sample_crypto) missing sample_seeded
  = (Return (mkResponse 400 (MessageBody "Username and password required")), sample_seeded) /\
  exists w' stored,
    post_api_register (crypto := sample_crypto) fresh sample_seeded
    = (Return (mkResponse 201 (MessageBody "User registered successfully")), w') /\
    users w' = users sample_seeded ++ [stored] /\
    obj_get stored "username" = JStr "bob".
Proof.
  cbv zeta. split.
  - apply (register_validation (crypto := sample_crypto)). right. reflexivity.
  - apply (proj2 (register_validation (crypto := sample_crypto)
                    (sample_request None [("username", JStr "bob"); ("password", JStr "secret")])
                    sample_seeded) "secret");
      [reflexivity | reflexivity | discriminate | exact I | reflexivity].
Defined.

Lemma register_duplicate_is_500_witness :
  let req := sample_request None [("username", JStr "admin"); ("password", JStr "secret")] in
  exists w',
    post_api_register (crypto := sample_crypto) req sample_seeded
    = (Return (mkResponse 500 (MessageBody "Internal server error")), w') /\
    status (mkResponse 500 (MessageBody "Internal server error")) <> 409 /\
    users w' = users sample_seeded /\
    console w' = console sample_seeded ++
      [("Register error:", Some (DuplicateKey (JStr "admin")))].
Proof.
  apply (register_duplicate_is_500 (crypto := sample_crypto)
           (sample_request None [("username", JStr "admin"); ("password", JStr "secret")])
           sample_seeded "secret");
    [reflexivity | reflexivity | discriminate | exact I | reflexivity].
Defined.

Lemma scheme_not_checked_witness :
  let next : handler := fun req => res_json (MessageBody "Logged out successfully") in
  authenticateToken (crypto := sample_crypto)
    (sample_request (Some ("Basic " +++ sample_token)) []) next sample_seeded
  = (Return (mkResponse 200 (MessageBody "Logged out successfully")), sample_seeded) /\
  authenticateToken (crypto := sample_crypto)
    (sample_request (Some "Bearer") []) next sample_seeded
  = (Return unauthenticated, sample_seeded) /\
  authenticateToken (crypto := sample_crypto)
    (sample_request (Some sample_token) []) next sample_seeded
  = (Return unauthenticated, sample_seeded).
Proof.
  cbv zeta. split; [|split].
  - pose proof (scheme_not_checked (crypto := sample_crypto)
                  (sample_request (Some ("Basic " +++ sample_token)) [])
                  (fun req => res_json (MessageBody "Logged out successfully"))
                  sample_seeded ("Basic " +++ sample_token) eq_refl) as (_ & H & _).
    rewrite (H sample_token
               [("id", JStr "0"); ("username", JStr "admin"); ("role", JStr "admin");
                ("iat", JNum 1000); ("exp", JNum 87400)]);
      [reflexivity | reflexivity | vm_compute; reflexivity | reflexivity].
  - apply (scheme_not_checked (crypto := sample_crypto)
             (sample_request (Some "Bearer") []) _ sample_seeded "Bearer" eq_refl).
    reflexivity.
  - apply (scheme_not_checked (crypto := sample_crypto)
             (sample_request (Some sample_token) []) _ sample_seeded sample_token eq_refl).
    reflexivity.
Defined.



Example split_bearer : split " " "Bearer abc" = ["Bearer"; "abc"].
Proof. reflexivity. Qed.

Example b64_foobar : b64_encode "foobar" = "Zm9vYmFy".
Proof. reflexivity. Qed.

Example b64_foob : b64_decode (b64_encode "foob") = Some "foob".
Proof. reflexivity. Qed.

Lemma sample_crypto_sound : bcrypt_sound (crypto := sample_crypto).
Proof. intros salt plain. apply String.eqb_refl. Qed.

Lemma reading_endpoints_leave_the_store_witness :
  users (snd (post_api_login (crypto := sample_crypto) sample_login sample_seeded))
  = users sample_seeded /\
  next_id (snd (post_api_login (crypto := sample_crypto) sample_login sample_seeded))
  = next_id sample_seeded /\
  clock (snd (post_api_login (crypto := sample_crypto) sample_login sample_seeded))
  = clock sample_seeded.
Proof.
  apply (reading_endpoints_leave_the_store (crypto := sample_crypto)
           sample_login sample_seeded post_api_login).
  left. reflexivity.
Defined.

Lemma writing_only_appends_witness :
  let w' := snd (post_api_register (crypto := sample_crypto) sample_registration sample_seeded) in
  (exists added, users w' = users sample_seeded ++ added) /\
  (forall username doc,
     find (has_username username) (users sample_seeded) = Some doc ->
     find (has_username username) (users w') = Some doc) /\
  store_ok w'.
Proof.
  cbv zeta.
  destruct (writing_only_appends (crypto := sample_crypto) sample_registration sample_seeded
              _ (or_introl eq_refl)) as (H1 & H2 & H3).
  split; [exact H1|]. split; [exact H2|].
  apply H3. split; [|split].
  - repeat constructor; cbn; intuition discriminate.
  - repeat constructor; cbn; intuition discriminate.
  - repeat constructor; [exists 0%N | exists 1%N]; split; reflexivity.
Defined.

Lemma registration_is_exclusive_witness :
  exists resp w',
    post_api_register (crypto := sample_crypto) sample_registration sample_seeded
    = (Return resp, w') /\
    status resp = 201 /\
    registered (JStr "bob") sample_seeded = false /\
    registered (JStr "bob") w' = true /\
    exists stored plain,
      users w' = users sample_seeded ++ [stored] /\
      JStr "secret" = JStr plain /\
      obj_get stored "username" = JStr "bob" /\
      obj_get stored "password" = JStr ("$2b$10$" +++ plain).
Proof.
  eexists _, _. split; [vm_compute; reflexivity|]. split; [reflexivity|].
  eapply (registration_is_exclusive (crypto := sample_crypto) sample_registration
            sample_seeded); [vm_compute; reflexivity | reflexivity].
Defined.

Lemma register_then_login_witness :
  let w1 := snd (post_api_register (crypto := sample_crypto) sample_registration sample_seeded) in
  fst (post_api_register (crypto := sample_crypto) sample_registration sample_seeded)
  = Return created /\
  exists token u,
    fst (post_api_login (crypto := sample_crypto) sample_registration w1)
    = Return (mkResponse 200 (LoginBody "Login successful" token u)) /\
    obj_get u "username" = JStr "bob" /\
    obj_get u "_id" = ObjectId 2 /\
    obj_get u "password" = JUndefined.
Proof.
  apply (register_then_login (crypto := sample_crypto) sample_registration sample_seeded
           "secret" sample_crypto_sound);
    [reflexivity | reflexivity | discriminate | reflexivity | exact I | exact I].
Defined.

Lemma login_needs_valid_credentials_witness :
  exists resp w' doc plain hash token u claims,
    post_api_login (crypto := sample_crypto) sample_login sample_seeded = (Return resp, w') /\
    status resp = 200 /\
    In doc (users sample_seeded) /\
    obj_get doc "username" = JStr "admin" /\
    JStr "government123" = JStr plain /\
    obj_get doc "password" = JStr hash /\
    bcrypt_check (Crypto := sample_crypto) plain hash = true /\
    find (has_username (JStr "admin")) (users sample_seeded) = Some doc /\
    sent resp = LoginBody "Login successful" token u /\
    jwt_verify (crypto := sample_crypto) (JStr token) JWT_SECRET (clock sample_seeded)
    = inr claims /\
    obj_get claims "id" = obj_get doc "_id" /\
    obj_get claims "username" = obj_get doc "username" /\
    obj_get claims "role" = obj_get doc "role" /\
    has_key "password" u = false /\
    keys u = filter (fun k => negb (String.eqb k "password")) (keys doc) /\
    forall k, k <> "password" ->
              obj_get u k = obj_get doc k /\ has_key k u = has_key k doc.
Proof.
  destruct (login_needs_valid_credentials (crypto := sample_crypto) sample_login sample_seeded
              _ _ eq_refl eq_refl)
    as (doc & plain & hash & H1 & H2 & H3 & H4 & H5 & _ & H7 & token & u & claims &
        T1 & T2 & T3 & T4 & T5 & T6 & T7 & T8).
  eexists _, _, doc, plain, hash, token, u, claims.
  split; [reflexivity|]. split; [reflexivity|].
  repeat (split; [assumption|]). exact T8.
Defined.

Lemma static_login_needs_valid_credentials_witness :
  exists resp w' user plain hash,
    static_post_api_login (crypto := sample_crypto) sample_static_login sample_empty
    = (Return resp, w') /\
    status resp = 200 /\
    user = static_admin /\
    obj_get (body sample_static_login) "password" = JStr plain /\
    obj_get user "password" = JStr hash /\
    bcrypt_check (Crypto := sample_crypto) plain hash = true.
Proof.
  destruct (static_login_needs_valid_credentials (crypto := sample_crypto)
              sample_static_login sample_empty _ _ eq_refl eq_refl)
    as (u & plain & hash & [[_ H1]|[H1 _]] & H2 & H3 & H4 & _); [|discriminate H1].
  eexists _, _, u, plain, hash. split; [reflexivity|]. split; [reflexivity|].
  auto.
Defined.

Lemma login_session_lasts_24h_witness :
  exists token u doc claims,
    fst (post_api_login (crypto := sample_crypto) sample_login sample_seeded)
    = Return (mkResponse 200 (LoginBody "Login successful" token u)) /\
    In doc (users sample_seeded) /\
    obj_get claims "id" = obj_get doc "_id" /\
    obj_get claims "username" = JStr "admin" /\
    obj_get claims "role" = obj_get doc "role" /\
    (forall (req2 : request) (next : handler) (w2 : world) (scheme : string),
       contains " " scheme = false ->
       header req2 "authorization" = Some (scheme +++ " " +++ token) ->
       (clock w2 < clock sample_seeded + 86400 ->
        authenticateToken (crypto := sample_crypto) req2 next w2
        = next (with_user req2 claims) w2) /\
       (clock sample_seeded + 86400 <= clock w2 ->
        authenticateToken (crypto := sample_crypto) req2 next w2 = (Return forbidden, w2))) /\
    find (has_username (JStr "admin")) (users sample_seeded) = Some doc /\
    obj_get doc "username" = JStr "admin" /\
    obj_get claims "iat" = JNum (clock sample_seeded) /\
    obj_get claims "exp" = JNum (clock sample_seeded + 86400) /\
    (forall req2 : request,
       user (with_user req2 claims) = claims /\
       headers (with_user req2 claims) = headers req2 /\
       body (with_user req2 claims) = body req2).
Proof.
  destruct (login_session_lasts_24h (crypto := sample_crypto) sample_login sample_seeded
              _ _ eq_refl eq_refl)
    as (token & u & doc & claims & H0 & H1 & H2 & H3 & H4 & H5 & H6 & H7 & H8 & H9 & H10).
  exists token, u, doc, claims.
  cbn [sent] in H0. injection H0 as <- <-.
  split; [reflexivity|]. repeat (split; [assumption|]). exact H10.
Defined.

Lemma static_login_then_profile_witness :
  exists token u,
    fst (static_post_api_login (crypto := sample_crypto) sample_static_login sample_empty)
    = Return (mkResponse 200 (LoginBody "Login successful" token u)) /\
    static_get_api_user (crypto := sample_crypto)
      (sample_request (Some ("Bearer " +++ token)) []) sample_seeded
    = (Return (mkResponse 200 (UserBody u)), sample_seeded).
Proof.
  destruct (static_login_then_profile (crypto := sample_crypto) sample_static_login
              sample_empty _ _ eq_refl eq_refl) as (token & u & H0 & H1).
  exists token, u.
  cbn [sent] in H0. injection H0 as <- <-.
  split; [reflexivity|].
  apply H1; reflexivity.
Defined.

Lemma login_then_profile_witness :
  exists token u,
    fst (post_api_login (crypto := sample_crypto) sample_login sample_seeded)
    = Return (mkResponse 200 (LoginBody "Login successful" token u)) /\
    fst (get_api_user (crypto := sample_crypto)
           (sample_request (Some ("Bearer " +++ token)) []) sample_seeded)
    = Return (mkResponse 200 (UserBody u)).
Proof.
  destruct (login_then_profile (crypto := sample_crypto) sample_login sample_seeded
              _ _ eq_refl eq_refl) as (token & u & H0 & H1).
  exists token, u.
  cbn [sent] in H0. injection H0 as <- <-.
  split; [reflexivity|].
  apply (H1 _ sample_seeded []); [reflexivity | reflexivity | reflexivity | | exact I].
  split.
  - repeat constructor; cbn; intuition discriminate.
  - repeat constructor; [exists 0%N | exists 1%N]; split; reflexivity.
Defined.

Lemma protected_endpoints_need_a_valid_token_witness :
  let req := sample_request (Some ("Bearer " +++ sample_token)) [] in
  exists resp w',
    get_api_dashboard_stats (crypto := sample_crypto) req sample_seeded = (Return resp, w') /\
    status resp = 200 /\
    valid_bearer (crypto := sample_crypto) req sample_seeded.
Proof.
  cbv zeta. eexists _, _. split; [vm_compute; reflexivity|]. split; [reflexivity|].
  eapply (protected_endpoints_need_a_valid_token (crypto := sample_crypto)).
  - right. left. vm_compute. reflexivity.
  - reflexivity.
Defined.

Lemma seeder_recovers_on_next_run_witness :
  let w1 := snd (seedDefaultUsers (crypto := sample_crypto) sample_outage) in
  let w2 := snd (seedDefaultUsers (crypto := sample_crypto) w1) in
  users w1 = users sample_outage /\
  count_username "admin" (users w2) = 1%nat /\
  count_username "officer" (users w2) = 1%nat /\
  unique_usernames (users w2).
Proof.
  apply (seeder_recovers_on_next_run (crypto := sample_crypto) sample_outage);
    [constructor | reflexivity | reflexivity].
Defined.

Lemma seeded_admin_can_log_in_witness :
  exists token u,
    fst (post_api_login (crypto := sample_crypto) sample_login
           (snd (seedDefaultUsers (crypto := sample_crypto) sample_empty)))
    = Return (mkResponse 200 (LoginBody "Login successful" token u)) /\
    obj_get u "username" = JStr "admin" /\
    obj_get u "role" = JStr "admin" /\
    obj_get u "password" = JUndefined.
Proof.
  apply (seeded_admin_can_log_in (crypto := sample_crypto) sample_empty sample_login
           sample_crypto_sound); reflexivity.
Defined.

Lemma analytics_charts_count_each_value_witness :
  exists item,
    In item (damageTypeData sample_damages) /\
    obj_get item "type" = JStr "Pothole" /\
    obj_get item "count" = JNum 2.
Proof.
  exists [("type", JStr "Pothole"); ("count", JNum 2)].
  assert (Hin : In [("type", JStr "Pothole"); ("count", JNum 2)]
                   (damageTypeData sample_damages)) by (left; reflexivity).
  split; [exact Hin|]. split; [reflexivity|].
  destruct (analytics_charts_count_each_value sample_damages) as [(_ & H & _) _].
  destruct (H _ Hin) as [Hc _]. rewrite Hc. reflexivity.
Defined.

Lemma login_compares_only_for_known_users_witness :
  let unknown := sample_request None [("username", JStr "ghost"); ("password", JStr "wrong")] in
  let known := sample_request None [("username", JStr "admin"); ("password", JStr "wrong")] in
  calls (snd (post_api_login (crypto := sample_crypto) unknown sample_seeded))
  = calls sample_seeded ++ [FindOne (JStr "ghost")] /\
  calls (snd (post_api_login (crypto := sample_crypto) known sample_seeded))
  = calls sample_seeded ++ [FindOne (JStr "admin"); Compare (JStr "wrong")] /\
  fst (post_api_login (crypto := sample_crypto) unknown sample_seeded)
  = Return invalid_credentials /\
  fst (post_api_login (crypto := sample_crypto) known sample_seeded)
  = Return invalid_credentials.
Proof.
  cbv zeta.
  pose proof (login_compares_only_for_known_users (crypto := sample_crypto)
                (sample_request None [("username", JStr "ghost"); ("password", JStr "wrong")])
                sample_seeded eq_refl eq_refl I) as (U1 & _ & U3 & _).
  pose proof (login_compares_only_for_known_users (crypto := sample_crypto)
                (sample_request None [("username", JStr "admin"); ("password", JStr "wrong")])
                sample_seeded eq_refl eq_refl I) as (_ & K2 & _ & K4).
  split; [|split; [|split]].
  - apply U1. reflexivity.
  - eapply K2. reflexivity.
  - apply U3. reflexivity.
  - eapply K4; reflexivity.
Defined.

(** The scenarios of the spec, on the freshly seeded store. *)
Example scenario_login_admin :
  exists token u,
    fst (post_api_login (crypto := sample_crypto)
           (sample_request None [("username", JStr "admin"); ("password", JStr "government123")])
           sample_seeded)
    = Return (mkResponse 200 (LoginBody "Login successful" token u)) /\
    token = sample_token /\
    obj_get u "role" = JStr "admin" /\
    obj_get u "password" = JUndefined.
Proof. eexists _, _. repeat split. Qed.

Example scenario_login_wrong_password :
  fst (post_api_login (crypto := sample_crypto)
         (sample_request None [("username", JStr "admin"); ("password", JStr "wrong")])
         sample_seeded)
  = Return (mkResponse 401 (MessageBody "Invalid credentials")).
Proof. reflexivity. Qed.

Example scenario_user_without_header :
  fst (get_api_user (crypto := sample_crypto) (sample_request None []) sample_seeded)
  = Return (mkResponse 401 (MessageBody "Access token required")).
Proof. reflexivity. Qed.

Example scenario_user_with_token :
  fst (get_api_user (crypto := sample_crypto)
         (sample_request (Some ("Bearer " +++ sample_token)) []) sample_seeded)
  = Return (mkResponse 200 (UserBody
      [("_id", JStr "0"); ("username", JStr "admin"); ("name", JStr "Administrator");
       ("role", JStr "admin"); ("department", JStr "System Administration");
       ("__v", JNum 0)])).
Proof. vm_compute. reflexivity. Qed.

Example json_rt :
  JSON_parse (JSON_stringify [("id", JNum 12); ("username", JStr "a\b"); ("role", JUndefined); ("x", JNum (-5)); ("y", JBool true)])
  = Some [("id", JNum 12); ("username", JStr "a\b"); ("x", JNum (-5)); ("y", JBool true)].
Proof. vm_compute. reflexivity. Qed.
